(** * Marvel character database backend: a shallow embedding of
    [backend/server.py] and the properties of its upstream client, its
    memoization and its favorites store.

    Conventions of the embedding.
    - Python [str] values are Rocq strings holding the UTF-8 bytes of the
      text, so that [s.encode()] is the identity on the underlying bytes and
      f-string concatenation is [++].
    - Python [int] is [Z]; the float returned by [time.time()] is a rational
      number of seconds, a [Q].
    - Code that raises returns in the [result] type below; the exception
      classes that the source distinguishes are the constructors of [exn].
    - The network, the clock, the uuid generator and the database driver are
      the environment: their answers are arguments of the functions. *)

From Stdlib Require Import ZArith QArith Qround List String Ascii Bool Lia Lqa.
From Stdlib Require Import DecimalString.
From Stdlib Require DecimalPos DecimalZ.
Import ListNotations.
Local Open Scope string_scope.
Local Open Scope list_scope.
Local Open Scope Z_scope.

(** ** Python values used by the source *)

Module Py.

(** [int(x)] on a float: truncation toward zero. *)
Definition int_of_float (x : Q) : Z := Z.quot (Qnum x) (Z.pos (Qden x)).

(** [str(n)] on an int: decimal digits, a leading minus sign when negative. *)
Definition str_of_int (n : Z) : string := NilZero.string_of_int (Z.to_int n).

(** [min(a, b)] on ints. *)
Definition min (a b : Z) : Z := if b <? a then b else a.

(** Truthiness of a string: the empty string is false. *)
Definition str_truthy (s : string) : bool :=
  match s with EmptyString => false | String _ _ => true end.

End Py.

(** ** hashlib.md5: RFC 1321 over 32-bit words kept in [Z] *)

Module MD5.

Definition mask32 (x : Z) : Z := x mod 2 ^ 32.

Definition add32 (x y : Z) : Z := mask32 (x + y).

Definition not32 (x : Z) : Z := Z.lxor x 0xffffffff.

Definition rotl32 (x : Z) (c : Z) : Z :=
  Z.lor (mask32 (Z.shiftl x c)) (Z.shiftr x (32 - c)).

(** Per-round shift amounts. *)
Definition s : list Z :=
  [ 7; 12; 17; 22; 7; 12; 17; 22; 7; 12; 17; 22; 7; 12; 17; 22;
    5;  9; 14; 20; 5;  9; 14; 20; 5;  9; 14; 20; 5;  9; 14; 20;
    4; 11; 16; 23; 4; 11; 16; 23; 4; 11; 16; 23; 4; 11; 16; 23;
    6; 10; 15; 21; 6; 10; 15; 21; 6; 10; 15; 21; 6; 10; 15; 21 ].

(** [K[i] = floor(2^32 * abs(sin(i + 1)))]. *)
Definition K : list Z :=
  [ 0xd76aa478; 0xe8c7b756; 0x242070db; 0xc1bdceee; 0xf57c0faf; 0x4787c62a; 0xa8304613; 0xfd469501;
    0x698098d8; 0x8b44f7af; 0xffff5bb1; 0x895cd7be; 0x6b901122; 0xfd987193; 0xa679438e; 0x49b40821;
    0xf61e2562; 0xc040b340; 0x265e5a51; 0xe9b6c7aa; 0xd62f105d; 0x02441453; 0xd8a1e681; 0xe7d3fbc8;
    0x21e1cde6; 0xc33707d6; 0xf4d50d87; 0x455a14ed; 0xa9e3e905; 0xfcefa3f8; 0x676f02d9; 0x8d2a4c8a;
    0xfffa3942; 0x8771f681; 0x6d9d6122; 0xfde5380c; 0xa4beea44; 0x4bdecfa9; 0xf6bb4b60; 0xbebfbc70;
    0x289b7ec6; 0xeaa127fa; 0xd4ef3085; 0x04881d05; 0xd9d4d039; 0xe6db99e5; 0x1fa27cf8; 0xc4ac5665;
    0xf4292244; 0x432aff97; 0xab9423a7; 0xfc93a039; 0x655b59c3; 0x8f0ccc92; 0xffeff47d; 0x85845dd1;
    0x6fa87e4f; 0xfe2ce6e0; 0xa3014314; 0x4e0811a1; 0xf7537e82; 0xbd3af235; 0x2ad7d2bb; 0xeb86d391 ].

(** The four chaining words A, B, C, D. *)
Record state := mkState { sA : Z; sB : Z; sC : Z; sD : Z }.

Definition init : state :=
  mkState 0x67452301 0xefcdab89 0x98badcfe 0x10325476.

(** Message bytes, each in [0, 255]. *)
Definition bytes_of_string (m : string) : list Z :=
  map (fun c => Z.of_nat (nat_of_ascii c)) (list_ascii_of_string m).

(** Little-endian bytes of a value, [n] of them. *)
Fixpoint le_bytes (n : nat) (x : Z) : list Z :=
  match n with
  | O => []
  | S n' => x mod 256 :: le_bytes n' (x / 256)
  end.

(** Append 0x80, then zeros up to 56 mod 64, then the bit length on 64 bits. *)
Definition pad (m : list Z) : list Z :=
  let len := Z.of_nat (List.length m) in
  let zeros := Z.to_nat ((55 - len) mod 64) in
  m ++ 0x80 :: repeat 0 zeros ++ le_bytes 8 ((8 * len) mod 2 ^ 64).

(** A little-endian 32-bit word from four bytes. *)
Definition word_of_bytes (bs : list Z) : Z :=
  fold_right (fun b acc => b + 256 * acc) 0 bs.

(** The sixteen words of a 64-byte block. *)
Fixpoint words (n : nat) (block : list Z) : list Z :=
  match n with
  | O => []
  | S n' => word_of_bytes (firstn 4 block) :: words n' (skipn 4 block)
  end.

(** The message cut into [n] blocks of 64 bytes. *)
Fixpoint blocks (n : nat) (m : list Z) : list (list Z) :=
  match n with
  | O => []
  | S n' => firstn 64 m :: blocks n' (skipn 64 m)
  end.

(** One of the 64 operations of the compression function. *)
Definition step (M : list Z) (st : state) (i : Z) : state :=
  let '(mkState a b c d) := st in
  let '(f, g) :=
    if i <? 16 then (Z.lor (Z.land b c) (Z.land (not32 b) d), i)
    else if i <? 32 then (Z.lor (Z.land d b) (Z.land (not32 d) c), (5 * i + 1) mod 16)
    else if i <? 48 then (Z.lxor (Z.lxor b c) d, (3 * i + 5) mod 16)
    else (Z.lxor c (Z.lor b (not32 d)), (7 * i) mod 16) in
  let f' := add32 (add32 (add32 f a) (nth (Z.to_nat i) K 0)) (nth (Z.to_nat g) M 0) in
  mkState d (add32 b (rotl32 f' (nth (Z.to_nat i) s 0))) b c.

Definition rounds : list Z := map Z.of_nat (seq 0 64).

Definition compress (st : state) (block : list Z) : state :=
  let M := words 16 block in
  let st' := fold_left (step M) rounds st in
  mkState (add32 (sA st) (sA st')) (add32 (sB st) (sB st'))
          (add32 (sC st) (sC st')) (add32 (sD st) (sD st')).

Definition digest_state (m : list Z) : state :=
  let p := pad m in
  fold_left compress (blocks (List.length p / 64) p) init.

(** The 16 bytes of the digest. *)
Definition digest (m : list Z) : list Z :=
  let st := digest_state m in
  le_bytes 4 (sA st) ++ le_bytes 4 (sB st) ++ le_bytes 4 (sC st) ++ le_bytes 4 (sD st).

Definition hex_digit (d : Z) : ascii :=
  match d with
  | 0 => "0" | 1 => "1" | 2 => "2" | 3 => "3" | 4 => "4" | 5 => "5"
  | 6 => "6" | 7 => "7" | 8 => "8" | 9 => "9" | 10 => "a" | 11 => "b"
  | 12 => "c" | 13 => "d" | 14 => "e" | _ => "f"
  end%char.

Fixpoint hex_of_bytes (bs : list Z) : string :=
  match bs with
  | [] => EmptyString
  | b :: bs' => String (hex_digit (b / 16)) (String (hex_digit (b mod 16)) (hex_of_bytes bs'))
  end.

(** [hashlib.md5(m.encode()).hexdigest()]. *)
Definition hexdigest (m : string) : string :=
  hex_of_bytes (digest (bytes_of_string m)).

Definition is_hex_digit (c : ascii) : bool :=
  existsb (Ascii.eqb c) (list_ascii_of_string "0123456789abcdef").

End MD5.

(** ** Exceptions and results *)

Set Warnings "-register-all".

(** A parsed JSON document, as [response.json()] returns it. *)
Inductive json : Type :=
| JNull
| JBool (b : bool)
| JInt (n : Z)
| JFloat (q : Q)
| JStr (s : string)
| JList (l : list json)
| JDict (d : list (string * json)).

(** The exception classes the source raises or catches.  The [detail] of an
    [HTTPException] keeps [str(...)] of an exception or of a JSON value as a
    term, so that no rendering is assumed. *)
Inductive exn : Type :=
| HTTPException (status_code : Z) (detail : detail)
    (* fastapi.HTTPException *)
| RequestException (what : string)
    (* requests.exceptions.RequestException and its subclasses *)
| RequestValidationError
    (* raised by the framework when a declared parameter constraint fails *)
| KeyError (key : string)
| IndexError
| TypeError
| AttributeError
| ValueError
| ValidationError
    (* pydantic *)
| DriverError (what : string)
    (* raised by the database driver *)
with detail : Type :=
| Text (s : string)
| MarvelAPIError (status : json)       (* f"Marvel API error: {data['status']}" *)
| MarvelAPIUnavailable (e : exn)       (* f"Marvel API unavailable: {str(e)}" *)
| StrOf (e : exn).                     (* str(e) *)

Inductive result (A : Type) : Type :=
| Ok (a : A)
| Raise (e : exn).
Arguments Ok {A} a.
Arguments Raise {A} e.

Definition bind {A B : Type} (r : result A) (k : A -> result B) : result B :=
  match r with
  | Ok a => k a
  | Raise e => Raise e
  end.

Declare Scope py_scope.
Delimit Scope py_scope with py.
Notation "x <- c ;; k" := (bind c (fun x => k))
  (at level 100, c at next level, right associativity) : py_scope.
Local Open Scope py_scope.

Fixpoint mapM {A B : Type} (f : A -> result B) (l : list A) : result (list B) :=
  match l with
  | [] => Ok []
  | a :: l' => b <- f a ;; bs <- mapM f l' ;; Ok (b :: bs)
  end.

(** [isinstance(e, requests.exceptions.RequestException)]. *)
Definition is_RequestException (e : exn) : bool :=
  match e with RequestException _ => true | _ => false end.

(** [isinstance(e, HTTPException)]. *)
Definition is_HTTPException (e : exn) : bool :=
  match e with HTTPException _ _ => true | _ => false end.

(** The status line the framework answers with: 200 on return, the status of
    an [HTTPException], 422 on a rejected parameter, 500 on anything else. *)
Definition http_status {A : Type} (r : result A) : Z :=
  match r with
  | Ok _ => 200
  | Raise (HTTPException c _) => c
  | Raise RequestValidationError => 422
  | Raise _ => 500
  end.

(** ** Operations of Python on parsed JSON *)

Module Json.

Fixpoint lookup (k : string) (d : list (string * json)) : option json :=
  match d with
  | [] => None
  | (k', v) :: d' => if String.eqb k k' then Some v else lookup k d'
  end.

(** [o[k]] with a string key. *)
Definition getitem (o : json) (k : string) : result json :=
  match o with
  | JDict d => match lookup k d with Some v => Ok v | None => Raise (KeyError k) end
  | _ => Raise TypeError
  end.

(** [o.get(k, default)]. *)
Definition get (o : json) (k : string) (default : json) : result json :=
  match o with
  | JDict d => match lookup k d with Some v => Ok v | None => Ok default end
  | _ => Raise AttributeError
  end.

(** Truth value of [o] in a condition. *)
Definition truthy (o : json) : bool :=
  match o with
  | JNull => false
  | JBool b => b
  | JInt n => negb (n =? 0)
  | JFloat q => negb (Qeq_bool q 0)
  | JStr s => Py.str_truthy s
  | JList l => match l with [] => false | _ :: _ => true end
  | JDict d => match d with [] => false | _ :: _ => true end
  end.

(** [o == n] for an int literal [n] other than 0 and 1. *)
Definition eq_int (o : json) (n : Z) : bool :=
  match o with
  | JInt m => m =? n
  | JFloat q => Qeq_bool q (inject_Z n)
  | _ => false
  end.

(** [o[0]]. *)
Definition getitem0 (o : json) : result json :=
  match o with
  | JList (x :: _) => Ok x
  | JList [] => Raise IndexError
  | JStr (String c _) => Ok (JStr (String c EmptyString))
  | JStr EmptyString => Raise IndexError
  | JDict _ => Raise (KeyError "0")
  | _ => Raise TypeError
  end.

(** The items a [for] loop or a comprehension draws from [o]: the elements
    of a list, the keys of a dict, the characters of a string. *)
Definition iter (o : json) : result (list json) :=
  match o with
  | JList l => Ok l
  | JDict d => Ok (map (fun kv => JStr (fst kv)) d)
  | JStr s => Ok (map (fun c => JStr (String c EmptyString)) (list_ascii_of_string s))
  | _ => Raise TypeError
  end.

End Json.

(** ** The installed libraries

    How pydantic coerces a value into an [int] or a [str] field, and which
    exception [response.json()] raises on a body that is not JSON (a
    [RequestException] or a plain [ValueError]), depend on the installed
    versions; the service is written against this interface. *)
Class Platform : Type := {
  validate_int : json -> option Z;
  validate_str : json -> option string;
  json_error_is_request_exception : bool
}.

(** A platform whose validators accept an int for an int field and a string
    for a string field and nothing else, and whose [response.json()] raises
    a [RequestException]. *)
Definition strict_platform : Platform := {|
  validate_int := fun v => match v with JInt n => Some n | _ => None end;
  validate_str := fun v => match v with JStr s => Some s | _ => None end;
  json_error_is_request_exception := true
|}.

(** ** Models *)

Module CharacterThumbnail.
Record t := mk { path : string; extension : string }.

Definition new `{Platform} (path extension : json) : result t :=
  match validate_str path, validate_str extension with
  | Some p, Some e => Ok (mk p e)
  | _, _ => Raise ValidationError
  end.
End CharacterThumbnail.

Module CharacterUrl.
Record t := mk { type : string; url : string }.

Definition new `{Platform} (type url : json) : result t :=
  match validate_str type, validate_str url with
  | Some ty, Some u => Ok (mk ty u)
  | _, _ => Raise ValidationError
  end.
End CharacterUrl.

Module Character.
Record t := mk {
  id : Z;
  name : string;
  description : string;
  thumbnail : CharacterThumbnail.t;
  resourceURI : string;
  urls : list CharacterUrl.t;
  comics_available : Z;
  series_available : Z;
  stories_available : Z;
  events_available : Z
}.

Definition new `{Platform} (id name description : json)
    (thumbnail : CharacterThumbnail.t) (resourceURI : json)
    (urls : list CharacterUrl.t)
    (comics_available series_available stories_available events_available : json)
    : result t :=
  match validate_int id, validate_str name, validate_str description,
        validate_str resourceURI,
        validate_int comics_available, validate_int series_available,
        validate_int stories_available, validate_int events_available with
  | Some i, Some n, Some d, Some r, Some c, Some se, Some st, Some ev =>
      Ok (mk i n d thumbnail r urls c se st ev)
  | _, _, _, _, _, _, _, _ => Raise ValidationError
  end.
End Character.

(** What the clock reads for [datetime.now(timezone.utc)]: an instant, in
    seconds since the epoch. *)
Definition datetime : Type := Q.
Bind Scope Q_scope with datetime.

(** A Python [datetime] value: its instant, and whether it carries a
    timezone (aware) or not (naive). *)
Module Timestamp.
Record t := mk {
  instant : datetime;
  aware : bool
}.

(** [datetime.now(timezone.utc)]: aware, at the precision of the clock. *)
Definition now_utc (utcnow : datetime) : t := mk utcnow true.

(** The instant cut to whole milliseconds, toward the past. *)
Definition floor_ms (x : datetime) : datetime :=
  inject_Z (Qfloor (x * 1000)) / 1000.

(** What the database keeps of a datetime and gives back on a read: the
    instant in whole milliseconds, without timezone. *)
Definition stored (d : t) : t := mk (floor_ms (instant d)) false.
End Timestamp.

Module FavoriteCreate.
Record t := mk {
  user_id : string;
  character_id : Z;
  character_name : string
}.
End FavoriteCreate.

Module FavoriteCharacter.
Record t := mk {
  id : string;
  user_id : string;
  character_id : Z;
  character_name : string;
  added_at : Timestamp.t
}.

(** A [FavoriteCharacter] built from the fields of [favorite]: the two default factories draw
    the identifier from [uuid.uuid4()] and the instant from the clock. *)
Definition new (uuid4 : string) (utcnow : datetime) (favorite : FavoriteCreate.t) : t :=
  mk uuid4 (FavoriteCreate.user_id favorite) (FavoriteCreate.character_id favorite)
     (FavoriteCreate.character_name favorite) (Timestamp.now_utc utcnow).

(** The document as the collection keeps it and reads it back: the strings
    and the int as they are, the datetime as the database keeps it. *)
Definition stored (doc : t) : t :=
  mk (id doc) (user_id doc) (character_id doc) (character_name doc)
     (Timestamp.stored (added_at doc)).
End FavoriteCharacter.

(** ** Query parameters and requests *)

Inductive param : Type :=
| PStr (s : string)
| PInt (n : Z).

(** A Python dict with string keys, in insertion order. *)
Module Dict.
Definition t : Type := list (string * param).

Fixpoint get (k : string) (d : t) : option param :=
  match d with
  | [] => None
  | (k', v) :: d' => if String.eqb k k' then Some v else get k d'
  end.

(** [d[k] = v]: replaces the value of an existing key in place, appends a
    new key. *)
Fixpoint set (k : string) (v : param) (d : t) : t :=
  match d with
  | [] => [(k, v)]
  | (k', v') :: d' => if String.eqb k k' then (k', v) :: d' else (k', v') :: set k v d'
  end.

Definition keys (d : t) : list string := map fst d.
End Dict.

(** One call of [requests.get(url, params=params, timeout=timeout)]. *)
Record Request := mkRequest {
  req_url : string;
  req_params : Dict.t;
  req_timeout : Z
}.

(** What the upstream does with a request: [requests.get] raises (connection
    failure, timeout), or a response arrives with its HTTP status and its
    body, parsed when it is JSON. *)
Inductive Upstream : Type :=
| Unreachable (what : string)
| Response (status_code : Z) (body : option json).

(** [response.raise_for_status()]. *)
Definition raise_for_status (status_code : Z) : result unit :=
  if (400 <=? status_code) && (status_code <? 600)
  then Raise (RequestException "HTTPError")
  else Ok tt.

(** [response.json()]. *)
Definition response_json `{Platform} (body : option json) : result json :=
  match body with
  | Some data => Ok data
  | None =>
      if json_error_is_request_exception
      then Raise (RequestException "JSONDecodeError")
      else Raise ValueError
  end.

(** ** functools.lru_cache *)

Module LRU.
Section Cache.
Context {K V : Type} (eqb : K -> K -> bool).

(** The entries, most recently used first. *)
Definition t : Type := list (K * V).

Fixpoint lookup (k : K) (c : t) : option V :=
  match c with
  | [] => None
  | (k', v) :: c' => if eqb k k' then Some v else lookup k c'
  end.

Fixpoint remove (k : K) (c : t) : t :=
  match c with
  | [] => []
  | (k', v) :: c' => if eqb k k' then c' else (k', v) :: remove k c'
  end.

(** A hit moves the entry to the front. *)
Definition touch (k : K) (v : V) (c : t) : t := (k, v) :: remove k c.

(** A miss stores the new entry at the front and, past [maxsize], drops
    the least recently used one. *)
Definition store (maxsize : nat) (k : K) (v : V) (c : t) : t :=
  firstn maxsize ((k, v) :: c).

(** The wrapper: the wrapped function runs only on a miss, and only a
    returned value is stored (an exception propagates and leaves the cache
    as it was). [W] is whatever else the wrapped function changes. *)
Definition call {W : Type} (maxsize : nat) (f : K -> W -> result V * W)
    (k : K) (c : t) (w : W) : result V * t * W :=
  match lookup k c with
  | Some v => (Ok v, touch k v c, w)
  | None =>
      match f k w with
      | (Ok v, w') => (Ok v, store maxsize k v c, w')
      | (Raise e, w') => (Raise e, c, w')
      end
  end.
End Cache.
End LRU.

(** ** The Marvel API service *)

Definition MARVEL_BASE_URL : string := "https://gateway.marvel.com/v1/public".

(** The environment of one call of the service: what [time.time()] reads and
    how the upstream answers. *)
Record Env := mkEnv {
  clock : Q;
  upstream : Request -> Upstream
}.

(** The value [get_characters] returns. *)
Record CharactersPage := mkPage {
  characters : list Character.t;
  total : json;
  count : json;
  offset : json
}.

(** The arguments [get_characters] is called with, which is what its cache
    is keyed by.  The one call of the method, in the handler, passes all
    three by keyword. *)
Definition characters_key : Type := option string * Z * Z.

Definition characters_key_eqb (k1 k2 : characters_key) : bool :=
  let '(s1, l1, o1) := k1 in
  let '(s2, l2, o2) := k2 in
  match s1, s2 with
  | None, None => true
  | Some a, Some b => String.eqb a b
  | _, _ => false
  end && (l1 =? l2) && (o1 =? o2).

(** The process-wide state of the service: its two caches, and the log of
    the calls of [requests.get] made so far. *)
Record World := mkWorld {
  characters_cache : LRU.t (K := characters_key) (V := CharactersPage);
  character_cache : LRU.t (K := Z) (V := Character.t);
  sent : list Request
}.

Definition initial_world : World := mkWorld [] [] [].

Module MarvelAPIService.
Section Methods.
Context `{Platform}.

Record t := mk {
  public_key : string;
  private_key : string;
  base_url : string
}.

Definition new (MARVEL_PUBLIC_KEY MARVEL_PRIVATE_KEY : string) : t :=
  mk MARVEL_PUBLIC_KEY MARVEL_PRIVATE_KEY MARVEL_BASE_URL.

Definition _generate_auth_params (self : t) (env : Env) : Dict.t :=
  let timestamp := Py.str_of_int (Py.int_of_float (clock env)) in
  let hash_string := (timestamp ++ private_key self ++ public_key self)%string in
  let hash_md5 := MD5.hexdigest hash_string in
  [("ts", PStr timestamp); ("apikey", PStr (public_key self)); ("hash", PStr hash_md5)].

(** [requests.get], [raise_for_status] and [response.json()]. *)
Definition fetch (env : Env) (request : Request) : result json :=
  match upstream env request with
  | Unreachable what => Raise (RequestException what)
  | Response status_code body => _ <- raise_for_status status_code ;; response_json body
  end.

(** The [except requests.exceptions.RequestException] clause of both
    methods. *)
Definition except_RequestException {A : Type} (r : result A) : result A :=
  match r with
  | Ok a => Ok a
  | Raise e =>
      if is_RequestException e
      then Raise (HTTPException 503 (MarvelAPIUnavailable e))
      else Raise e
  end.

(** The [Character(...)] expression both methods build from a raw record. *)
Definition character_of (char_data : json) : result Character.t :=
  id <- Json.getitem char_data "id" ;;
  name <- Json.getitem char_data "name" ;;
  description <- Json.get char_data "description" (JStr "No description available") ;;
  thumbnail <- (
    t1 <- Json.getitem char_data "thumbnail" ;;
    path <- Json.getitem t1 "path" ;;
    t2 <- Json.getitem char_data "thumbnail" ;;
    extension <- Json.getitem t2 "extension" ;;
    CharacterThumbnail.new path extension) ;;
  resourceURI <- Json.getitem char_data "resourceURI" ;;
  urls <- (
    us <- Json.get char_data "urls" (JList []) ;;
    items <- Json.iter us ;;
    mapM (fun url =>
            type <- Json.getitem url "type" ;;
            u <- Json.getitem url "url" ;;
            CharacterUrl.new type u) items) ;;
  comics <- (g <- Json.get char_data "comics" (JDict []) ;; Json.get g "available" (JInt 0)) ;;
  series <- (g <- Json.get char_data "series" (JDict []) ;; Json.get g "available" (JInt 0)) ;;
  stories <- (g <- Json.get char_data "stories" (JDict []) ;; Json.get g "available" (JInt 0)) ;;
  events <- (g <- Json.get char_data "events" (JDict []) ;; Json.get g "available" (JInt 0)) ;;
  Character.new id name description thumbnail resourceURI urls comics series stories events.

(** The request [get_characters] sends. *)
Definition characters_request (self : t) (env : Env)
    (name_starts_with : option string) (limit offset : Z) : Request :=
  let url := (base_url self ++ "/characters")%string in
  let params := _generate_auth_params self env in
  let params := Dict.set "limit" (PInt (Py.min limit 100)) params in
  let params := Dict.set "offset" (PInt offset) params in
  let params :=
    match name_starts_with with
    | Some prefix =>
        if Py.str_truthy prefix then Dict.set "nameStartsWith" (PStr prefix) params
        else params
    | None => params
    end in
  mkRequest url params 10.

(** What [get_characters] makes of the parsed body: its [if] statement. *)
Definition characters_of_envelope (data : json) : result CharactersPage :=
  code <- Json.getitem data "code" ;;
  if Json.eq_int code 200 then
    d <- Json.getitem data "data" ;;
    results <- Json.getitem d "results" ;;
    items <- Json.iter results ;;
    characters <- mapM character_of items ;;
    d1 <- Json.getitem data "data" ;;
    total <- Json.getitem d1 "total" ;;
    d2 <- Json.getitem data "data" ;;
    count <- Json.getitem d2 "count" ;;
    d3 <- Json.getitem data "data" ;;
    offset <- Json.getitem d3 "offset" ;;
    Ok (mkPage characters total count offset)
  else
    status <- Json.getitem data "status" ;;
    Raise (HTTPException 400 (MarvelAPIError status)).

(** The body of the [try] of [get_characters]. *)
Definition characters_of_response (env : Env) (request : Request) : result CharactersPage :=
  data <- fetch env request ;;
  characters_of_envelope data.

(** The body of [get_characters], under the decorator: one call of
    [requests.get], logged in [sent]. *)
Definition get_characters_wrapped (self : t) (env : Env)
    (key : characters_key) (sent : list Request) : result CharactersPage * list Request :=
  let '(name_starts_with, limit, offset) := key in
  let request := characters_request self env name_starts_with limit offset in
  (except_RequestException (characters_of_response env request), sent ++ [request]).

(** [@lru_cache(maxsize=100) get_characters]. *)
Definition get_characters (self : t) (env : Env)
    (name_starts_with : option string) (limit offset : Z) (w : World)
    : result CharactersPage * World :=
  let '(r, cache, log) :=
    LRU.call characters_key_eqb 100 (get_characters_wrapped self env)
             (name_starts_with, limit, offset) (characters_cache w) (sent w) in
  (r, mkWorld cache (character_cache w) log).

(** The request [get_character_by_id] sends. *)
Definition character_request (self : t) (env : Env) (character_id : Z) : Request :=
  let url := (base_url self ++ "/characters/" ++ Py.str_of_int character_id)%string in
  let params := _generate_auth_params self env in
  mkRequest url params 10.

(** What [get_character_by_id] makes of the parsed body: its [if]
    statement. *)
Definition character_of_envelope (data : json) : result Character.t :=
  code <- Json.getitem data "code" ;;
  found <- (if Json.eq_int code 200 then
              d <- Json.getitem data "data" ;;
              results <- Json.getitem d "results" ;;
              Ok (Json.truthy results)
            else Ok false) ;;
  if found then
    d <- Json.getitem data "data" ;;
    results <- Json.getitem d "results" ;;
    char_data <- Json.getitem0 results ;;
    character_of char_data
  else
    Raise (HTTPException 404 (Text "Character not found")).

(** The body of the [try] of [get_character_by_id]. *)
Definition character_of_response (env : Env) (request : Request) : result Character.t :=
  data <- fetch env request ;;
  character_of_envelope data.

Definition get_character_by_id_wrapped (self : t) (env : Env)
    (character_id : Z) (sent : list Request) : result Character.t * list Request :=
  let request := character_request self env character_id in
  (except_RequestException (character_of_response env request), sent ++ [request]).

(** [@lru_cache(maxsize=50) get_character_by_id]. *)
Definition get_character_by_id (self : t) (env : Env) (character_id : Z) (w : World)
    : result Character.t * World :=
  let '(r, cache, log) :=
    LRU.call Z.eqb 50 (get_character_by_id_wrapped self env)
             character_id (character_cache w) (sent w) in
  (r, mkWorld (characters_cache w) cache log).

End Methods.
End MarvelAPIService.

(** ** Routes of the catalog *)

Section CatalogRoutes.
Context `{Platform}.
Variable marvel_service : MarvelAPIService.t.

(** Handler of [GET /characters]. *)
Definition get_characters (env : Env) (search : option string) (limit offset : Z)
    (w : World) : result CharactersPage * World :=
  match MarvelAPIService.get_characters marvel_service env search limit offset w with
  | (Ok result, w') => (Ok result, w')
  | (Raise e, w') => (Raise (HTTPException 500 (StrOf e)), w')
  end.

(** [GET /characters] with its declared query parameters:
    [limit = Query(20, ge=1, le=100)], [offset = Query(0, ge=0)]. *)
Definition get_characters_route (env : Env) (search : option string)
    (limit offset : option Z) (w : World) : result CharactersPage * World :=
  let limit := match limit with Some l => l | None => 20 end in
  let offset := match offset with Some o => o | None => 0 end in
  if (1 <=? limit) && (limit <=? 100) && (0 <=? offset)
  then get_characters env search limit offset w
  else (Raise RequestValidationError, w).

(** Handler of [GET /characters/{character_id}]. *)
Definition get_character (env : Env) (character_id : Z) (w : World)
    : result Character.t * World :=
  match MarvelAPIService.get_character_by_id marvel_service env character_id w with
  | (Ok character, w') => (Ok character, w')
  | (Raise e, w') =>
      if is_HTTPException e then (Raise e, w')
      else (Raise (HTTPException 500 (StrOf e)), w')
  end.

End CatalogRoutes.

(** ** The favorites collection *)

(** What may go wrong in one call of the database driver: nothing, an error
    raised before the operation took effect, or one raised after it did. *)
Inductive fault : Type :=
| NoFault
| FailBefore (what : string)
| FailAfter (what : string).

(** The filter documents the handlers build. *)
Inductive query : Type :=
| ByUserAndCharacter (user_id : string) (character_id : Z)
| ByUser (user_id : string).

Definition matches (q : query) (doc : FavoriteCharacter.t) : bool :=
  match q with
  | ByUserAndCharacter u c =>
      String.eqb (FavoriteCharacter.user_id doc) u && (FavoriteCharacter.character_id doc =? c)
  | ByUser u => String.eqb (FavoriteCharacter.user_id doc) u
  end.

Module Collection.

(** The documents of [db.favorites], in the store's own order; a new
    document goes last. *)
Definition t : Type := list FavoriteCharacter.t.

Definition find_one (f : fault) (q : query) (c : t) : result (option FavoriteCharacter.t) :=
  match f with
  | NoFault => Ok (List.find (matches q) c)
  | FailBefore what | FailAfter what => Raise (DriverError what)
  end.

Definition insert_one (f : fault) (doc : FavoriteCharacter.t) (c : t) : result unit * t :=
  match f with
  | NoFault => (Ok tt, c ++ [FavoriteCharacter.stored doc])
  | FailBefore what => (Raise (DriverError what), c)
  | FailAfter what => (Raise (DriverError what), c ++ [FavoriteCharacter.stored doc])
  end.

(** The collection without its first document matching [q]. *)
Fixpoint remove_first (q : query) (c : t) : t :=
  match c with
  | [] => []
  | doc :: c' => if matches q doc then c' else doc :: remove_first q c'
  end.

(** [deleted_count] of the result of [delete_one]. *)
Definition deleted_count (q : query) (c : t) : Z :=
  if existsb (matches q) c then 1 else 0.

Definition delete_one (f : fault) (q : query) (c : t) : result Z * t :=
  match f with
  | NoFault => (Ok (deleted_count q c), remove_first q c)
  | FailBefore what => (Raise (DriverError what), c)
  | FailAfter what => (Raise (DriverError what), remove_first q c)
  end.

(** [find(q).to_list(length)]. *)
Definition find_to_list (f : fault) (q : query) (length : nat) (c : t)
    : result (list FavoriteCharacter.t) :=
  match f with
  | NoFault => Ok (firstn length (filter (matches q) c))
  | FailBefore what | FailAfter what => Raise (DriverError what)
  end.

End Collection.

(** The faults of the driver calls of one request, and what the request draws
    from the uuid generator and from the clock. *)
Record Driver := mkDriver {
  find_one_fault : fault;
  insert_one_fault : fault;
  delete_one_fault : fault;
  find_fault : fault;
  uuid4 : string;
  utcnow : datetime
}.

(** A driver whose calls all succeed. *)
Definition reliable (uuid4 : string) (utcnow : datetime) : Driver :=
  mkDriver NoFault NoFault NoFault NoFault uuid4 utcnow.

(** ** Routes of the favorites *)

(** The two [except] clauses that close the favorites handlers which raise
    an [HTTPException] of their own. *)
Definition reraise_or_500 {A : Type} (r : result A) : result A :=
  match r with
  | Ok a => Ok a
  | Raise e => if is_HTTPException e then Raise e else Raise (HTTPException 500 (StrOf e))
  end.

(** Handler of [POST /favorites]. *)
Definition add_favorite (drv : Driver) (favorite : FavoriteCreate.t) (favorites : Collection.t)
    : result FavoriteCharacter.t * Collection.t :=
  let q := ByUserAndCharacter (FavoriteCreate.user_id favorite)
                              (FavoriteCreate.character_id favorite) in
  match Collection.find_one (find_one_fault drv) q favorites with
  | Raise e => (reraise_or_500 (Raise e), favorites)
  | Ok (Some existing) =>
      (reraise_or_500 (Raise (HTTPException 400 (Text "Character already in favorites"))),
       favorites)
  | Ok None =>
      let favorite_obj := FavoriteCharacter.new (uuid4 drv) (utcnow drv) favorite in
      match Collection.insert_one (insert_one_fault drv) favorite_obj favorites with
      | (Ok _, favorites') => (Ok favorite_obj, favorites')
      | (Raise e, favorites') => (reraise_or_500 (Raise e), favorites')
      end
  end.

(** Handler of [GET /favorites/{user_id}]. *)
Definition get_favorites (drv : Driver) (user_id : string) (favorites : Collection.t)
    : result (list FavoriteCharacter.t) :=
  match Collection.find_to_list (find_fault drv) (ByUser user_id) 1000 favorites with
  | Ok favs => Ok favs
  | Raise e => Raise (HTTPException 500 (StrOf e))
  end.

(** Handler of [DELETE /favorites/{user_id}/{character_id}]. *)
Definition remove_favorite (drv : Driver) (user_id : string) (character_id : Z)
    (favorites : Collection.t) : result (list (string * string)) * Collection.t :=
  match Collection.delete_one (delete_one_fault drv)
          (ByUserAndCharacter user_id character_id) favorites with
  | (Ok deleted, favorites') =>
      if deleted =? 0
      then (reraise_or_500 (Raise (HTTPException 404 (Text "Favorite not found"))), favorites')
      else (Ok [("message", "Favorite removed successfully")], favorites')
  | (Raise e, favorites') => (reraise_or_500 (Raise e), favorites')
  end.

(** A request to the favorites routes that writes, and the collection after
    a sequence of them served one after the other. *)
Inductive write_request : Type :=
| Add (drv : Driver) (favorite : FavoriteCreate.t)
| Remove (drv : Driver) (user_id : string) (character_id : Z).

Definition serve (favorites : Collection.t) (r : write_request) : Collection.t :=
  match r with
  | Add drv favorite => snd (add_favorite drv favorite favorites)
  | Remove drv user_id character_id => snd (remove_favorite drv user_id character_id favorites)
  end.

Definition serve_all (rs : list write_request) (favorites : Collection.t) : Collection.t :=
  fold_left serve rs favorites.

(** The pair a favorite is identified by. *)
Definition pair_of (doc : FavoriteCharacter.t) : string * Z :=
  (FavoriteCharacter.user_id doc, FavoriteCharacter.character_id doc).

(** At most one document per (user_id, character_id). *)
Definition unique_pairs (favorites : Collection.t) : Prop :=
  NoDup (map pair_of favorites).

(** How many documents match a filter. *)
Definition count_matching (q : query) (favorites : Collection.t) : nat :=
  List.length (filter (matches q) favorites).

(** ** Notions the properties are stated with *)

(** The [limit] query parameter of the request [get_characters] sends. *)
Definition forwarded_limit (self : MarvelAPIService.t) (env : Env)
    (name_starts_with : option string) (limit offset : Z) : option param :=
  Dict.get "limit"
    (req_params (MarvelAPIService.characters_request self env name_starts_with limit offset)).

(** Clamping into an inclusive range, as the specification words it:
    substitution of the nearest bound for a value outside the range. *)
Definition clamp (lo hi x : Z) : Z := Z.max lo (Z.min x hi).

(** The argument tuple of [get_characters] after clamping its limit, the key
    the specification gives the cache. *)
Definition post_clamp_key (k : characters_key) : characters_key :=
  let '(name_starts_with, limit, offset) := k in
  (name_starts_with, Py.min limit 100, offset).

(** The three authentication parameters a request of the service at [env]
    must carry, and nothing else but the parameters of the query. *)
Definition signed (self : MarvelAPIService.t) (env : Env) (request : Request) : Prop :=
  let ts := Py.str_of_int (Py.int_of_float (clock env)) in
  let digest :=
    MD5.hexdigest
      (ts ++ MarvelAPIService.private_key self ++ MarvelAPIService.public_key self)%string in
  Dict.get "ts" (req_params request) = Some (PStr ts) /\
  Dict.get "apikey" (req_params request) = Some (PStr (MarvelAPIService.public_key self)) /\
  Dict.get "hash" (req_params request) = Some (PStr digest) /\
  exists rest,
    Dict.keys (req_params request) = ["ts"; "apikey"; "hash"] ++ rest /\
    incl rest ["limit"; "offset"; "nameStartsWith"].

(** A string of [n] lower-case hexadecimal digits. *)
Definition is_hex_of_length (n : nat) (s : string) : Prop :=
  String.length s = n /\ forallb MD5.is_hex_digit (list_ascii_of_string s) = true.

(** [400 <= status_code < 600], the test of [raise_for_status]. *)
Definition is_error_status (status_code : Z) : bool :=
  (400 <=? status_code) && (status_code <? 600).

(** The upstream's answer carries an empty result set: a response with a
    JSON body whose [data.results] is an empty list. *)
Definition empty_result_set (u : Upstream) : bool :=
  match u with
  | Response _ (Some data) =>
      match (d <- Json.getitem data "data" ;; Json.getitem d "results") with
      | Ok (JList []) => true
      | _ => false
      end
  | _ => false
  end.

(** The envelopes that report no character: there is a [code], and either
    it is not 200 or [data.results] is there and false in a condition (an
    empty list, null, 0). *)
Definition envelope_not_found (data : json) : bool :=
  match Json.getitem data "code" with
  | Ok code =>
      if Json.eq_int code 200 then
        match (d <- Json.getitem data "data" ;; Json.getitem d "results") with
        | Ok results => negb (Json.truthy results)
        | Raise _ => false
        end
      else true
  | Raise _ => false
  end.

(** The answers on which [get_character_by_id] raises its 404: a response
    whose status is not an error, with a JSON body, an envelope that reports
    no character. *)
Definition answers_not_found (u : Upstream) : bool :=
  match u with
  | Response status_code (Some data) =>
      negb (is_error_status status_code) && envelope_not_found data
  | _ => false
  end.

(** The answers on which both methods raise their 503: [requests.get]
    raised, or the HTTP status is an error, or the body is not JSON and the
    installed [requests] reports that with a [RequestException]. *)
Definition answers_unavailable `{Platform} (u : Upstream) : bool :=
  match u with
  | Unreachable _ => true
  | Response status_code body =>
      is_error_status status_code ||
      match body with
      | Some _ => false
      | None => json_error_is_request_exception
      end
  end.

(** A transport-level failure reaching the upstream: no response arrived. *)
Definition transport_failure (u : Upstream) : bool :=
  match u with
  | Unreachable _ => true
  | Response _ _ => false
  end.

(** The first record of the result set of a JSON envelope. *)
Definition first_result (data : json) : result json :=
  d <- Json.getitem data "data" ;;
  results <- Json.getitem d "results" ;;
  Json.getitem0 results.

(** An exception that is neither an [HTTPException] nor a
    [RequestException]: the handlers answer it with a 500. *)
Definition plain (e : exn) : bool :=
  negb (is_HTTPException e) && negb (is_RequestException e).

(** A computation that raises nothing but plain exceptions. *)
Definition only_plain {A : Type} (r : result A) : Prop :=
  forall e, r = Raise e -> plain e = true.

(** ** Sample data *)

Module Sample.

Definition service : MarvelAPIService.t := MarvelAPIService.new "1234" "abcd".

Definition record (id : Z) (name : string) : json :=
  JDict [ ("id", JInt id); ("name", JStr name);
          ("thumbnail", JDict [("path", JStr "http://i.example/p"); ("extension", JStr "jpg")]);
          ("resourceURI", JStr "http://gateway.example/c") ].

Definition envelope (code : Z) (results : list json) : json :=
  JDict [ ("code", JInt code); ("status", JStr "Ok");
          ("data", JDict [ ("offset", JInt 0); ("total", JInt (Z.of_nat (List.length results)));
                           ("count", JInt (Z.of_nat (List.length results)));
                           ("results", JList results) ]) ].

(** An upstream that answers every request with HTTP 200 and [body]. *)
Definition answering (at_time : Q) (body : json) : Env :=
  mkEnv at_time (fun _ => Response 200 (Some body)).

(** An upstream that cannot be reached. *)
Definition down (at_time : Q) : Env :=
  mkEnv at_time (fun _ => Unreachable "ConnectionError").

Definition spider_man : FavoriteCreate.t := FavoriteCreate.mk "user-1" 1009610 "Spider-Man".

Definition spidey : FavoriteCreate.t := FavoriteCreate.mk "user-1" 1009610 "Spidey".

Definition hulk : FavoriteCreate.t := FavoriteCreate.mk "user-1" 1009351 "Hulk".

End Sample.

(** ** Startup configuration *)

Module PyStr.

(** [s.split(sep)] with a separator of one character. *)
Fixpoint split (sep : ascii) (s : string) : list string :=
  match s with
  | EmptyString => [EmptyString]
  | String c s' =>
      if Ascii.eqb c sep then EmptyString :: split sep s'
      else match split sep s' with
           | [] => [String c EmptyString]
           | word :: words => String c word :: words
           end
  end.

(** [sep.join(words)]. *)
Fixpoint join (sep : ascii) (words : list string) : string :=
  match words with
  | [] => EmptyString
  | [word] => word
  | word :: words' => (word ++ String sep (join sep words'))%string
  end.

(** [c in s]. *)
Fixpoint contains (c : ascii) (s : string) : bool :=
  match s with
  | EmptyString => false
  | String c' s' => Ascii.eqb c' c || contains c s'
  end.

(** [s.count(c)]. *)
Fixpoint count (c : ascii) (s : string) : nat :=
  match s with
  | EmptyString => O
  | String c' s' => if Ascii.eqb c' c then S (count c s') else count c s'
  end.

End PyStr.

(** The [allow_origins] given to the CORS middleware:
    [os.environ.get('CORS_ORIGINS', '*').split(',')]. *)
Definition allow_origins (CORS_ORIGINS : option string) : list string :=
  PyStr.split "," (match CORS_ORIGINS with Some value => value | None => "*" end).

(** ** Sequences of calls to the catalog routes *)

Inductive catalog_call : Type :=
| ListCharacters (env : Env) (search : option string) (limit offset : Z)
| LookupCharacter (env : Env) (character_id : Z).

(** The state of the service after the handler of one call ran. *)
Definition serve_catalog `{Platform} (svc : MarvelAPIService.t) (w : World)
    (c : catalog_call) : World :=
  match c with
  | ListCharacters env search limit offset => snd (get_characters svc env search limit offset w)
  | LookupCharacter env character_id => snd (get_character svc env character_id w)
  end.

Definition serve_catalog_all `{Platform} (svc : MarvelAPIService.t)
    (calls : list catalog_call) (w : World) : World :=
  fold_left (serve_catalog svc) calls w.

Definition is_lookup (c : catalog_call) : bool :=
  match c with LookupCharacter _ _ => true | ListCharacters _ _ _ _ => false end.

(** How many of the calls are lookups by id. *)
Definition lookups (calls : list catalog_call) : nat :=
  List.length (filter is_lookup calls).

(** How many entries of a cache are more recent than the entry of [k]. *)
Fixpoint cache_position {K V : Type} (eqb : K -> K -> bool) (k : K) (c : list (K * V))
    : option nat :=
  match c with
  | [] => None
  | (k', _) :: c' =>
      if eqb k k' then Some O
      else match cache_position eqb k c' with
           | Some i => Some (S i)
           | None => None
           end
  end.

(** One list is the beginning of another. *)
Definition is_prefix {A : Type} (l l' : list A) : Prop := exists tail, l' = l ++ tail.

(** The documents of one user, in the store's order. *)
Definition documents_of (user_id : string) (favorites : Collection.t)
    : list FavoriteCharacter.t :=
  filter (matches (ByUser user_id)) favorites.

(** ** The test client of [backend_test.py] *)

Module MarvelAPITester.

Record t := mk {
  base_url : string;
  tests_run : nat;
  tests_passed : nat;
  test_user_id : string
}.

(** The constructor; [hhmmss] is [datetime.now().strftime('%H%M%S')]. *)
Definition new (hhmmss : string) : t :=
  mk "https://avengers-squad.preview.emergentagent.com/api" 0 0
     ("test_user_" ++ hhmmss)%string.

(** The call of [requests] a test makes. *)
Inductive request : Type :=
| Get (url : string) (params : Dict.t)
| Post (url : string) (data : option json)
| Delete (url : string).

(** The body of a response: [response.content] is empty, or it is JSON, or
    it is something [response.json()] raises on. *)
Inductive content : Type :=
| Empty
| Json (data : json)
| NotJson.

(** What a call of [requests] does: it raises (a timeout or any other
    exception), or a response arrives. *)
Inductive outcome : Type :=
| Timeout
| Failure
| Answer (status_code : Z) (body : content).

(** The server under test: its answer to the call made when [n] tests have
    run. *)
Definition server : Type := nat -> request -> outcome.

(** [run_test], without its printing: the flag and the data it returns, and
    the counters afterwards. *)
Definition run_test (srv : server) (self : t) (method endpoint : string)
    (expected_status : Z) (data : option json) (params : Dict.t) : (bool * json) * t :=
  let url := (base_url self ++ "/" ++ endpoint)%string in
  let counted :=
    mk (base_url self) (S (tests_run self)) (tests_passed self) (test_user_id self) in
  let call :=
    if String.eqb method "GET" then Some (Get url params)
    else if String.eqb method "POST" then Some (Post url data)
    else if String.eqb method "DELETE" then Some (Delete url)
    else None in
  match call with
  | None => ((false, JDict []), counted)
  | Some r =>
      match srv (tests_run self) r with
      | Timeout => ((false, JDict []), counted)
      | Failure => ((false, JDict []), counted)
      | Answer status_code body =>
          let success := status_code =? expected_status in
          let after :=
            if success
            then mk (base_url counted) (tests_run counted) (S (tests_passed counted))
                    (test_user_id counted)
            else counted in
          match body with
          | Empty => ((success, JDict []), after)
          | Json response_data => ((success, response_data), after)
          | NotJson => ((false, JDict []), after)
          end
      end
  end.

Definition test_root_endpoint (srv : server) (self : t) : (bool * json) * t :=
  run_test srv self "GET" "" 200 None [].

Definition test_get_characters_default (srv : server) (self : t) : (bool * json) * t :=
  run_test srv self "GET" "characters" 200 None [].

Definition test_search_characters_spider (srv : server) (self : t) : (bool * json) * t :=
  run_test srv self "GET" "characters" 200 None
    [("search", PStr "spider"); ("limit", PInt 10)].

Definition test_search_characters_iron (srv : server) (self : t) : (bool * json) * t :=
  run_test srv self "GET" "characters" 200 None
    [("search", PStr "iron"); ("limit", PInt 5)].

Definition test_get_character_by_id (srv : server) (self : t) (character_id : Z)
    : (bool * json) * t :=
  run_test srv self "GET" ("characters/" ++ Py.str_of_int character_id)%string 200 None [].

Definition test_get_invalid_character (srv : server) (self : t) : (bool * json) * t :=
  run_test srv self "GET" "characters/999999999" 404 None [].

Definition test_pagination (srv : server) (self : t) : (bool * json) * t :=
  run_test srv self "GET" "characters" 200 None
    [("limit", PInt 5); ("offset", PInt 10)].

Definition test_invalid_search_params (srv : server) (self : t) : (bool * json) * t :=
  run_test srv self "GET" "characters" 200 None [("limit", PInt 200)].

(** The body the workflow posts. *)
Definition favorite_data (self : t) : json :=
  JDict [ ("user_id", JStr (test_user_id self)); ("character_id", JInt 1009610);
          ("character_name", JStr "Spider-Man") ].

(** [test_favorites_workflow]: the value it returns and the counters
    afterwards. *)
Definition test_favorites_workflow (srv : server) (self : t) : bool * t :=
  let favorites := ("favorites/" ++ test_user_id self)%string in
  let '((success, _), self) := run_test srv self "GET" favorites 200 None [] in
  if negb success then (false, self) else
  let '((success, _), self) :=
    run_test srv self "POST" "favorites" 200 (Some (favorite_data self)) [] in
  if negb success then (false, self) else
  let '((success, _), self) := run_test srv self "GET" favorites 200 None [] in
  if negb success then (false, self) else
  let '(_, self) :=
    run_test srv self "POST" "favorites" 400 (Some (favorite_data self)) [] in
  let '((success, _), self) :=
    run_test srv self "DELETE" (favorites ++ "/1009610")%string 200 None [] in
  if negb success then (false, self) else
  let '((success, _), self) := run_test srv self "GET" favorites 200 None [] in
  if negb success then (false, self) else
  (true, self).

(** The tests [main] runs, in its order, each as the change of the
    counters. *)
Definition tests (srv : server) : list (t -> t) :=
  [ fun self => snd (test_root_endpoint srv self);
    fun self => snd (test_get_characters_default srv self);
    fun self => snd (test_search_characters_spider srv self);
    fun self => snd (test_search_characters_iron srv self);
    fun self => snd (test_get_character_by_id srv self 1009610);
    fun self => snd (test_get_invalid_character srv self);
    fun self => snd (test_favorites_workflow srv self);
    fun self => snd (test_pagination srv self);
    fun self => snd (test_invalid_search_params srv self) ].

(** [main]: the exit code, and the counters it reports. *)
Definition main (srv : server) (hhmmss : string) : Z * t :=
  let tester := fold_left (fun self test => test self) (tests srv) (new hhmmss) in
  (if Nat.eqb (tests_passed tester) (tests_run tester) then 0 else 1, tester).

(** The counters before the last test of [main]. *)
Definition before_last (srv : server) (hhmmss : string) : t :=
  fold_left (fun self test => test self) (removelast (tests srv)) (new hhmmss).

(** The counters a step may lead to: [k] tests more, and no more passes than
    tests. *)
Definition advanced (k : nat) (self after : t) : Prop :=
  tests_run after = (tests_run self + k)%nat /\
  (tests_passed self <= tests_passed after)%nat /\
  (tests_passed after - tests_passed self <= k)%nat /\
  base_url after = base_url self /\
  test_user_id after = test_user_id self.

End MarvelAPITester.

(** ** Larger sample data *)

Module Fixture.

(** A collection in which "user-1" has 1000 favorites, the characters 0 to
    999. *)
Definition crowded : Collection.t :=
  map (fun i => FavoriteCharacter.stored
                  (FavoriteCharacter.new "id" 0
                     (FavoriteCreate.mk "user-1" (Z.of_nat i) "Character")))
      (seq 0 1000).

Definition seven : Character.t :=
  Character.mk 7 "Seven" "No description available"
    (CharacterThumbnail.mk "http://i.example/p" "jpg")
    "http://gateway.example/c" [] 0 0 0 0.

(** A state whose lookup cache is full: the 50 ids 100 to 149, 100 the most
    recent and 149 the least. *)
Definition full_world : World :=
  mkWorld [] (map (fun i => (Z.of_nat i, seven)) (seq 100 50)) [].

End Fixture.

(** * Properties *)

(** ** The digest and the decimal rendering on known values *)

Example md5_empty : MD5.hexdigest "" = "d41d8cd98f00b204e9800998ecf8427e".
Proof. vm_compute. reflexivity. Qed.

Example md5_abc : MD5.hexdigest "abc" = "900150983cd24fb0d6963f7d28e17f72".
Proof. vm_compute. reflexivity. Qed.

Example md5_two_blocks :
  MD5.hexdigest "aaaaaaaaaaaaaaaaaaaaaaaaaaaaaaaaaaaaaaaaaaaaaaaaaaaaaaaaaaaaaaaaaaaaaa"
  = "0f5c6c4e740bfcc08c3c26ccb2673d46".
Proof. vm_compute. reflexivity. Qed.

Example str_of_int_samples :
  Py.str_of_int 1700000000 = "1700000000" /\ Py.str_of_int 0 = "0" /\ Py.str_of_int (-5) = "-5".
Proof. repeat split. Qed.

(** The signature of the upstream's own documentation: timestamp 1, private
    key abcd, public key 1234. *)
Example documented_signature :
  MarvelAPIService._generate_auth_params Sample.service (Sample.down 1.9)
  = [("ts", PStr "1"); ("apikey", PStr "1234");
     ("hash", PStr "ffd275c5130566a2916217b101f26150")].
Proof. vm_compute. reflexivity. Qed.

(** ** The digest is 128 bits in hexadecimal *)

Lemma le_bytes_length n x : List.length (MD5.le_bytes n x) = n.
Proof.
  revert x. induction n as [|n IH]; intros x; simpl; [reflexivity|].
  now rewrite IH.
Qed.

Lemma digest_length m : List.length (MD5.digest m) = 16%nat.
Proof.
  unfold MD5.digest. rewrite !length_app, !le_bytes_length. reflexivity.
Qed.

Lemma hex_of_bytes_length bs :
  String.length (MD5.hex_of_bytes bs) = (2 * List.length bs)%nat.
Proof.
  induction bs as [|b bs IH]; simpl; [reflexivity|].
  rewrite IH. lia.
Qed.

Lemma hex_digit_is_hex d : MD5.is_hex_digit (MD5.hex_digit d) = true.
Proof.
  destruct d as [|p|p]; try reflexivity.
  do 4 (destruct p as [p|p|]; try reflexivity).
Qed.

Lemma hex_of_bytes_digits bs :
  forallb MD5.is_hex_digit (list_ascii_of_string (MD5.hex_of_bytes bs)) = true.
Proof.
  induction bs as [|b bs IH]; [reflexivity|].
  cbn [MD5.hex_of_bytes list_ascii_of_string forallb].
  now rewrite !hex_digit_is_hex, IH.
Qed.

Lemma hexdigest_is_128_bits m : is_hex_of_length 32 (MD5.hexdigest m).
Proof.
  unfold is_hex_of_length, MD5.hexdigest. split.
  - now rewrite hex_of_bytes_length, digest_length.
  - apply hex_of_bytes_digits.
Qed.

(** [int] keeps the whole seconds of a clock reading that is not negative. *)
Lemma int_of_float_whole_seconds (x : Q) :
  (0 <= x)%Q ->
  (inject_Z (Py.int_of_float x) <= x)%Q /\ (x < inject_Z (Py.int_of_float x + 1))%Q.
Proof.
  destruct x as [n d]. unfold Qle, Qlt, Py.int_of_float. simpl. intros Hn.
  rewrite Z.mul_1_r in *.
  rewrite Z.quot_div_nonneg by lia.
  pose proof (Z.mul_div_le n (Z.pos d) ltac:(lia)).
  pose proof (Z.mul_succ_div_gt n (Z.pos d) ltac:(lia)).
  lia.
Qed.

(** ** The memoization wrapper *)

Section LRUFacts.
Context {K V : Type} (eqb : K -> K -> bool).
Hypothesis eqb_refl : forall k, eqb k k = true.

Lemma lookup_touch k v (c : @LRU.t K V) : LRU.lookup eqb k (LRU.touch eqb k v c) = Some v.
Proof. unfold LRU.touch. simpl. now rewrite eqb_refl. Qed.

Lemma lookup_store maxsize k v (c : @LRU.t K V) :
  (0 < maxsize)%nat -> LRU.lookup eqb k (LRU.store maxsize k v c) = Some v.
Proof.
  intros Hpos. unfold LRU.store.
  destruct maxsize as [|n]; [lia|]. simpl. now rewrite eqb_refl.
Qed.

Lemma store_length maxsize k v (c : @LRU.t K V) :
  (List.length (LRU.store maxsize k v c) <= maxsize)%nat.
Proof. unfold LRU.store. apply firstn_le_length. Qed.

(** A hit returns the stored value and does not run the wrapped function. *)
Lemma call_hit {W : Type} maxsize (f : K -> W -> result V * W) k c w v :
  LRU.lookup eqb k c = Some v ->
  LRU.call eqb maxsize f k c w = (Ok v, LRU.touch eqb k v c, w).
Proof. intros Hhit. unfold LRU.call. now rewrite Hhit. Qed.

(** A miss runs the wrapped function once; its value, if any, is the most
    recent entry afterwards. *)
Lemma call_miss {W : Type} maxsize (f : K -> W -> result V * W) k c w :
  LRU.lookup eqb k c = None ->
  LRU.call eqb maxsize f k c w =
    match f k w with
    | (Ok v, w') => (Ok v, LRU.store maxsize k v c, w')
    | (Raise e, w') => (Raise e, c, w')
    end.
Proof. intros Hmiss. unfold LRU.call. now rewrite Hmiss. Qed.

(** After a call that returned, the key is cached with the returned value. *)
Lemma call_caches {W : Type} maxsize (f : K -> W -> result V * W) k c w v c' w' :
  (0 < maxsize)%nat ->
  LRU.call eqb maxsize f k c w = (Ok v, c', w') ->
  LRU.lookup eqb k c' = Some v.
Proof.
  intros Hpos. unfold LRU.call.
  destruct (LRU.lookup eqb k c) as [v0|] eqn:Hl.
  - intros [= <- <- <-]. apply lookup_touch.
  - destruct (f k w) as [[v0|e] w0]; intros [= <- <- <-].
    now apply lookup_store.
Qed.

End LRUFacts.

Lemma characters_key_eqb_refl k : characters_key_eqb k k = true.
Proof.
  destruct k as [[[s|] l] o]; unfold characters_key_eqb;
    rewrite ?String.eqb_refl, !Z.eqb_refl; reflexivity.
Qed.

Lemma characters_key_eqb_eq k1 k2 : characters_key_eqb k1 k2 = true <-> k1 = k2.
Proof.
  split; [|intros ->; apply characters_key_eqb_refl].
  destruct k1 as [[s1 l1] o1], k2 as [[s2 l2] o2]. unfold characters_key_eqb.
  rewrite !andb_true_iff, !Z.eqb_eq. intros [[Hs ->] ->].
  destruct s1 as [a|], s2 as [b|]; try discriminate; [|reflexivity].
  apply String.eqb_eq in Hs. now subst.
Qed.

(** ** Requests of the service *)

Section ServiceFacts.
Context `{Platform}.
Variable self : MarvelAPIService.t.
Variable env : Env.

Lemma characters_request_signed name_starts_with limit offset :
  signed self env (MarvelAPIService.characters_request self env name_starts_with limit offset).
Proof.
  unfold signed, MarvelAPIService.characters_request, MarvelAPIService._generate_auth_params.
  set (ts := Py.str_of_int _). set (digest := MD5.hexdigest _).
  destruct name_starts_with as [[|a prefix]|]; cbn -[ts digest];
    (repeat split; try reflexivity; eexists; split; [reflexivity|]);
    intros x Hx; simpl in *; tauto.
Qed.

Lemma character_request_signed character_id :
  signed self env (MarvelAPIService.character_request self env character_id).
Proof.
  unfold signed, MarvelAPIService.character_request, MarvelAPIService._generate_auth_params.
  set (ts := Py.str_of_int _). set (digest := MD5.hexdigest _).
  cbn -[ts digest].
  repeat split; try reflexivity. exists []. split; [reflexivity|].
  intros x [].
Qed.

(** The two ways a call of [get_characters] goes. *)
Lemma get_characters_hit name_starts_with limit offset w v :
  let key := (name_starts_with, limit, offset) in
  LRU.lookup characters_key_eqb key (characters_cache w) = Some v ->
  MarvelAPIService.get_characters self env name_starts_with limit offset w
  = (Ok v,
     mkWorld (LRU.touch characters_key_eqb key v (characters_cache w))
             (character_cache w) (sent w)).
Proof.
  cbv zeta. intros Hhit. unfold MarvelAPIService.get_characters.
  now rewrite (call_hit _ _ _ _ _ _ _ Hhit).
Qed.

Lemma get_characters_miss name_starts_with limit offset w :
  let key := (name_starts_with, limit, offset) in
  let request := MarvelAPIService.characters_request self env name_starts_with limit offset in
  let r := MarvelAPIService.except_RequestException
             (MarvelAPIService.characters_of_response env request) in
  LRU.lookup characters_key_eqb key (characters_cache w) = None ->
  MarvelAPIService.get_characters self env name_starts_with limit offset w
  = (r,
     mkWorld match r with
             | Ok v => LRU.store 100 key v (characters_cache w)
             | Raise _ => characters_cache w
             end
             (character_cache w) (sent w ++ [request])).
Proof.
  cbv zeta. intros Hmiss. unfold MarvelAPIService.get_characters.
  rewrite (call_miss _ _ _ _ _ _ Hmiss).
  unfold MarvelAPIService.get_characters_wrapped.
  destruct (MarvelAPIService.except_RequestException _); reflexivity.
Qed.

Lemma get_character_by_id_hit character_id w v :
  LRU.lookup Z.eqb character_id (character_cache w) = Some v ->
  MarvelAPIService.get_character_by_id self env character_id w
  = (Ok v,
     mkWorld (characters_cache w)
             (LRU.touch Z.eqb character_id v (character_cache w)) (sent w)).
Proof.
  intros Hhit. unfold MarvelAPIService.get_character_by_id.
  now rewrite (call_hit _ _ _ _ _ _ _ Hhit).
Qed.

Lemma get_character_by_id_miss character_id w :
  let request := MarvelAPIService.character_request self env character_id in
  let r := MarvelAPIService.except_RequestException
             (MarvelAPIService.character_of_response env request) in
  LRU.lookup Z.eqb character_id (character_cache w) = None ->
  MarvelAPIService.get_character_by_id self env character_id w
  = (r,
     mkWorld (characters_cache w)
             match r with
             | Ok v => LRU.store 50 character_id v (character_cache w)
             | Raise _ => character_cache w
             end
             (sent w ++ [request])).
Proof.
  cbv zeta. intros Hmiss. unfold MarvelAPIService.get_character_by_id.
  rewrite (call_miss _ _ _ _ _ _ Hmiss).
  unfold MarvelAPIService.get_character_by_id_wrapped.
  destruct (MarvelAPIService.except_RequestException _); reflexivity.
Qed.

(** What a call of [get_characters] does to the log: nothing on a hit, one
    request on a miss. *)
Lemma get_characters_log name_starts_with limit offset w :
  let key := (name_starts_with, limit, offset) in
  let w' := snd (MarvelAPIService.get_characters self env name_starts_with limit offset w) in
  match LRU.lookup characters_key_eqb key (characters_cache w) with
  | Some _ => sent w' = sent w
  | None =>
      sent w' = sent w ++
        [MarvelAPIService.characters_request self env name_starts_with limit offset]
  end.
Proof.
  cbv zeta. unfold MarvelAPIService.get_characters, LRU.call.
  destruct (LRU.lookup _ _ _) as [v|]; [reflexivity|].
  unfold MarvelAPIService.get_characters_wrapped.
  destruct (MarvelAPIService.except_RequestException _); reflexivity.
Qed.

Lemma get_character_by_id_log character_id w :
  let w' := snd (MarvelAPIService.get_character_by_id self env character_id w) in
  match LRU.lookup Z.eqb character_id (character_cache w) with
  | Some _ => sent w' = sent w
  | None => sent w' = sent w ++ [MarvelAPIService.character_request self env character_id]
  end.
Proof.
  cbv zeta. unfold MarvelAPIService.get_character_by_id, LRU.call.
  destruct (LRU.lookup _ _ _) as [v|]; [reflexivity|].
  unfold MarvelAPIService.get_character_by_id_wrapped.
  destruct (MarvelAPIService.except_RequestException _); reflexivity.
Qed.

End ServiceFacts.

(** ** Authentication of the upstream calls *)

(** C1: every call of [requests.get] the service makes carries exactly the
    three authentication parameters [ts], [apikey] and [hash] next to the
    parameters of the query: [ts] is the clock of that very call in whole
    seconds, [apikey] the public key, [hash] the MD5 digest, 32 hexadecimal
    digits, of timestamp, private key and public key in that order.  A call
    served from the cache sends nothing. *)
Theorem auth_params_on_every_upstream_call `{Platform}
    (self : MarvelAPIService.t) (env : Env) (w : World) :
  Dict.keys (MarvelAPIService._generate_auth_params self env) = ["ts"; "apikey"; "hash"] /\
  (forall m, is_hex_of_length 32 (MD5.hexdigest m)) /\
  ((0 <= clock env)%Q ->
   (inject_Z (Py.int_of_float (clock env)) <= clock env)%Q /\
   (clock env < inject_Z (Py.int_of_float (clock env) + 1))%Q) /\
  (forall name_starts_with limit offset,
     let w' := snd (MarvelAPIService.get_characters self env name_starts_with limit offset w) in
     sent w' = sent w \/
     exists request, sent w' = sent w ++ [request] /\ signed self env request) /\
  (forall character_id,
     let w' := snd (MarvelAPIService.get_character_by_id self env character_id w) in
     sent w' = sent w \/
     exists request, sent w' = sent w ++ [request] /\ signed self env request).
Proof.
  split; [reflexivity|]. split; [apply hexdigest_is_128_bits|].
  split; [apply int_of_float_whole_seconds|]. split.
  - intros s l o. cbv zeta.
    pose proof (get_characters_log self env s l o w) as Hlog. cbv zeta in Hlog.
    destruct (LRU.lookup _ _ _); [now left|].
    right. eexists. split; [exact Hlog|]. apply characters_request_signed.
  - intros i. cbv zeta.
    pose proof (get_character_by_id_log self env i w) as Hlog. cbv zeta in Hlog.
    destruct (LRU.lookup _ _ _); [now left|].
    right. eexists. split; [exact Hlog|]. apply character_request_signed.
Qed.

Lemma auth_params_on_every_upstream_call_witness :
  let env := Sample.down 1.9 in
  (inject_Z (Py.int_of_float (clock env)) <= clock env)%Q /\
  (clock env < inject_Z (Py.int_of_float (clock env) + 1))%Q.
Proof.
  cbv zeta.
  apply (proj1 (proj2 (proj2
           (auth_params_on_every_upstream_call (H := strict_platform) Sample.service
              (Sample.down 1.9) initial_world)))).
  unfold Qle. simpl. lia.
Defined.

(** ** The limit forwarded upstream *)

Lemma forwarded_limit_min self env name_starts_with limit offset :
  forwarded_limit self env name_starts_with limit offset = Some (PInt (Py.min limit 100)).
Proof.
  unfold forwarded_limit, MarvelAPIService.characters_request,
    MarvelAPIService._generate_auth_params.
  destruct name_starts_with as [[|a prefix]|]; reflexivity.
Qed.

Lemma py_min_spec a b : Py.min a b = Z.min a b.
Proof. unfold Py.min. destruct (Z.ltb_spec b a); lia. Qed.

(** C2, as the code has it: the limit sent upstream is [min(limit, 100)].
    A limit above 100 goes out as 100; a limit of 100 or less goes out as it
    came, also when it is below 1; inside [1, 100] that is the clamped value;
    and whatever the limit, the method sends its request. *)
Theorem forwarded_limit_is_capped_at_100 `{Platform}
    (self : MarvelAPIService.t) (env : Env)
    (name_starts_with : option string) (limit offset : Z) :
  forwarded_limit self env name_starts_with limit offset = Some (PInt (Z.min limit 100)) /\
  (100 < limit ->
   forwarded_limit self env name_starts_with limit offset = Some (PInt 100)) /\
  (limit <= 100 ->
   forwarded_limit self env name_starts_with limit offset = Some (PInt limit)) /\
  (1 <= limit <= 100 ->
   forwarded_limit self env name_starts_with limit offset = Some (PInt (clamp 1 100 limit))) /\
  (forall w,
     LRU.lookup characters_key_eqb (name_starts_with, limit, offset) (characters_cache w) = None ->
     sent (snd (MarvelAPIService.get_characters self env name_starts_with limit offset w))
     = sent w ++ [MarvelAPIService.characters_request self env name_starts_with limit offset]).
Proof.
  rewrite forwarded_limit_min, py_min_spec. unfold clamp.
  repeat split; intros.
  - do 2 f_equal. lia.
  - do 2 f_equal. lia.
  - do 2 f_equal. lia.
  - match goal with Hmiss : LRU.lookup _ _ _ = None |- _ =>
      pose proof (get_characters_log self env name_starts_with limit offset w) as Hlog;
      cbv zeta in Hlog; now rewrite Hmiss in Hlog
    end.
Qed.

Lemma forwarded_limit_is_capped_at_100_witness :
  forwarded_limit Sample.service (Sample.down 0) None 150 0 = Some (PInt 100) /\
  forwarded_limit Sample.service (Sample.down 0) None (-3) 0 = Some (PInt (-3)) /\
  forwarded_limit Sample.service (Sample.down 0) None 10 0 = Some (PInt (clamp 1 100 10)).
Proof.
  pose (T := fun l => forwarded_limit_is_capped_at_100 (H := strict_platform)
                        Sample.service (Sample.down 0) None l 0).
  split; [|split].
  - apply (proj1 (proj2 (T 150))). lia.
  - apply (proj1 (proj2 (proj2 (T (-3))))). lia.
  - apply (proj1 (proj2 (proj2 (proj2 (T 10))))). lia.
Defined.

(** C2, as the specification words it, fails below 1: a limit of 0 goes
    upstream as 0, where clamping into [1, 100] would send 1. *)
Lemma limit_below_1_is_not_raised_to_1 :
  forwarded_limit Sample.service (Sample.down 0) None 0 0 = Some (PInt 0) /\
  forwarded_limit Sample.service (Sample.down 0) None 0 0 <> Some (PInt (clamp 1 100 0)).
Proof. split; [reflexivity | discriminate]. Qed.

(** Behind the route, whose declared constraints reject a limit outside
    [1, 100] before the handler runs, the limit sent upstream is the one
    received. *)
Lemma get_characters_route_limit `{Platform} svc env search limit offset w :
  let l := match limit with Some l => l | None => 20 end in
  let o := match offset with Some o => o | None => 0 end in
  (1 <= l <= 100 /\ 0 <= o ->
   get_characters_route svc env search limit offset w = get_characters svc env search l o w /\
   forwarded_limit svc env search l o = Some (PInt l)) /\
  (~ (1 <= l <= 100 /\ 0 <= o) ->
   get_characters_route svc env search limit offset w = (Raise RequestValidationError, w)).
Proof.
  cbv zeta. unfold get_characters_route.
  set (l := match limit with Some l => l | None => 20 end).
  set (o := match offset with Some o => o | None => 0 end).
  rewrite forwarded_limit_min, py_min_spec.
  destruct (Z.leb_spec 1 l), (Z.leb_spec l 100), (Z.leb_spec 0 o); simpl;
    split; intros; try lia; try reflexivity.
  split; [reflexivity|]. do 2 f_equal. lia.
Qed.

(** ** What the cache of the listing is keyed by *)

(** Rewrites the second of two calls as a hit, given the entry its key has
    after the first. *)
Ltac hit_second Hentry :=
  match goal with
  | |- context [MarvelAPIService.get_characters ?self ?env ?s ?l ?o ?w1] =>
      match type of Hentry with
      | _ = Some ?v => rewrite (get_characters_hit self env s l o w1 v Hentry)
      end
  end;
  cbn [fst snd characters_cache sent]; auto.

(** Two consecutive calls with the same arguments. *)
Lemma consecutive_calls_with_the_same_arguments `{Platform}
    (self : MarvelAPIService.t) (env1 env2 : Env)
    (name_starts_with : option string) (limit offset : Z) (w : World) :
  let key := (name_starts_with, limit, offset) in
  let request e := MarvelAPIService.characters_request self e name_starts_with limit offset in
  let call1 := MarvelAPIService.get_characters self env1 name_starts_with limit offset w in
  let call2 := MarvelAPIService.get_characters self env2 name_starts_with limit offset (snd call1) in
  (LRU.lookup characters_key_eqb key (characters_cache w) = None ->
   sent (snd call1) = sent w ++ [request env1]) /\
  (forall v, LRU.lookup characters_key_eqb key (characters_cache w) = Some v ->
   fst call1 = Ok v /\ sent (snd call1) = sent w) /\
  (forall v, fst call1 = Ok v ->
   fst call2 = Ok v /\ sent (snd call2) = sent (snd call1)) /\
  (forall v, LRU.lookup characters_key_eqb key (characters_cache w) = None ->
   fst call1 = Ok v ->
   sent (snd call2) = sent w ++ [request env1]) /\
  (forall e, fst call1 = Raise e ->
   sent (snd call2) = sent w ++ [request env1; request env2]).
Proof.
  cbv zeta.
  assert (Hsecond : forall v,
    fst (MarvelAPIService.get_characters self env1 name_starts_with limit offset w) = Ok v ->
    LRU.lookup characters_key_eqb (name_starts_with, limit, offset)
      (characters_cache
         (snd (MarvelAPIService.get_characters self env1 name_starts_with limit offset w)))
    = Some v).
  { intros v. unfold MarvelAPIService.get_characters.
    destruct (LRU.call _ _ _ _ _ _) as [[r c] l] eqn:Hcall. simpl. intros ->.
    eapply call_caches; [apply characters_key_eqb_refl | | exact Hcall]. lia. }
  destruct (LRU.lookup characters_key_eqb (name_starts_with, limit, offset)
              (characters_cache w)) as [v0|] eqn:Hl.
  - rewrite (get_characters_hit self env1 _ _ _ _ _ Hl) in *.
    cbn [fst snd characters_cache sent] in *.
    split; [discriminate|]. split; [now intros v [= <-]|].
    split; [|split]; [| discriminate | discriminate].
    intros v Hv. specialize (Hsecond v Hv).
    hit_second Hsecond.
  - pose proof (get_characters_miss self env1 name_starts_with limit offset w Hl) as Hm.
    cbv zeta in Hm. rewrite Hm in *. clear Hm.
    cbn [fst snd characters_cache sent] in *.
    split; [reflexivity|]. split; [discriminate|].
    split; [|split].
    + intros v Hv. specialize (Hsecond v Hv).
      hit_second Hsecond.
    + intros v _ Hv. specialize (Hsecond v Hv).
      hit_second Hsecond.
    + intros e He. rewrite He in *.
      match goal with
      | |- sent (snd (MarvelAPIService.get_characters _ _ _ _ _ ?w1)) = _ =>
          pose proof (get_characters_miss self env2 name_starts_with limit offset w1 Hl) as Hm
      end.
      cbv zeta in Hm. rewrite Hm. cbn [fst snd characters_cache sent].
      now rewrite <- app_assoc.
Qed.

(** Which keys a cache holds after a call of the wrapper. *)
Section KeyFacts.
Context {K V : Type} (eqb : K -> K -> bool).
Hypothesis eqb_eq : forall k k', eqb k k' = true <-> k = k'.

Lemma lookup_absent_key k (c : @LRU.t K V) :
  ~ In k (map fst c) -> LRU.lookup eqb k c = None.
Proof.
  induction c as [|[k' v] c IH]; simpl; [reflexivity|].
  intros Hnotin. destruct (eqb k k') eqn:Hk.
  - apply eqb_eq in Hk. subst k'. exfalso. apply Hnotin. now left.
  - apply IH. intros Hin. apply Hnotin. now right.
Qed.

Lemma keys_of_remove k k' (c : @LRU.t K V) :
  In k (map fst (LRU.remove eqb k' c)) -> In k (map fst c).
Proof.
  induction c as [|[k0 v] c IH]; simpl; [auto|].
  destruct (eqb k' k0); simpl; [now right|].
  intros [Hk|Hin]; [now left | right; now apply IH].
Qed.

Lemma keys_of_firstn n k (c : @LRU.t K V) :
  In k (map fst (firstn n c)) -> In k (map fst c).
Proof.
  intros Hin. rewrite <- (firstn_skipn n c), map_app. apply in_or_app. now left.
Qed.

(** A call adds no key but its own. *)
Lemma keys_after_call {W : Type} maxsize (f : K -> W -> result V * W) k k1
    (c : @LRU.t K V) w :
  In k (map fst (snd (fst (LRU.call eqb maxsize f k1 c w)))) ->
  In k (map fst c) \/ k = k1.
Proof.
  unfold LRU.call. destruct (LRU.lookup eqb k1 c) as [v|]; cbn [fst snd].
  - unfold LRU.touch. simpl. intros [Hk|Hin]; [now right | left].
    now apply (keys_of_remove k k1).
  - destruct (f k1 w) as [[v|e] w']; cbn [fst snd]; [|now left].
    unfold LRU.store. intros Hin. apply keys_of_firstn in Hin.
    simpl in Hin. destruct Hin as [Hk|Hin]; [now right | now left].
Qed.

End KeyFacts.

(** A call with other arguments than the call before it, and that were not
    cached before either, reaches the network. *)
Lemma other_arguments_reach_the_network `{Platform}
    (self : MarvelAPIService.t) (env1 env2 : Env)
    (s1 s2 : option string) (l1 o1 l2 o2 : Z) (w : World) :
  (s2, l2, o2) <> (s1, l1, o1) ->
  ~ In (s2, l2, o2) (map fst (characters_cache w)) ->
  let w1 := snd (MarvelAPIService.get_characters self env1 s1 l1 o1 w) in
  sent (snd (MarvelAPIService.get_characters self env2 s2 l2 o2 w1))
  = sent w1 ++ [MarvelAPIService.characters_request self env2 s2 l2 o2].
Proof.
  intros Hne Hnotin. cbv zeta.
  set (w1 := snd (MarvelAPIService.get_characters self env1 s1 l1 o1 w)).
  assert (Hmiss : LRU.lookup characters_key_eqb (s2, l2, o2) (characters_cache w1) = None).
  { apply (lookup_absent_key characters_key_eqb characters_key_eqb_eq).
    intros Hin. unfold w1, MarvelAPIService.get_characters in Hin.
    destruct (LRU.call characters_key_eqb 100 (MarvelAPIService.get_characters_wrapped self env1)
                (s1, l1, o1) (characters_cache w) (sent w)) as [[r c] log] eqn:Hcall.
    cbn [snd characters_cache] in Hin.
    assert (Hc : c = snd (fst (LRU.call characters_key_eqb 100
                                 (MarvelAPIService.get_characters_wrapped self env1)
                                 (s1, l1, o1) (characters_cache w) (sent w))))
      by now rewrite Hcall.
    rewrite Hc in Hin. apply keys_after_call in Hin as [Hin|Heq]; contradiction. }
  pose proof (get_characters_miss self env2 s2 l2 o2 w1 Hmiss) as Hm.
  cbv zeta in Hm. now rewrite Hm.
Qed.

(** C3, as the code has it: the cache of [get_characters] is keyed by the
    arguments as they are passed, before the limit is capped.  A call
    reaches the network exactly when that tuple is not cached; of two
    consecutive calls with the same arguments, the second is served from the
    cache when the first returned, so that the two make one upstream call
    when they start on a miss; when the first raised, nothing was stored and
    the second calls the upstream again.  Two calls share an entry only when
    their arguments as passed are equal: a call whose search, limit or
    offset differs from the call before it, and was not cached before,
    calls the upstream; from an empty cache and after a call that returned,
    the next call is served from the cache exactly when its three arguments
    are those of that call. *)
Theorem cache_is_keyed_by_the_arguments_as_passed `{Platform}
    (self : MarvelAPIService.t) (env1 env2 : Env)
    (name_starts_with : option string) (limit offset : Z) (w : World) :
  let key := (name_starts_with, limit, offset) in
  let request e := MarvelAPIService.characters_request self e name_starts_with limit offset in
  let call1 := MarvelAPIService.get_characters self env1 name_starts_with limit offset w in
  let call2 := MarvelAPIService.get_characters self env2 name_starts_with limit offset (snd call1) in
  let other s2 l2 o2 := MarvelAPIService.get_characters self env2 s2 l2 o2 (snd call1) in
  (LRU.lookup characters_key_eqb key (characters_cache w) = None ->
   sent (snd call1) = sent w ++ [request env1]) /\
  (forall v, LRU.lookup characters_key_eqb key (characters_cache w) = Some v ->
   fst call1 = Ok v /\ sent (snd call1) = sent w) /\
  (forall v, fst call1 = Ok v ->
   fst call2 = Ok v /\ sent (snd call2) = sent (snd call1)) /\
  (forall v, LRU.lookup characters_key_eqb key (characters_cache w) = None ->
   fst call1 = Ok v ->
   sent (snd call2) = sent w ++ [request env1]) /\
  (forall e, fst call1 = Raise e ->
   sent (snd call2) = sent w ++ [request env1; request env2]) /\
  (forall s2 l2 o2,
     (s2, l2, o2) <> key ->
     ~ In (s2, l2, o2) (map fst (characters_cache w)) ->
     sent (snd (other s2 l2 o2))
     = sent (snd call1) ++ [MarvelAPIService.characters_request self env2 s2 l2 o2]) /\
  (forall s2 l2 o2 v,
     characters_cache w = [] ->
     fst call1 = Ok v ->
     (sent (snd (other s2 l2 o2)) = sent (snd call1) <-> (s2, l2, o2) = key)).
Proof.
  cbv zeta.
  pose proof (consecutive_calls_with_the_same_arguments self env1 env2
                name_starts_with limit offset w) as Hsame.
  cbv zeta in Hsame. destruct Hsame as (H1 & H2 & H3 & H4 & H5).
  repeat (split; [assumption|]). split.
  - intros s2 l2 o2 Hne Hnotin.
    now apply (other_arguments_reach_the_network self env1 env2).
  - intros s2 l2 o2 v Hempty Hret. split.
    + intros Hsent.
      destruct (characters_key_eqb (s2, l2, o2) (name_starts_with, limit, offset)) eqn:Hk;
        [now apply characters_key_eqb_eq|].
      exfalso.
      assert (Hne : (s2, l2, o2) <> (name_starts_with, limit, offset)).
      { intros Heq. apply characters_key_eqb_eq in Heq. congruence. }
      assert (Hnotin : ~ In (s2, l2, o2) (map fst (characters_cache w)))
        by (rewrite Hempty; intros []).
      pose proof (other_arguments_reach_the_network self env1 env2 _ _ _ _ _ _ w Hne Hnotin)
        as Hgrow.
      cbv zeta in Hgrow. rewrite Hgrow in Hsent.
      apply (f_equal (@List.length _)) in Hsent. rewrite length_app in Hsent.
      simpl in Hsent. lia.
    + intros [= -> -> ->]. now apply (H3 v).
Qed.

Lemma cache_is_keyed_by_the_arguments_as_passed_witness :
  let env := Sample.answering 0 (Sample.envelope 200 [Sample.record 1009610 "Spider-Man"]) in
  let request := MarvelAPIService.characters_request Sample.service env (Some "spider") 10 in
  let call1 :=
    MarvelAPIService.get_characters (H := strict_platform) Sample.service env
      (Some "spider") 10 0 initial_world in
  let same :=
    MarvelAPIService.get_characters (H := strict_platform) Sample.service env
      (Some "spider") 10 0 (snd call1) in
  let next_page :=
    MarvelAPIService.get_characters (H := strict_platform) Sample.service env
      (Some "spider") 10 10 (snd call1) in
  sent (snd same) = [request 0] /\
  sent (snd next_page) = sent (snd call1) ++ [request 10].
Proof.
  cbv zeta.
  pose (T := cache_is_keyed_by_the_arguments_as_passed (H := strict_platform)
               Sample.service
               (Sample.answering 0 (Sample.envelope 200 [Sample.record 1009610 "Spider-Man"]))
               (Sample.answering 0 (Sample.envelope 200 [Sample.record 1009610 "Spider-Man"]))
               (Some "spider") 10 0 initial_world).
  split.
  - eapply (proj1 (proj2 (proj2 (proj2 T)))).
    + reflexivity.
    + vm_compute. reflexivity.
  - apply (proj1 (proj2 (proj2 (proj2 (proj2 (proj2 T))))) (Some "spider") 10 10).
    + discriminate.
    + simpl. tauto.
Defined.

(** C3, as the specification words it, fails: two calls that differ only in
    limits that both cap to 100 have the same arguments after clamping, yet
    each of them calls the upstream and each leaves an entry of its own. *)
Lemma limits_150_and_200_do_not_share_an_entry :
  let env := Sample.answering 0 (Sample.envelope 200 []) in
  let call1 :=
    MarvelAPIService.get_characters (H := strict_platform) Sample.service env
      (Some "spider") 150 0 initial_world in
  let call2 :=
    MarvelAPIService.get_characters (H := strict_platform) Sample.service env
      (Some "spider") 200 0 (snd call1) in
  post_clamp_key (Some "spider", 150, 0) = post_clamp_key (Some "spider", 200, 0) /\
  forwarded_limit Sample.service env (Some "spider") 150 0
  = forwarded_limit Sample.service env (Some "spider") 200 0 /\
  (exists page, fst call1 = Ok page /\ fst call2 = Ok page) /\
  List.length (sent (snd call2)) = 2%nat /\
  List.length (characters_cache (snd call2)) = 2%nat.
Proof.
  cbv zeta. split; [reflexivity|]. split; [reflexivity|].
  split; [eexists; split; vm_compute; reflexivity|].
  split; vm_compute; reflexivity.
Qed.

(** ** Which exceptions the parsing of an answer raises *)

Lemma only_plain_bind {A B : Type} (r : result A) (k : A -> result B) :
  only_plain r -> (forall a, only_plain (k a)) -> only_plain (bind r k).
Proof.
  intros Hr Hk e. destruct r as [a|e']; simpl.
  - apply Hk.
  - intros [= <-]. now apply Hr.
Qed.

Lemma only_plain_Ok {A : Type} (a : A) : only_plain (Ok a).
Proof. intros e. discriminate. Qed.

Lemma only_plain_Raise {A B : Type} (e : exn) :
  only_plain (@Raise A e) -> only_plain (@Raise B e).
Proof. intros Hp e' [= <-]. now apply Hp. Qed.

Lemma only_plain_mapM {A B : Type} (f : A -> result B) (l : list A) :
  (forall a, only_plain (f a)) -> only_plain (mapM f l).
Proof.
  intros Hf. induction l as [|a l IH]; simpl.
  - apply only_plain_Ok.
  - apply only_plain_bind; [apply Hf|]. intros b.
    apply only_plain_bind; [apply IH|]. intros bs. apply only_plain_Ok.
Qed.

Lemma only_plain_getitem o k : only_plain (Json.getitem o k).
Proof.
  intros e. unfold Json.getitem.
  destruct o; try (intros [= <-]; reflexivity).
  destruct (Json.lookup k d); [discriminate|]. intros [= <-]. reflexivity.
Qed.

Lemma only_plain_get o k default : only_plain (Json.get o k default).
Proof.
  intros e. unfold Json.get.
  destruct o; try (intros [= <-]; reflexivity).
  destruct (Json.lookup k d); discriminate.
Qed.

Lemma only_plain_getitem0 o : only_plain (Json.getitem0 o).
Proof.
  intros e. unfold Json.getitem0.
  destruct o as [| | | |s|l|d]; try (intros [= <-]; reflexivity).
  - destruct s; [|discriminate]. intros [= <-]. reflexivity.
  - destruct l; [|discriminate]. intros [= <-]. reflexivity.
Qed.

Lemma only_plain_iter o : only_plain (Json.iter o).
Proof.
  intros e. unfold Json.iter.
  destruct o; try discriminate; intros [= <-]; reflexivity.
Qed.

Create HintDb plain.
#[local] Hint Resolve only_plain_Ok only_plain_getitem only_plain_get
  only_plain_getitem0 only_plain_iter : plain.

(** Splits a chain of binds into its steps. *)
Ltac plain_steps :=
  repeat first
    [ solve [auto with plain]
    | apply only_plain_bind; [|intros ?]
    | apply only_plain_mapM; intros ? ].

Section ParsingFacts.
Context `{Platform}.

Lemma only_plain_thumbnail path extension :
  only_plain (CharacterThumbnail.new path extension).
Proof.
  intros e. unfold CharacterThumbnail.new.
  destruct (validate_str path), (validate_str extension);
    try discriminate; intros [= <-]; reflexivity.
Qed.

Lemma only_plain_url type url : only_plain (CharacterUrl.new type url).
Proof.
  intros e. unfold CharacterUrl.new.
  destruct (validate_str type), (validate_str url);
    try discriminate; intros [= <-]; reflexivity.
Qed.

Lemma only_plain_character i n d t r u c se st ev :
  only_plain (Character.new i n d t r u c se st ev).
Proof.
  intros e. unfold Character.new.
  repeat match goal with
         | |- context [match ?x with Some _ => _ | None => _ end] => destruct x
         end;
    try discriminate; intros [= <-]; reflexivity.
Qed.

Hint Resolve only_plain_thumbnail only_plain_url only_plain_character : plain.

Lemma only_plain_character_of char_data :
  only_plain (MarvelAPIService.character_of char_data).
Proof. unfold MarvelAPIService.character_of. plain_steps. Qed.

(** The record [character_of] returns has the validated [id] of the raw
    record. *)
Lemma character_of_id char_data c :
  MarvelAPIService.character_of char_data = Ok c ->
  exists raw, Json.getitem char_data "id" = Ok raw /\
              validate_int raw = Some (Character.id c).
Proof.
  unfold MarvelAPIService.character_of.
  destruct (Json.getitem char_data "id") as [raw|]; [|discriminate].
  intros Hc. exists raw. split; [reflexivity|].
  unfold bind in Hc.
  repeat match type of Hc with
         | match ?x with Ok _ => _ | Raise _ => _ end = _ =>
             destruct x; [|discriminate]
         end.
  unfold Character.new in Hc.
  destruct (validate_int raw); [|discriminate].
  repeat match type of Hc with
         | match ?x with Some _ => _ | None => _ end = _ =>
             destruct x; [|discriminate]
         end.
  now injection Hc as <-.
Qed.

End ParsingFacts.

#[local] Hint Resolve only_plain_character_of : plain.

(** ** Lookup of one character *)

Section LookupFacts.
Context `{Platform}.

Lemma fetch_cases env request :
  MarvelAPIService.fetch env request =
  match upstream env request with
  | Unreachable what => Raise (RequestException what)
  | Response status_code body =>
      if is_error_status status_code then Raise (RequestException "HTTPError")
      else response_json body
  end.
Proof.
  unfold MarvelAPIService.fetch, raise_for_status, is_error_status.
  destruct (upstream env request) as [what|status_code body]; [reflexivity|].
  destruct ((400 <=? status_code) && (status_code <? 600)); reflexivity.
Qed.

(** The [if] statement of [get_character_by_id]: its 404 on an envelope that
    reports no character, and otherwise the first record of the result set,
    or a plain exception. *)
Lemma character_of_envelope_cases data :
  if envelope_not_found data
  then MarvelAPIService.character_of_envelope data
       = Raise (HTTPException 404 (Text "Character not found"))
  else only_plain (MarvelAPIService.character_of_envelope data) /\
       forall c, MarvelAPIService.character_of_envelope data = Ok c ->
                 exists char_data, first_result data = Ok char_data /\
                                   MarvelAPIService.character_of char_data = Ok c.
Proof.
  unfold envelope_not_found, MarvelAPIService.character_of_envelope, first_result.
  pose proof (only_plain_getitem data "code") as Hcode.
  destruct (Json.getitem data "code") as [code|e]; cbn [bind].
  2:{ split; [exact (only_plain_Raise _ Hcode) | discriminate]. }
  destruct (Json.eq_int code 200); cbn [bind]; [|reflexivity].
  pose proof (only_plain_getitem data "data") as Hdata.
  destruct (Json.getitem data "data") as [d|e]; cbn [bind].
  2:{ split; [exact (only_plain_Raise _ Hdata) | discriminate]. }
  pose proof (only_plain_getitem d "results") as Hresults.
  destruct (Json.getitem d "results") as [results|e]; cbn [bind].
  2:{ split; [exact (only_plain_Raise _ Hresults) | discriminate]. }
  destruct (Json.truthy results); cbn [negb]; [|reflexivity].
  split.
  - plain_steps.
  - intros c Hc. destruct (Json.getitem0 results) as [char_data|e]; [|discriminate].
    exists char_data. split; [reflexivity | exact Hc].
Qed.

(** The handler maps what the method does to a status. *)
Lemma get_character_fst svc env character_id w :
  fst (get_character svc env character_id w) =
  match fst (MarvelAPIService.get_character_by_id svc env character_id w) with
  | Ok c => Ok c
  | Raise e => if is_HTTPException e then Raise e else Raise (HTTPException 500 (StrOf e))
  end.
Proof.
  unfold get_character.
  destruct (MarvelAPIService.get_character_by_id svc env character_id w) as [[c|e] w'];
    [reflexivity|]. simpl. destruct (is_HTTPException e); reflexivity.
Qed.

End LookupFacts.

(** Closes the characterisation of the statuses once the answer is known. *)
Ltac status_cases :=
  repeat split; intros; try discriminate; auto.




(** ** Failures of the listing *)

Section ListingFacts.
Context `{Platform}.

Lemma get_characters_fst svc env search limit offset w :
  fst (get_characters svc env search limit offset w) =
  match fst (MarvelAPIService.get_characters svc env search limit offset w) with
  | Ok page => Ok page
  | Raise e => Raise (HTTPException 500 (StrOf e))
  end.
Proof.
  unfold get_characters.
  destruct (MarvelAPIService.get_characters svc env search limit offset w) as [[page|e] w'];
    reflexivity.
Qed.

(** On a miss the method raises its 503 when [requests] raised. *)
Lemma get_characters_unavailable svc env search limit offset w :
  LRU.lookup characters_key_eqb (search, limit, offset) (characters_cache w) = None ->
  answers_unavailable
    (upstream env (MarvelAPIService.characters_request svc env search limit offset)) = true ->
  exists e,
    fst (MarvelAPIService.get_characters svc env search limit offset w)
    = Raise (HTTPException 503 (MarvelAPIUnavailable e)).
Proof.
  intros Hmiss Hu.
  pose proof (get_characters_miss svc env search limit offset w Hmiss) as Hm.
  cbv zeta in Hm. rewrite Hm. clear Hm. cbn [fst].
  unfold MarvelAPIService.characters_of_response. rewrite fetch_cases.
  unfold answers_unavailable in Hu.
  destruct (upstream env _) as [what|status_code body]; [eexists; reflexivity|].
  destruct (is_error_status status_code); [eexists; reflexivity|].
  destruct body as [data|]; [discriminate|]. cbn in Hu |- *. rewrite Hu.
  eexists; reflexivity.
Qed.

(** On a miss the method raises its 400 when the envelope reports a code
    other than 200 and has a status. *)
Lemma get_characters_protocol_error svc env search limit offset w status_code data code status :
  LRU.lookup characters_key_eqb (search, limit, offset) (characters_cache w) = None ->
  upstream env (MarvelAPIService.characters_request svc env search limit offset)
  = Response status_code (Some data) ->
  is_error_status status_code = false ->
  Json.getitem data "code" = Ok code ->
  Json.eq_int code 200 = false ->
  Json.getitem data "status" = Ok status ->
  fst (MarvelAPIService.get_characters svc env search limit offset w)
  = Raise (HTTPException 400 (MarvelAPIError status)).
Proof.
  intros Hmiss Hu Hst Hcode Hne Hstatus.
  pose proof (get_characters_miss svc env search limit offset w Hmiss) as Hm.
  cbv zeta in Hm. rewrite Hm. clear Hm. cbn [fst].
  unfold MarvelAPIService.characters_of_response. rewrite fetch_cases, Hu, Hst.
  cbn [response_json bind]. unfold MarvelAPIService.characters_of_envelope.
  rewrite Hcode. cbn [bind]. rewrite Hne, Hstatus. reflexivity.
Qed.

End ListingFacts.

(** C9: whatever the method raises, the handler of [GET /characters]
    answers 500, because its [except Exception] also catches the method's own
    [HTTPException]s: the 503 raised when the upstream is unavailable and
    the 400 raised on a protocol error both reach the client as 500. *)
Theorem get_characters_failures_are_500 `{Platform}
    (svc : MarvelAPIService.t) (env : Env)
    (search : option string) (limit offset : Z) (w : World) :
  let method := fst (MarvelAPIService.get_characters svc env search limit offset w) in
  let handler := fst (get_characters svc env search limit offset w) in
  let u := upstream env (MarvelAPIService.characters_request svc env search limit offset) in
  let miss :=
    LRU.lookup characters_key_eqb (search, limit, offset) (characters_cache w) = None in
  (forall e, method = Raise e ->
     handler = Raise (HTTPException 500 (StrOf e)) /\ http_status handler = 500) /\
  (http_status handler = 200 \/ http_status handler = 500) /\
  (miss -> answers_unavailable u = true ->
     http_status method = 503 /\ http_status handler = 500) /\
  (forall status_code data code status,
     miss -> u = Response status_code (Some data) -> is_error_status status_code = false ->
     Json.getitem data "code" = Ok code -> Json.eq_int code 200 = false ->
     Json.getitem data "status" = Ok status ->
     http_status method = 400 /\ http_status handler = 500).
Proof.
  cbv zeta. rewrite get_characters_fst.
  split; [|split; [|split]].
  - intros e ->. split; reflexivity.
  - destruct (fst (MarvelAPIService.get_characters _ _ _ _ _ _)); [now left | now right].
  - intros Hmiss Hu.
    destruct (get_characters_unavailable _ _ _ _ _ _ Hmiss Hu) as [e ->].
    split; reflexivity.
  - intros status_code data code status Hmiss Hu Hst Hcode Hne Hstatus.
    rewrite (get_characters_protocol_error _ _ _ _ _ _ _ _ _ _
               Hmiss Hu Hst Hcode Hne Hstatus).
    split; reflexivity.
Qed.

Lemma get_characters_failures_are_500_witness :
  (let env := Sample.down 0 in
   http_status (fst (MarvelAPIService.get_characters (H := strict_platform)
                       Sample.service env (Some "spider") 10 0 initial_world)) = 503 /\
   http_status (fst (get_characters (H := strict_platform)
                       Sample.service env (Some "spider") 10 0 initial_world)) = 500) /\
  (let env := Sample.answering 0 (Sample.envelope 409 []) in
   http_status (fst (MarvelAPIService.get_characters (H := strict_platform)
                       Sample.service env (Some "spider") 10 0 initial_world)) = 400 /\
   http_status (fst (get_characters (H := strict_platform)
                       Sample.service env (Some "spider") 10 0 initial_world)) = 500).
Proof.
  cbv zeta. split.
  - apply (proj1 (proj2 (proj2
             (get_characters_failures_are_500 (H := strict_platform) Sample.service
                (Sample.down 0) (Some "spider") 10 0 initial_world)))); reflexivity.
  - apply (proj2 (proj2 (proj2
             (get_characters_failures_are_500 (H := strict_platform) Sample.service
                (Sample.answering 0 (Sample.envelope 409 [])) (Some "spider") 10 0
                initial_world)))
             200 (Sample.envelope 409 []) (JInt 409) (JStr "Ok")); reflexivity.
Defined.

(** ** Facts about the favorites collection *)

Lemma matches_pair u c doc :
  matches (ByUserAndCharacter u c) doc = true <-> pair_of doc = (u, c).
Proof.
  unfold matches, pair_of. rewrite andb_true_iff, String.eqb_eq, Z.eqb_eq.
  split; [intros [-> ->]; reflexivity | intros [= -> ->]; now split].
Qed.

Lemma find_none_existsb q (c : Collection.t) :
  List.find (matches q) c = None <-> existsb (matches q) c = false.
Proof.
  induction c as [|doc c IH]; simpl; [tauto|].
  destruct (matches q doc); simpl; [split; discriminate | exact IH].
Qed.

Lemma find_some_existsb q (c : Collection.t) :
  (exists doc, List.find (matches q) c = Some doc) <-> existsb (matches q) c = true.
Proof.
  destruct (List.find (matches q) c) as [doc|] eqn:Hf.
  - split; [intros _ | intros _; now exists doc].
    destruct (existsb (matches q) c) eqn:He; [reflexivity|].
    apply find_none_existsb in He. congruence.
  - apply find_none_existsb in Hf. rewrite Hf. split; [intros [doc [=]] | discriminate].
Qed.

Lemma existsb_false_not_in u c (favorites : Collection.t) :
  existsb (matches (ByUserAndCharacter u c)) favorites = false ->
  ~ In (u, c) (map pair_of favorites).
Proof.
  intros Hnone Hin. apply in_map_iff in Hin as (doc & Hpair & Hdoc).
  apply matches_pair in Hpair.
  assert (existsb (matches (ByUserAndCharacter u c)) favorites = true) as Hsome
    by (apply existsb_exists; now exists doc).
  congruence.
Qed.

Lemma count_matching_0 q (c : Collection.t) :
  count_matching q c = 0%nat <-> existsb (matches q) c = false.
Proof.
  unfold count_matching. induction c as [|doc c IH]; simpl; [tauto|].
  destruct (matches q doc); simpl; [split; discriminate | exact IH].
Qed.

Lemma remove_first_no_match q (c : Collection.t) :
  existsb (matches q) c = false -> Collection.remove_first q c = c.
Proof.
  induction c as [|doc c IH]; simpl; [reflexivity|].
  destruct (matches q doc); simpl; [discriminate|].
  intros Hc. now rewrite IH.
Qed.

(** [remove_first] takes out the first matching document and nothing else. *)
Lemma remove_first_split q (c : Collection.t) :
  existsb (matches q) c = true ->
  exists before doc after,
    c = before ++ doc :: after /\
    existsb (matches q) before = false /\
    matches q doc = true /\
    Collection.remove_first q c = before ++ after.
Proof.
  induction c as [|doc c IH]; simpl; [discriminate|].
  destruct (matches q doc) eqn:Hdoc; simpl.
  - intros _. now exists [], doc, c.
  - intros Hc. destruct (IH Hc) as (before & d & after & -> & Hb & Hd & Hr).
    exists (doc :: before), d, after. simpl. rewrite Hdoc, Hr. now repeat split.
Qed.

Lemma remove_first_appended q (c : Collection.t) doc :
  existsb (matches q) c = false -> matches q doc = true ->
  Collection.remove_first q (c ++ [doc]) = c.
Proof.
  intros Hc Hdoc. induction c as [|d c IH]; simpl in *.
  - now rewrite Hdoc.
  - destruct (matches q d); simpl in *; [discriminate|]. now rewrite IH.
Qed.

Lemma remove_first_unique q (c : Collection.t) :
  unique_pairs c -> unique_pairs (Collection.remove_first q c).
Proof.
  unfold unique_pairs. induction c as [|doc c IH]; simpl; [auto|].
  intros Hnd. inversion Hnd as [|x l Hnotin Hnd']; subst.
  destruct (matches q doc); [exact Hnd'|].
  simpl. constructor; [|now apply IH].
  intros Hin. apply Hnotin.
  clear -Hin. induction c as [|d c IHc]; simpl in *; [tauto|].
  destruct (matches q d); simpl in *; [now right|].
  destruct Hin as [Hd|Hin]; [now left | right; now apply IHc].
Qed.

Lemma append_unique (c : Collection.t) doc :
  unique_pairs c -> ~ In (pair_of doc) (map pair_of c) -> unique_pairs (c ++ [doc]).
Proof.
  unfold unique_pairs. intros Hnd Hnotin. rewrite map_app. simpl.
  apply NoDup_app; [exact Hnd | constructor; [intros [] | constructor] |].
  intros x Hx [<-|[]]. contradiction.
Qed.

Lemma add_favorite_unique drv favorite favorites :
  unique_pairs favorites -> unique_pairs (snd (add_favorite drv favorite favorites)).
Proof.
  intros Hu. unfold add_favorite, Collection.find_one, Collection.insert_one.
  destruct (find_one_fault drv); simpl; try exact Hu.
  destruct (List.find _ favorites) as [existing|] eqn:Hfind; simpl; [exact Hu|].
  apply find_none_existsb, existsb_false_not_in in Hfind.
  destruct (insert_one_fault drv); cbn [snd]; try exact Hu;
    (apply append_unique; [exact Hu | exact Hfind]).
Qed.

Lemma remove_favorite_unique drv user_id character_id favorites :
  unique_pairs favorites ->
  unique_pairs (snd (remove_favorite drv user_id character_id favorites)).
Proof.
  intros Hu. unfold remove_favorite, Collection.delete_one.
  destruct (delete_one_fault drv); simpl; try exact Hu;
    try (now apply remove_first_unique).
  destruct (Collection.deleted_count _ favorites =? 0); simpl;
    now apply remove_first_unique.
Qed.

(** ** The favorites routes *)

(** The two handlers that write, when the calls of the driver succeed. *)
Lemma add_favorite_reliable uuid now favorite favorites :
  add_favorite (reliable uuid now) favorite favorites =
  if existsb (matches (ByUserAndCharacter (FavoriteCreate.user_id favorite)
                                          (FavoriteCreate.character_id favorite))) favorites
  then (Raise (HTTPException 400 (Text "Character already in favorites")), favorites)
  else (Ok (FavoriteCharacter.new uuid now favorite),
        favorites ++ [FavoriteCharacter.stored (FavoriteCharacter.new uuid now favorite)]).
Proof.
  unfold add_favorite, reliable. cbn [find_one_fault insert_one_fault uuid4 utcnow].
  unfold Collection.find_one, Collection.insert_one.
  destruct (existsb _ favorites) eqn:Hex.
  - apply find_some_existsb in Hex as [existing ->]. reflexivity.
  - apply find_none_existsb in Hex. now rewrite Hex.
Qed.

Lemma remove_favorite_reliable uuid now user_id character_id favorites :
  remove_favorite (reliable uuid now) user_id character_id favorites =
  if existsb (matches (ByUserAndCharacter user_id character_id)) favorites
  then (Ok [("message", "Favorite removed successfully")],
        Collection.remove_first (ByUserAndCharacter user_id character_id) favorites)
  else (Raise (HTTPException 404 (Text "Favorite not found")), favorites).
Proof.
  unfold remove_favorite, reliable. cbn [delete_one_fault].
  unfold Collection.delete_one, Collection.deleted_count.
  destruct (existsb _ favorites) eqn:Hex; cbn; [reflexivity|].
  now rewrite remove_first_no_match.
Qed.

Lemma floor_ms_bounds (x : datetime) :
  (Timestamp.floor_ms x <= x)%Q /\ (x < Timestamp.floor_ms x + (1 # 1000))%Q.
Proof.
  unfold Timestamp.floor_ms.
  pose proof (Qfloor_le (x * 1000)) as Hle.
  pose proof (Qlt_floor (x * 1000)) as Hlt.
  rewrite inject_Z_plus in Hlt.
  set (f := inject_Z (Qfloor (x * 1000))) in *.
  split.
  - apply Qle_shift_div_r; [reflexivity | exact Hle].
  - assert (Hf : (f / 1000 + (1 # 1000) == (f + 1) / 1000)%Q) by field.
    rewrite Hf. apply Qlt_shift_div_l; [reflexivity | exact Hlt].
Qed.

Lemma stored_ids_stay_distinct (doc : FavoriteCharacter.t) (favorites : Collection.t) :
  NoDup (map FavoriteCharacter.id favorites) ->
  ~ In (FavoriteCharacter.id doc) (map FavoriteCharacter.id favorites) ->
  NoDup (map FavoriteCharacter.id (favorites ++ [FavoriteCharacter.stored doc])).
Proof.
  intros Hnd Hnew. rewrite map_app. cbn [map FavoriteCharacter.stored FavoriteCharacter.id].
  apply NoDup_app; [exact Hnd | constructor; [intros [] | constructor] |].
  intros x Hx [<-|[]]. contradiction.
Qed.

(** C5, as the code has it, with a driver whose calls succeed.
    [add_favorite] answers 400 and writes nothing when a document with the
    same (user_id, character_id) is stored.  Otherwise it stores exactly one
    new document, last, and returns the record it built: both have the
    identifier drawn from the uuid generator and the fields of the request;
    the returned record carries the instant read from the clock, aware, and
    the stored document that instant cut to whole milliseconds, naive.  The
    identifier is not compared with the stored ones: the stored identifiers
    stay distinct when the draw is not among them. *)
Theorem add_favorite_checks_then_inserts
    (uuid : string) (now : datetime) (favorite : FavoriteCreate.t)
    (favorites : Collection.t) :
  let q := ByUserAndCharacter (FavoriteCreate.user_id favorite)
                              (FavoriteCreate.character_id favorite) in
  let out := add_favorite (reliable uuid now) favorite favorites in
  (existsb (matches q) favorites = true ->
     fst out = Raise (HTTPException 400 (Text "Character already in favorites")) /\
     http_status (fst out) = 400 /\
     snd out = favorites) /\
  (existsb (matches q) favorites = false ->
     exists returned stored,
       fst out = Ok returned /\
       http_status (fst out) = 200 /\
       snd out = favorites ++ [stored] /\
       stored = FavoriteCharacter.stored returned /\
       FavoriteCharacter.id returned = uuid /\
       FavoriteCharacter.id stored = uuid /\
       FavoriteCharacter.user_id returned = FavoriteCreate.user_id favorite /\
       FavoriteCharacter.user_id stored = FavoriteCreate.user_id favorite /\
       FavoriteCharacter.character_id returned = FavoriteCreate.character_id favorite /\
       FavoriteCharacter.character_id stored = FavoriteCreate.character_id favorite /\
       FavoriteCharacter.character_name returned = FavoriteCreate.character_name favorite /\
       FavoriteCharacter.character_name stored = FavoriteCreate.character_name favorite /\
       FavoriteCharacter.added_at returned = Timestamp.mk now true /\
       Timestamp.aware (FavoriteCharacter.added_at stored) = false /\
       (Timestamp.instant (FavoriteCharacter.added_at stored) <= now)%Q /\
       (now < Timestamp.instant (FavoriteCharacter.added_at stored) + (1 # 1000))%Q /\
       (NoDup (map FavoriteCharacter.id favorites) ->
        ~ In uuid (map FavoriteCharacter.id favorites) ->
        NoDup (map FavoriteCharacter.id (snd out)))).
Proof.
  cbv zeta. rewrite add_favorite_reliable. split; intros ->.
  - now repeat split.
  - exists (FavoriteCharacter.new uuid now favorite),
           (FavoriteCharacter.stored (FavoriteCharacter.new uuid now favorite)).
    cbn [fst snd http_status].
    destruct (floor_ms_bounds now) as [Hle Hlt].
    repeat split; try assumption.
    intros Hnd Hnew. now apply stored_ids_stay_distinct.
Qed.

Lemma add_favorite_checks_then_inserts_witness :
  let first := add_favorite (reliable "id-1" 1700000000.0004) Sample.spider_man [] in
  let second := add_favorite (reliable "id-2" 1700000001) Sample.spider_man (snd first) in
  http_status (fst second) = 400 /\ snd second = snd first /\
  exists returned stored,
    fst first = Ok returned /\ snd first = [stored] /\
    stored = FavoriteCharacter.stored returned.
Proof.
  cbv zeta.
  destruct (proj2 (add_favorite_checks_then_inserts "id-1" 1700000000.0004
                     Sample.spider_man []) eq_refl)
    as (returned & stored & Hret & _ & Hstore & Hrel & _).
  destruct (proj1 (add_favorite_checks_then_inserts "id-2" 1700000001 Sample.spider_man
                     (snd (add_favorite (reliable "id-1" 1700000000.0004)
                             Sample.spider_man [])))
              eq_refl) as (_ & Hstatus & Hsame).
  split; [exact Hstatus|]. split; [exact Hsame|].
  exists returned, stored. now repeat split.
Defined.

(** C5, as the specification words it, fails.  The record returned is not
    the one stored: an add at a clock reading with a fraction of a
    millisecond returns that reading, aware, while the document stored holds
    the reading cut to the millisecond, naive.  Nor is the identifier
    checked for freshness: when the generator draws an identifier that is
    stored already, the add answers 200 and two documents carry it. *)
Lemma returned_favorite_is_not_the_stored_document :
  (let out := add_favorite (reliable "id-1" 1700000000.0004) Sample.spider_man [] in
   exists returned stored,
     fst out = Ok returned /\ snd out = [stored] /\ returned <> stored /\
     ~ (Timestamp.instant (FavoriteCharacter.added_at returned)
        == Timestamp.instant (FavoriteCharacter.added_at stored))%Q) /\
  (let held := FavoriteCharacter.stored (FavoriteCharacter.new "id-1" 0 Sample.hulk) in
   let out := add_favorite (reliable "id-1" 1) Sample.spider_man [held] in
   http_status (fst out) = 200 /\
   map FavoriteCharacter.id (snd out) = ["id-1"; "id-1"]).
Proof.
  split; cbv zeta.
  - exists (FavoriteCharacter.new "id-1" 1700000000.0004 Sample.spider_man),
           (FavoriteCharacter.stored
              (FavoriteCharacter.new "id-1" 1700000000.0004 Sample.spider_man)).
    split; [reflexivity|]. split; [reflexivity|]. split.
    + intros Heq.
      apply (f_equal (fun d => Timestamp.aware (FavoriteCharacter.added_at d))) in Heq.
      discriminate.
    + vm_compute. discriminate.
  - split; reflexivity.
Qed.

(** C6: served one after the other, the writing requests keep the
    collection free of two documents with the same (user_id, character_id),
    whatever the driver does in each of them. *)
Theorem sequential_requests_keep_pairs_unique
    (requests : list write_request) (favorites : Collection.t) :
  unique_pairs favorites -> unique_pairs (serve_all requests favorites).
Proof.
  unfold serve_all. revert favorites.
  induction requests as [|r requests IH]; intros favorites Hu; simpl; [exact Hu|].
  apply IH. destruct r as [drv favorite | drv user_id character_id]; simpl.
  - now apply add_favorite_unique.
  - now apply remove_favorite_unique.
Qed.

Lemma sequential_requests_keep_pairs_unique_witness :
  let requests :=
    [ Add (reliable "id-1" 1) Sample.spider_man;
      Add (reliable "id-2" 2) Sample.spidey;
      Add (reliable "id-3" 3) Sample.hulk;
      Remove (reliable "" 4) "user-1" 1009610;
      Add (reliable "id-4" 5) Sample.spidey ] in
  unique_pairs [] /\ unique_pairs (serve_all requests []).
Proof.
  cbv zeta. split.
  - unfold unique_pairs. simpl. constructor.
  - apply sequential_requests_keep_pairs_unique. unfold unique_pairs. simpl. constructor.
Defined.

(** C7: with a driver whose calls succeed, [remove_favorite] answers 404
    exactly when no document matches the (user_id, character_id), and then
    changes nothing; otherwise it deletes the first matching document and no
    other, also when several match, and answers 200 with its message. *)
Theorem remove_favorite_deletes_one_or_404
    (uuid : string) (now : datetime) (user_id : string) (character_id : Z)
    (favorites : Collection.t) :
  let q := ByUserAndCharacter user_id character_id in
  let out := remove_favorite (reliable uuid now) user_id character_id favorites in
  (fst out = Raise (HTTPException 404 (Text "Favorite not found")) <->
   count_matching q favorites = 0%nat) /\
  (http_status (fst out) = 404 <-> count_matching q favorites = 0%nat) /\
  (count_matching q favorites = 0%nat -> snd out = favorites) /\
  (count_matching q favorites <> 0%nat ->
     fst out = Ok [("message", "Favorite removed successfully")] /\
     http_status (fst out) = 200 /\
     S (count_matching q (snd out)) = count_matching q favorites /\
     exists before doc after,
       favorites = before ++ doc :: after /\
       count_matching q before = 0%nat /\
       matches q doc = true /\
       snd out = before ++ after).
Proof.
  cbv zeta. rewrite remove_favorite_reliable, !count_matching_0.
  destruct (existsb _ favorites) eqn:Hex; cbn [fst snd http_status].
  - split; [split; discriminate|]. split; [split; discriminate|].
    split; [discriminate|]. intros _.
    destruct (remove_first_split _ _ Hex) as (before & doc & after & Hf & Hb & Hd & Hr).
    split; [reflexivity|]. split; [reflexivity|]. split.
    + rewrite Hr. subst favorites. unfold count_matching.
      rewrite !filter_app, !length_app. cbn [filter]. rewrite Hd.
      cbn [List.length]. lia.
    + exists before, doc, after. rewrite count_matching_0. now repeat split.
  - split; [tauto|]. split; [tauto|]. split; [reflexivity | congruence].
Qed.

Lemma remove_favorite_deletes_one_or_404_witness :
  let stored := FavoriteCharacter.new "id-1" 1 Sample.spider_man in
  http_status (fst (remove_favorite (reliable "" 2) "user-1" 1009351 [stored])) = 404 /\
  snd (remove_favorite (reliable "" 2) "user-1" 1009351 [stored]) = [stored] /\
  fst (remove_favorite (reliable "" 2) "user-1" 1009610 [stored; stored])
  = Ok [("message", "Favorite removed successfully")].
Proof.
  cbv zeta.
  pose (T := fun c l => remove_favorite_deletes_one_or_404 "" 2 "user-1" c l).
  split; [|split].
  - apply (proj2 (proj1 (proj2 (T 1009351 _)))). reflexivity.
  - apply (proj1 (proj2 (proj2 (T 1009351 _)))). reflexivity.
  - apply (proj2 (proj2 (proj2 (T 1009610 _)))). discriminate.
Defined.

(** C8: with a driver whose calls succeed and a pair that the user has not
    favorited, adding it and then removing it gives back the collection as
    it was, so that the user's list is the one before the add. *)
Theorem add_then_remove_restores_the_list
    (drv : Driver) (uuid1 uuid2 : string) (now1 now2 : datetime)
    (favorite : FavoriteCreate.t) (favorites : Collection.t) :
  let user_id := FavoriteCreate.user_id favorite in
  let character_id := FavoriteCreate.character_id favorite in
  let added := add_favorite (reliable uuid1 now1) favorite favorites in
  let removed := remove_favorite (reliable uuid2 now2) user_id character_id (snd added) in
  existsb (matches (ByUserAndCharacter user_id character_id)) favorites = false ->
  http_status (fst added) = 200 /\
  http_status (fst removed) = 200 /\
  snd removed = favorites /\
  get_favorites drv user_id (snd removed) = get_favorites drv user_id favorites.
Proof.
  cbv zeta. intros Hnone.
  rewrite add_favorite_reliable, Hnone. cbn [fst snd http_status].
  rewrite remove_favorite_reliable, existsb_app. cbn [existsb].
  set (stored := FavoriteCharacter.stored (FavoriteCharacter.new uuid1 now1 favorite)).
  assert (Hm : matches (ByUserAndCharacter (FavoriteCreate.user_id favorite)
                          (FavoriteCreate.character_id favorite)) stored = true)
    by (now apply matches_pair).
  rewrite Hm, orb_true_r. cbn [fst snd http_status].
  rewrite (remove_first_appended _ _ _ Hnone Hm). now repeat split.
Qed.

Lemma add_then_remove_restores_the_list_witness :
  let favorites := [FavoriteCharacter.new "id-0" 0 Sample.hulk] in
  let added := add_favorite (reliable "id-1" 1) Sample.spider_man favorites in
  let removed := remove_favorite (reliable "" 2) "user-1" 1009610 (snd added) in
  get_favorites (reliable "" 3) "user-1" (snd removed)
  = get_favorites (reliable "" 3) "user-1" favorites.
Proof.
  cbv zeta.
  apply (add_then_remove_restores_the_list (reliable "" 3) "id-1" "" 1 2 Sample.spider_man
           [FavoriteCharacter.new "id-0" 0 Sample.hulk]).
  reflexivity.
Defined.

(** C10: the duplicate check of [add_favorite] looks at user_id and
    character_id only.  With a driver whose calls succeed, an add whose pair
    is the one of a stored document answers 400 whatever its
    character_name, and the collection, the stored name with it, stays as
    it was. *)
Theorem duplicate_check_ignores_the_name
    (uuid : string) (now : datetime) (favorite : FavoriteCreate.t)
    (favorites : Collection.t) (existing : FavoriteCharacter.t) :
  In existing favorites ->
  FavoriteCharacter.user_id existing = FavoriteCreate.user_id favorite ->
  FavoriteCharacter.character_id existing = FavoriteCreate.character_id favorite ->
  let out := add_favorite (reliable uuid now) favorite favorites in
  fst out = Raise (HTTPException 400 (Text "Character already in favorites")) /\
  http_status (fst out) = 400 /\
  snd out = favorites /\
  In existing (snd out).
Proof.
  intros Hin Hu Hc. cbv zeta.
  assert (Hex : existsb (matches (ByUserAndCharacter (FavoriteCreate.user_id favorite)
                                    (FavoriteCreate.character_id favorite))) favorites = true).
  { apply existsb_exists. exists existing. split; [exact Hin|].
    apply matches_pair. unfold pair_of. now rewrite Hu, Hc. }
  rewrite add_favorite_reliable, Hex. now repeat split.
Qed.

Lemma duplicate_check_ignores_the_name_witness :
  let stored := FavoriteCharacter.new "id-1" 1 Sample.spider_man in
  let out := add_favorite (reliable "id-2" 2) Sample.spidey [stored] in
  FavoriteCreate.character_name Sample.spidey <> FavoriteCharacter.character_name stored /\
  http_status (fst out) = 400 /\
  snd out = [stored].
Proof.
  cbv zeta. split; [discriminate|].
  destruct (duplicate_check_ignores_the_name "id-2" 2 Sample.spidey
              [FavoriteCharacter.new "id-1" 1 Sample.spider_man]
              (FavoriteCharacter.new "id-1" 1 Sample.spider_man))
    as (_ & Hstatus & Hsame & _).
  - simpl. now left.
  - reflexivity.
  - reflexivity.
  - split; [exact Hstatus | exact Hsame].
Defined.

(** When a call of the driver fails, the favorites handlers answer 500. *)
Lemma favorites_driver_failure_is_500 drv favorite user_id character_id favorites :
  (find_one_fault drv <> NoFault ->
   http_status (fst (add_favorite drv favorite favorites)) = 500) /\
  (delete_one_fault drv <> NoFault ->
   http_status (fst (remove_favorite drv user_id character_id favorites)) = 500) /\
  (find_fault drv <> NoFault ->
   http_status (get_favorites drv user_id favorites) = 500).
Proof.
  unfold add_favorite, remove_favorite, get_favorites, Collection.find_one,
    Collection.delete_one, Collection.find_to_list.
  repeat split; intros Hf.
  - destruct (find_one_fault drv); [congruence | reflexivity | reflexivity].
  - destruct (delete_one_fault drv); [congruence | reflexivity | reflexivity].
  - destruct (find_fault drv); [congruence | reflexivity | reflexivity].
Qed.

(** * Further properties of the code *)

(** ** The allowed origins *)

Lemma split_not_nil sep s : PyStr.split sep s <> [].
Proof.
  destruct s as [|c s]; simpl; [discriminate|].
  destruct (Ascii.eqb c sep); [discriminate|].
  destruct (PyStr.split sep s); discriminate.
Qed.

Lemma join_split sep s : PyStr.join sep (PyStr.split sep s) = s.
Proof.
  induction s as [|c s IH]; [reflexivity|]. simpl.
  pose proof (split_not_nil sep s) as Hne.
  destruct (Ascii.eqb_spec c sep) as [->|Hc].
  - destruct (PyStr.split sep s) as [|word words]; [contradiction|].
    cbn [PyStr.join]. cbn [PyStr.join] in IH. now rewrite IH.
  - destruct (PyStr.split sep s) as [|word words]; [contradiction|].
    destruct words as [|word' words]; cbn [PyStr.join] in *; now rewrite <- IH.
Qed.

Lemma split_words_without_sep sep s :
  Forall (fun word => PyStr.contains sep word = false) (PyStr.split sep s).
Proof.
  induction s as [|c s IH]; simpl; [now repeat constructor|].
  destruct (Ascii.eqb c sep) eqn:Hc; [now constructor|].
  destruct (PyStr.split sep s) as [|word words]; simpl.
  - repeat constructor. simpl. now rewrite Hc.
  - inversion IH as [|x l Hword Hwords]; subst. constructor; [|exact Hwords].
    simpl. now rewrite Hc.
Qed.

Lemma split_length sep s :
  List.length (PyStr.split sep s) = S (PyStr.count sep s).
Proof.
  induction s as [|c s IH]; simpl; [reflexivity|].
  pose proof (split_not_nil sep s) as Hne.
  destruct (Ascii.eqb c sep); simpl; [now rewrite IH|].
  destruct (PyStr.split sep s) as [|word words]; [contradiction | exact IH].
Qed.

(** X1: the configured origins are the comma-separated pieces of the
    variable ("*" when it is unset): joined with commas they give the value
    back, none of them holds a comma, and there is one more of them than
    there are commas, so that the list is never empty. *)
Theorem allow_origins_splits_at_commas (CORS_ORIGINS : option string) :
  let value := match CORS_ORIGINS with Some v => v | None => "*" end in
  PyStr.join "," (allow_origins CORS_ORIGINS) = value /\
  Forall (fun origin => PyStr.contains "," origin = false) (allow_origins CORS_ORIGINS) /\
  List.length (allow_origins CORS_ORIGINS) = S (PyStr.count "," value).
Proof.
  cbv zeta. unfold allow_origins. split; [apply join_split|].
  split; [apply split_words_without_sep | apply split_length].
Qed.

(** ** Timestamps and addresses of the requests *)

Lemma str_of_int_inj a b : Py.str_of_int a = Py.str_of_int b -> a = b.
Proof.
  unfold Py.str_of_int. intros Heq.
  assert (Hparse : forall n, NilZero.int_of_string (NilZero.string_of_int (Z.to_int n))
                             = Some (Z.to_int n)).
  { intros n. apply NilZero.isi; destruct n as [|p|p]; simpl; try discriminate;
      intros [= Hnil]; now apply (DecimalPos.Unsigned.to_uint_nonnil p). }
  apply DecimalZ.to_int_inj.
  pose proof (Hparse a) as Ha. rewrite Heq, Hparse in Ha. now injection Ha.
Qed.

Lemma append_inj_l (p s1 s2 : string) : (p ++ s1)%string = (p ++ s2)%string -> s1 = s2.
Proof. induction p as [|c p IH]; simpl; [auto|]. intros [= H]. auto. Qed.

(** X2: the signature is bound to the whole second of the call: two calls
    whose clocks read the same whole second carry the same three parameters,
    and two calls in different seconds carry different [ts]. *)
Theorem signature_is_bound_to_the_second (self : MarvelAPIService.t) (env1 env2 : Env) :
  (Py.int_of_float (clock env1) = Py.int_of_float (clock env2) ->
   MarvelAPIService._generate_auth_params self env1
   = MarvelAPIService._generate_auth_params self env2) /\
  (Py.int_of_float (clock env1) <> Py.int_of_float (clock env2) ->
   Dict.get "ts" (MarvelAPIService._generate_auth_params self env1)
   <> Dict.get "ts" (MarvelAPIService._generate_auth_params self env2)).
Proof.
  unfold MarvelAPIService._generate_auth_params. split.
  - now intros ->.
  - intros Hne. cbn [Dict.get String.eqb Ascii.eqb Bool.eqb]. simpl.
    intros [= Heq]. apply Hne. now apply str_of_int_inj.
Qed.

Lemma signature_is_bound_to_the_second_witness :
  MarvelAPIService._generate_auth_params Sample.service (Sample.down 1.2)
  = MarvelAPIService._generate_auth_params Sample.service (Sample.down 1.9) /\
  Dict.get "ts" (MarvelAPIService._generate_auth_params Sample.service (Sample.down 1.9))
  <> Dict.get "ts" (MarvelAPIService._generate_auth_params Sample.service (Sample.down 2)).
Proof.
  split.
  - apply (proj1 (signature_is_bound_to_the_second Sample.service
                    (Sample.down 1.2) (Sample.down 1.9))). reflexivity.
  - apply (proj2 (signature_is_bound_to_the_second Sample.service
                    (Sample.down 1.9) (Sample.down 2))). vm_compute. discriminate.
Defined.

(** X3: the query of a listing.  The name filter goes upstream exactly when
    the search is a string that is not empty, and then unchanged; the offset
    goes upstream as it came; the parameters are the three of the
    authentication, then [limit] and [offset], then the filter if any. *)
Theorem listing_query_parameters (self : MarvelAPIService.t) (env : Env)
    (name_starts_with : option string) (limit offset : Z) :
  let params :=
    req_params (MarvelAPIService.characters_request self env name_starts_with limit offset) in
  let filtered :=
    match name_starts_with with
    | Some (String c s) => true
    | _ => false
    end in
  Dict.get "nameStartsWith" params
  = (if filtered then option_map PStr name_starts_with else None) /\
  Dict.get "offset" params = Some (PInt offset) /\
  Dict.keys params
  = ["ts"; "apikey"; "hash"; "limit"; "offset"] ++
    (if filtered then ["nameStartsWith"] else []).
Proof.
  cbv zeta.
  unfold MarvelAPIService.characters_request, MarvelAPIService._generate_auth_params.
  destruct name_starts_with as [[|c s]|]; repeat split.
Qed.

(** X4: a lookup is addressed by the decimal id under [/characters/], with
    the three authentication parameters and no other: two lookups go to the
    same address exactly when their ids are equal. *)
Theorem lookup_address_identifies_the_id (self : MarvelAPIService.t) (env : Env)
    (id1 id2 : Z) :
  (req_url (MarvelAPIService.character_request self env id1)
   = req_url (MarvelAPIService.character_request self env id2) <-> id1 = id2) /\
  Dict.keys (req_params (MarvelAPIService.character_request self env id1))
  = ["ts"; "apikey"; "hash"].
Proof.
  unfold MarvelAPIService.character_request. cbn [req_url req_params]. split; [|reflexivity].
  split; [|now intros ->].
  intros Heq. apply append_inj_l in Heq. apply append_inj_l in Heq.
  now apply str_of_int_inj.
Qed.

(** ** Normalisation of the raw records *)

Section NormalisationFacts.
Context `{Platform}.

(** X5: a raw record without an optional key is read exactly as the record
    that holds the default under that key: the placeholder for
    [description], the empty list for [urls], and a count of 0 for each of
    [comics], [series], [stories] and [events], also when the group is there
    without its [available]. *)
Theorem missing_optional_keys_read_as_defaults (d : list (string * json)) :
  (Json.lookup "description" d = None ->
   MarvelAPIService.character_of (JDict d)
   = MarvelAPIService.character_of
       (JDict (("description", JStr "No description available") :: d))) /\
  (Json.lookup "urls" d = None ->
   MarvelAPIService.character_of (JDict d)
   = MarvelAPIService.character_of (JDict (("urls", JList []) :: d))) /\
  (forall group, In group ["comics"; "series"; "stories"; "events"] ->
   Json.lookup group d = None ->
   MarvelAPIService.character_of (JDict d)
   = MarvelAPIService.character_of (JDict ((group, JDict [("available", JInt 0)]) :: d)) /\
   MarvelAPIService.character_of (JDict d)
   = MarvelAPIService.character_of (JDict ((group, JDict []) :: d))).
Proof.
  unfold MarvelAPIService.character_of. split; [|split].
  - intros Hnone. cbn. now rewrite Hnone.
  - intros Hnone. cbn. now rewrite Hnone.
  - intros group Hin Hnone.
    repeat (destruct Hin as [<-|Hin]; [cbn; now rewrite Hnone|]). destruct Hin.
Qed.

(** X6: a record is returned only for a raw record that is an object holding
    [id], [name], [thumbnail] and [resourceURI], the thumbnail being itself
    an object that holds [path] and [extension]: without one of them the
    record is not normalised, the call raises.  The record returned is made
    of the values under these keys, as the validators read them. *)
Theorem returned_record_had_its_required_keys (char_data : json) (c : Character.t) :
  MarvelAPIService.character_of char_data = Ok c ->
  exists d raw_id raw_name thumbnail raw_path raw_extension raw_uri,
    char_data = JDict d /\
    Json.lookup "id" d = Some raw_id /\
    Json.lookup "name" d = Some raw_name /\
    Json.lookup "thumbnail" d = Some (JDict thumbnail) /\
    Json.lookup "path" thumbnail = Some raw_path /\
    Json.lookup "extension" thumbnail = Some raw_extension /\
    Json.lookup "resourceURI" d = Some raw_uri /\
    validate_int raw_id = Some (Character.id c) /\
    validate_str raw_name = Some (Character.name c) /\
    validate_str raw_path = Some (CharacterThumbnail.path (Character.thumbnail c)) /\
    validate_str raw_extension
    = Some (CharacterThumbnail.extension (Character.thumbnail c)) /\
    validate_str raw_uri = Some (Character.resourceURI c).
Proof.
  unfold MarvelAPIService.character_of. intros Hc.
  destruct char_data as [| | | | |l|d]; try discriminate.
  cbn [Json.getitem Json.get] in Hc.
  destruct (Json.lookup "id" d) as [rid|] eqn:Hid; [|discriminate].
  destruct (Json.lookup "name" d) as [rname|] eqn:Hname; [|discriminate].
  cbn [bind] in Hc.
  assert (Hdesc : exists v, match Json.lookup "description" d with
                            | Some v => Ok v
                            | None => Ok (JStr "No description available")
                            end = Ok v)
    by (destruct (Json.lookup "description" d); eexists; reflexivity).
  destruct Hdesc as [description Hdesc]. rewrite Hdesc in Hc. cbn [bind] in Hc.
  destruct (Json.lookup "thumbnail" d) as [th|] eqn:Hth; [|discriminate].
  cbn [bind] in Hc.
  destruct th as [| | | | | |td]; try discriminate.
  cbn [Json.getitem] in Hc.
  destruct (Json.lookup "path" td) as [p|] eqn:Hp; [|discriminate].
  cbn [bind] in Hc.
  destruct (Json.lookup "extension" td) as [x|] eqn:Hx; [|discriminate].
  cbn [bind] in Hc.
  unfold CharacterThumbnail.new in Hc.
  destruct (validate_str p) as [path|] eqn:Hvp; [|discriminate].
  destruct (validate_str x) as [extension|] eqn:Hvx; [|discriminate].
  cbn [bind] in Hc.
  destruct (Json.lookup "resourceURI" d) as [ruri|] eqn:Huri; [|discriminate].
  cbn [bind] in Hc.
  unfold bind in Hc.
  repeat match type of Hc with
         | match ?r with Ok _ => _ | Raise _ => _ end = Ok _ =>
             destruct r; [|discriminate]
         end.
  unfold Character.new in Hc.
  destruct (validate_int rid) as [i|] eqn:Hvi; [|discriminate].
  destruct (validate_str rname) as [n|] eqn:Hvn; [|discriminate].
  destruct (validate_str description) as [de|]; [|discriminate].
  destruct (validate_str ruri) as [u|] eqn:Hvu; [|discriminate].
  repeat match type of Hc with
         | match ?r with Some _ => _ | None => _ end = Ok _ =>
             destruct r; [|discriminate]
         end.
  injection Hc as <-. cbn [Character.id Character.name Character.thumbnail
    Character.resourceURI CharacterThumbnail.path CharacterThumbnail.extension].
  exists d, rid, rname, td, p, x, ruri. now repeat split.
Qed.

Lemma mapM_Forall2 {A B : Type} (f : A -> result B) (l : list A) (l' : list B) :
  mapM f l = Ok l' <-> Forall2 (fun a b => f a = Ok b) l l'.
Proof.
  revert l'. induction l as [|a l IH]; intros l'; simpl.
  - split; [intros [= <-]; constructor | intros Hf; now inversion Hf].
  - split.
    + destruct (f a) as [b|e] eqn:Hfa; [|discriminate]. simpl.
      destruct (mapM f l) as [bs|e]; [|discriminate]. simpl.
      intros [= <-]. constructor; [exact Hfa | now apply IH].
    + intros Hf. inversion Hf as [|x y xs ys Hxy Hrest]; subst.
      rewrite Hxy. simpl. apply IH in Hrest. now rewrite Hrest.
Qed.

(** Closes a case in which the body of the [try] raised. *)
Ltac raised Hret :=
  cbn [bind MarvelAPIService.except_RequestException] in Hret;
  match type of Hret with
  | (if ?b then _ else _) = _ => destruct b
  end;
  discriminate.

(** X7: a listing that returns, on a call that is not served from the
    cache, returns one record for each item of the upstream's result set, in
    order, each the normalised form of its item (so that one item that does
    not normalise fails the whole call), and [total], [count] and [offset] as
    the envelope has them, not recomputed from the records. *)
Theorem listing_is_all_or_nothing (self : MarvelAPIService.t) (env : Env)
    (name_starts_with : option string) (limit off : Z) (w : World)
    (page : CharactersPage) :
  LRU.lookup characters_key_eqb (name_starts_with, limit, off) (characters_cache w) = None ->
  fst (MarvelAPIService.get_characters self env name_starts_with limit off w) = Ok page ->
  exists status_code data d results items,
    upstream env (MarvelAPIService.characters_request self env name_starts_with limit off)
    = Response status_code (Some data) /\
    Json.getitem data "data" = Ok d /\
    Json.getitem d "results" = Ok results /\
    Json.iter results = Ok items /\
    Forall2 (fun raw c => MarvelAPIService.character_of raw = Ok c) items (characters page) /\
    List.length (characters page) = List.length items /\
    Json.getitem d "total" = Ok (total page) /\
    Json.getitem d "count" = Ok (count page) /\
    Json.getitem d "offset" = Ok (offset page).
Proof.
  intros Hmiss.
  pose proof (get_characters_miss self env name_starts_with limit off w Hmiss) as Hm.
  cbv zeta in Hm. rewrite Hm. clear Hm. cbn [fst].
  unfold MarvelAPIService.characters_of_response. rewrite fetch_cases.
  destruct (upstream env _) as [what|status_code [data|]] eqn:Hu; cbn [bind].
  - discriminate.
  - destruct (is_error_status status_code); [discriminate|].
    cbn [response_json bind]. unfold MarvelAPIService.characters_of_envelope.
    intros Hret.
    destruct (Json.getitem data "code") as [code|e]; [|raised Hret].
    cbn [bind] in Hret.
    destruct (Json.eq_int code 200).
    2:{ destruct (Json.getitem data "status") as [st|e]; [discriminate | raised Hret]. }
    destruct (Json.getitem data "data") as [d|e] eqn:Hd; [|raised Hret].
    cbn [bind] in Hret.
    destruct (Json.getitem d "results") as [results|e] eqn:Hr; [|raised Hret].
    cbn [bind] in Hret.
    destruct (Json.iter results) as [items|e] eqn:Hi; [|raised Hret].
    cbn [bind] in Hret.
    destruct (mapM MarvelAPIService.character_of items) as [cs|e] eqn:Hmap;
      [|raised Hret].
    cbn [bind] in Hret.
    destruct (Json.getitem d "total") as [t|e] eqn:Ht; [|raised Hret].
    cbn [bind] in Hret.
    destruct (Json.getitem d "count") as [n|e] eqn:Hn; [|raised Hret].
    cbn [bind] in Hret.
    destruct (Json.getitem d "offset") as [o|e] eqn:Ho; [|raised Hret].
    cbn [bind MarvelAPIService.except_RequestException] in Hret.
    injection Hret as <-. cbn [characters total count offset].
    apply mapM_Forall2 in Hmap.
    exists status_code, data, d, results, items.
    repeat split; try assumption; try reflexivity.
    symmetry. eapply Forall2_length. exact Hmap.
  - destruct (is_error_status status_code); [discriminate|].
    cbn [response_json]. destruct json_error_is_request_exception; discriminate.
Qed.

End NormalisationFacts.

Lemma missing_optional_keys_read_as_defaults_witness :
  let d := [ ("id", JInt 7); ("name", JStr "Seven");
             ("thumbnail", JDict [("path", JStr "p"); ("extension", JStr "jpg")]);
             ("resourceURI", JStr "u") ] in
  MarvelAPIService.character_of (H := strict_platform) (JDict d)
  = MarvelAPIService.character_of (H := strict_platform)
      (JDict (("description", JStr "No description available") :: d)) /\
  MarvelAPIService.character_of (H := strict_platform) (JDict d)
  = MarvelAPIService.character_of (H := strict_platform)
      (JDict (("events", JDict [("available", JInt 0)]) :: d)).
Proof.
  cbv zeta. split.
  - apply (proj1 (missing_optional_keys_read_as_defaults (H := strict_platform) _)).
    reflexivity.
  - apply (proj2 (proj2 (missing_optional_keys_read_as_defaults (H := strict_platform) _))
             "events"); [simpl; tauto | reflexivity].
Defined.

Lemma returned_record_had_its_required_keys_witness :
  let c := Character.mk 7 "Seven" "No description available"
             (CharacterThumbnail.mk "http://i.example/p" "jpg")
             "http://gateway.example/c" [] 0 0 0 0 in
  exists d raw_id raw_name thumbnail raw_path raw_extension raw_uri,
    Sample.record 7 "Seven" = JDict d /\
    Json.lookup "id" d = Some raw_id /\
    Json.lookup "name" d = Some raw_name /\
    Json.lookup "thumbnail" d = Some (JDict thumbnail) /\
    Json.lookup "path" thumbnail = Some raw_path /\
    Json.lookup "extension" thumbnail = Some raw_extension /\
    Json.lookup "resourceURI" d = Some raw_uri /\
    validate_int (Platform := strict_platform) raw_id = Some (Character.id c) /\
    validate_str (Platform := strict_platform) raw_name = Some (Character.name c) /\
    validate_str (Platform := strict_platform) raw_path
    = Some (CharacterThumbnail.path (Character.thumbnail c)) /\
    validate_str (Platform := strict_platform) raw_extension
    = Some (CharacterThumbnail.extension (Character.thumbnail c)) /\
    validate_str (Platform := strict_platform) raw_uri = Some (Character.resourceURI c).
Proof.
  cbv zeta.
  apply (returned_record_had_its_required_keys (H := strict_platform)
           (Sample.record 7 "Seven")
           (Character.mk 7 "Seven" "No description available"
              (CharacterThumbnail.mk "http://i.example/p" "jpg")
              "http://gateway.example/c" [] 0 0 0 0)).
  reflexivity.
Defined.

Lemma listing_is_all_or_nothing_witness :
  let env := Sample.answering 0 (Sample.envelope 200 [Sample.record 7 "Seven"]) in
  let page :=
    mkPage [Character.mk 7 "Seven" "No description available"
              (CharacterThumbnail.mk "http://i.example/p" "jpg")
              "http://gateway.example/c" [] 0 0 0 0]
           (JInt 1) (JInt 1) (JInt 0) in
  exists status_code data d results items,
    upstream env (MarvelAPIService.characters_request Sample.service env None 20 0)
    = Response status_code (Some data) /\
    Json.getitem data "data" = Ok d /\
    Json.getitem d "results" = Ok results /\
    Json.iter results = Ok items /\
    Forall2 (fun raw c => MarvelAPIService.character_of (H := strict_platform) raw = Ok c)
            items (characters page) /\
    List.length (characters page) = List.length items /\
    Json.getitem d "total" = Ok (total page) /\
    Json.getitem d "count" = Ok (count page) /\
    Json.getitem d "offset" = Ok (offset page).
Proof.
  cbv zeta.
  apply (listing_is_all_or_nothing (H := strict_platform) Sample.service
           (Sample.answering 0 (Sample.envelope 200 [Sample.record 7 "Seven"]))
           None 20 0 initial_world).
  - reflexivity.
  - vm_compute. reflexivity.
Defined.

(** ** The declared constraints of the listing route *)

(** X8: [GET /characters] answers 422 to a limit outside [1, 100] or to a
    negative offset without calling the method: nothing is sent upstream and
    the caches stay as they were.  Inside the constraints (limit 20 and
    offset 0 when absent) it runs the handler, and its answer is 200 or 500. *)
Theorem listing_route_validates_before_the_handler `{Platform}
    (svc : MarvelAPIService.t) (env : Env) (search : option string)
    (limit off : option Z) (w : World) :
  let l := match limit with Some l => l | None => 20 end in
  let o := match off with Some o => o | None => 0 end in
  let out := get_characters_route svc env search limit off w in
  (~ (1 <= l <= 100 /\ 0 <= o) -> http_status (fst out) = 422 /\ snd out = w) /\
  (1 <= l <= 100 /\ 0 <= o ->
   out = get_characters svc env search l o w /\
   (http_status (fst out) = 200 \/ http_status (fst out) = 500)).
Proof.
  cbv zeta. unfold get_characters_route.
  set (l := match limit with Some l => l | None => 20 end).
  set (o := match off with Some o => o | None => 0 end).
  destruct (Z.leb_spec 1 l), (Z.leb_spec l 100), (Z.leb_spec 0 o); cbn [andb];
    (split; [intros Hout | intros Hin]); try lia; try (now split).
  split; [reflexivity|]. rewrite get_characters_fst.
  destruct (fst (MarvelAPIService.get_characters svc env search l o w)); [now left | now right].
Qed.

Lemma listing_route_validates_before_the_handler_witness :
  let out limit :=
    get_characters_route (H := strict_platform) Sample.service (Sample.down 0) None
      (Some limit) None initial_world in
  (http_status (fst (out 200)) = 422 /\ snd (out 200) = initial_world) /\
  out 100 = get_characters (H := strict_platform) Sample.service (Sample.down 0) None 100 0
              initial_world.
Proof.
  cbv zeta. split.
  - apply (proj1 (listing_route_validates_before_the_handler (H := strict_platform)
                    Sample.service (Sample.down 0) None (Some 200) None initial_world)).
    lia.
  - apply (proj2 (listing_route_validates_before_the_handler (H := strict_platform)
                    Sample.service (Sample.down 0) None (Some 100) None initial_world)).
    lia.
Defined.

(** ** Eviction and survival in the caches *)

Section EvictionFacts.
Context {K V : Type} (eqb : K -> K -> bool).
Hypothesis eqb_eq : forall k k', eqb k k' = true <-> k = k'.

Lemma eqb_refl_of_eq k : eqb k k = true.
Proof. now apply eqb_eq. Qed.

Lemma remove_length k (c : @LRU.t K V) v :
  LRU.lookup eqb k c = Some v -> S (List.length (LRU.remove eqb k c)) = List.length c.
Proof.
  induction c as [|[k' v'] c IH]; simpl; [discriminate|].
  destruct (eqb k k'); [reflexivity|]. intros Hl. simpl. now rewrite (IH Hl).
Qed.

Lemma touch_length k (c : @LRU.t K V) v :
  LRU.lookup eqb k c = Some v -> List.length (LRU.touch eqb k v c) = List.length c.
Proof. intros Hl. unfold LRU.touch. simpl. now apply (remove_length k c v). Qed.

(** No call makes a cache longer than its capacity. *)
Lemma call_length {W : Type} maxsize (f : K -> W -> result V * W) k (c : @LRU.t K V) w :
  (List.length c <= maxsize)%nat ->
  (List.length (snd (fst (LRU.call eqb maxsize f k c w))) <= maxsize)%nat.
Proof.
  intros Hc. unfold LRU.call.
  destruct (LRU.lookup eqb k c) as [v|] eqn:Hl; cbn [fst snd].
  - now rewrite (touch_length _ _ _ Hl).
  - destruct (f k w) as [[v|e] w']; cbn [fst snd]; [apply store_length | exact Hc].
Qed.

Lemma position_lookup k (c : @LRU.t K V) i :
  cache_position eqb k c = Some i -> exists v, LRU.lookup eqb k c = Some v.
Proof.
  revert i. induction c as [|[k' v'] c IH]; simpl; intros i; [discriminate|].
  destruct (eqb k k'); [now exists v'|].
  destruct (cache_position eqb k c) as [j|]; [|discriminate]. intros _. now apply (IH j).
Qed.

Lemma lookup_position k (c : @LRU.t K V) v :
  LRU.lookup eqb k c = Some v ->
  exists i, cache_position eqb k c = Some i /\ (i < List.length c)%nat.
Proof.
  induction c as [|[k' v'] c IH]; simpl; [discriminate|].
  destruct (eqb k k'); [intros _; exists O; split; [reflexivity | lia]|].
  intros Hl. destruct (IH Hl) as (i & -> & Hi). exists (S i). split; [reflexivity | lia].
Qed.

(** Removing another key keeps an entry, no further from the front. *)
Lemma remove_other k k' (c : @LRU.t K V) i :
  eqb k k' = false ->
  cache_position eqb k c = Some i ->
  LRU.lookup eqb k (LRU.remove eqb k' c) = LRU.lookup eqb k c /\
  exists j, cache_position eqb k (LRU.remove eqb k' c) = Some j /\ (j <= i)%nat.
Proof.
  intros Hne. revert i. induction c as [|[k0 v0] c IH]; simpl; intros i; [discriminate|].
  destruct (eqb k' k0) eqn:Hk'.
  - apply eqb_eq in Hk'. subst k0. rewrite Hne.
    destruct (cache_position eqb k c) as [j|] eqn:Hp; [|discriminate].
    intros [= <-]. split; [reflexivity|]. exists j. split; [reflexivity | lia].
  - simpl. destruct (eqb k k0).
    + intros [= <-]. split; [reflexivity|]. exists O. now split.
    + destruct (cache_position eqb k c) as [j|] eqn:Hp; [|discriminate].
      intros [= <-]. destruct (IH j eq_refl) as (Hl & j' & -> & Hj').
      split; [exact Hl|]. exists (S j'). split; [reflexivity | lia].
Qed.

(** Cutting a cache behind an entry keeps the entry where it is. *)
Lemma firstn_keeps n k (c : @LRU.t K V) i :
  cache_position eqb k c = Some i -> (i < n)%nat ->
  LRU.lookup eqb k (firstn n c) = LRU.lookup eqb k c /\
  cache_position eqb k (firstn n c) = Some i.
Proof.
  revert n i. induction c as [|[k0 v0] c IH]; intros n i; simpl; [discriminate|].
  destruct n as [|n]; [lia|]. simpl.
  destruct (eqb k k0); [now intros [= <-]|].
  destruct (cache_position eqb k c) as [j|] eqn:Hp; [|discriminate].
  intros [= <-] Hlt. destruct (IH n j eq_refl ltac:(lia)) as [Hl ->]. now split.
Qed.

(** One call of the wrapper, whatever its key and its outcome, leaves an
    entry in the cache when fewer than [maxsize - 1] entries are more recent,
    and at most one more entry is more recent afterwards. *)
Lemma call_keeps_recent {W : Type} maxsize (f : K -> W -> result V * W)
    k k' (c : @LRU.t K V) w v i :
  LRU.lookup eqb k c = Some v ->
  cache_position eqb k c = Some i ->
  (S i < maxsize)%nat ->
  let c' := snd (fst (LRU.call eqb maxsize f k' c w)) in
  LRU.lookup eqb k c' = Some v /\
  exists j, cache_position eqb k c' = Some j /\ (j <= S i)%nat.
Proof.
  intros Hl Hp Hi. cbv zeta. unfold LRU.call.
  destruct (eqb k k') eqn:Hk.
  - apply eqb_eq in Hk. subst k'. rewrite Hl. simpl. rewrite eqb_refl_of_eq.
    split; [reflexivity|]. exists O. split; [reflexivity | lia].
  - destruct (LRU.lookup eqb k' c) as [v'|] eqn:Hl'; simpl.
    + rewrite Hk. destruct (remove_other k k' c i Hk Hp) as (Hlr & j & Hj & Hle).
      rewrite Hlr, Hj. split; [exact Hl|]. exists (S j). split; [reflexivity | lia].
    + destruct (f k' w) as [[v'|e] w']; simpl.
      * unfold LRU.store.
        assert (Hp' : cache_position eqb k ((k', v') :: c) = Some (S i))
          by (simpl; now rewrite Hk, Hp).
        destruct (firstn_keeps maxsize k ((k', v') :: c) (S i) Hp' Hi) as [Hlf Hpf].
        rewrite Hlf, Hpf. simpl. rewrite Hk. split; [exact Hl|].
        exists (S i). split; [reflexivity | lia].
      * split; [exact Hl|]. exists i. split; [exact Hp | lia].
Qed.

End EvictionFacts.

Section CatalogSequences.
Context `{Platform}.
Variable svc : MarvelAPIService.t.

Lemma get_characters_snd env search limit off w :
  snd (get_characters svc env search limit off w)
  = snd (MarvelAPIService.get_characters svc env search limit off w).
Proof.
  unfold get_characters.
  now destruct (MarvelAPIService.get_characters svc env search limit off w) as [[page|e] w'].
Qed.

Lemma get_character_snd env character_id w :
  snd (get_character svc env character_id w)
  = snd (MarvelAPIService.get_character_by_id svc env character_id w).
Proof.
  unfold get_character.
  destruct (MarvelAPIService.get_character_by_id svc env character_id w) as [[c|e] w'];
    [reflexivity|]. now destruct (is_HTTPException e).
Qed.

(** What one call of the listing does to the three parts of the state. *)
Lemma get_characters_world env search limit off w :
  let w' := snd (MarvelAPIService.get_characters svc env search limit off w) in
  characters_cache w'
  = snd (fst (LRU.call characters_key_eqb 100 (MarvelAPIService.get_characters_wrapped svc env)
                (search, limit, off) (characters_cache w) (sent w))) /\
  character_cache w' = character_cache w /\
  sent w'
  = snd (LRU.call characters_key_eqb 100 (MarvelAPIService.get_characters_wrapped svc env)
           (search, limit, off) (characters_cache w) (sent w)).
Proof.
  cbv zeta. unfold MarvelAPIService.get_characters.
  now destruct (LRU.call _ _ _ _ _ _) as [[r c] l].
Qed.

Lemma get_character_by_id_world env character_id w :
  let w' := snd (MarvelAPIService.get_character_by_id svc env character_id w) in
  character_cache w'
  = snd (fst (LRU.call Z.eqb 50 (MarvelAPIService.get_character_by_id_wrapped svc env)
                character_id (character_cache w) (sent w))) /\
  characters_cache w' = characters_cache w /\
  sent w'
  = snd (LRU.call Z.eqb 50 (MarvelAPIService.get_character_by_id_wrapped svc env)
           character_id (character_cache w) (sent w)).
Proof.
  cbv zeta. unfold MarvelAPIService.get_character_by_id.
  now destruct (LRU.call _ _ _ _ _ _) as [[r c] l].
Qed.

(** One call of either handler sends nothing or one request. *)
Lemma serve_catalog_sent w c :
  sent (serve_catalog svc w c) = sent w \/
  exists request, sent (serve_catalog svc w c) = sent w ++ [request].
Proof.
  destruct c as [env search limit off | env character_id]; simpl.
  - rewrite get_characters_snd.
    pose proof (get_characters_log svc env search limit off w) as Hlog. cbv zeta in Hlog.
    destruct (LRU.lookup _ _ _); [now left | right; eauto].
  - rewrite get_character_snd.
    pose proof (get_character_by_id_log svc env character_id w) as Hlog. cbv zeta in Hlog.
    destruct (LRU.lookup _ _ _); [now left | right; eauto].
Qed.

Lemma serve_catalog_capacity w c :
  (List.length (characters_cache w) <= 100)%nat ->
  (List.length (character_cache w) <= 50)%nat ->
  (List.length (characters_cache (serve_catalog svc w c)) <= 100)%nat /\
  (List.length (character_cache (serve_catalog svc w c)) <= 50)%nat.
Proof.
  intros H1 H2. destruct c as [env search limit off | env character_id]; simpl.
  - rewrite get_characters_snd.
    destruct (get_characters_world env search limit off w) as (-> & -> & _).
    split; [now apply call_length | exact H2].
  - rewrite get_character_snd.
    destruct (get_character_by_id_world env character_id w) as (-> & -> & _).
    split; [exact H1 | now apply call_length].
Qed.

End CatalogSequences.

(** X9: the caches never outgrow their capacities: whatever the calls,
    their order and their outcomes, the listing cache holds at most 100
    entries and the lookup cache at most 50. *)
Theorem caches_stay_within_capacity `{Platform} (svc : MarvelAPIService.t)
    (calls : list catalog_call) (w : World) :
  (List.length (characters_cache w) <= 100)%nat ->
  (List.length (character_cache w) <= 50)%nat ->
  (List.length (characters_cache (serve_catalog_all svc calls w)) <= 100)%nat /\
  (List.length (character_cache (serve_catalog_all svc calls w)) <= 50)%nat.
Proof.
  unfold serve_catalog_all. revert w.
  induction calls as [|c calls IH]; intros w H1 H2; simpl; [now split|].
  destruct (serve_catalog_capacity svc w c H1 H2) as [H1' H2']. now apply IH.
Qed.

Lemma caches_stay_within_capacity_witness :
  let env := Sample.answering 0 (Sample.envelope 200 [Sample.record 7 "Seven"]) in
  let calls := [ LookupCharacter env 7; ListCharacters env None 20 0;
                 LookupCharacter (Sample.down 1) 8; LookupCharacter env 7 ] in
  (List.length (characters_cache
                  (serve_catalog_all (H := strict_platform) Sample.service calls initial_world))
   <= 100)%nat /\
  (List.length (character_cache
                  (serve_catalog_all (H := strict_platform) Sample.service calls initial_world))
   <= 50)%nat.
Proof.
  cbv zeta.
  apply (caches_stay_within_capacity (H := strict_platform)); simpl; lia.
Defined.

(** X10: no call is retried: the handlers send at most one request per call,
    failed or not, and never take a request back, so that after any sequence
    of calls the log of requests is the earlier log followed by at most one
    request per call. *)
Theorem at_most_one_request_per_call `{Platform} (svc : MarvelAPIService.t)
    (calls : list catalog_call) (w : World) :
  is_prefix (sent w) (sent (serve_catalog_all svc calls w)) /\
  (List.length (sent (serve_catalog_all svc calls w))
   <= List.length (sent w) + List.length calls)%nat.
Proof.
  unfold serve_catalog_all. revert w.
  induction calls as [|c calls IH]; intros w; simpl.
  - split; [exists []; now rewrite app_nil_r | lia].
  - destruct (IH (serve_catalog svc w c)) as [[tail Htail] Hlen].
    destruct (serve_catalog_sent svc w c) as [Hs | [request Hs]]; rewrite Hs in *.
    + split; [now exists tail | lia].
    + split; [exists (request :: tail); now rewrite Htail, <- app_assoc|].
      rewrite length_app in Hlen. simpl in Hlen. lia.
Qed.

Section SurvivalFacts.
Context `{Platform}.
Variable svc : MarvelAPIService.t.

(** A lookup that returned left its record at the front of the cache. *)
Lemma returned_lookup_is_most_recent env character_id w c :
  fst (get_character svc env character_id w) = Ok c ->
  let w' := snd (get_character svc env character_id w) in
  LRU.lookup Z.eqb character_id (character_cache w') = Some c /\
  cache_position Z.eqb character_id (character_cache w') = Some O.
Proof.
  cbv zeta. rewrite get_character_fst, get_character_snd.
  destruct (LRU.lookup Z.eqb character_id (character_cache w)) as [v|] eqn:Hl.
  - rewrite (get_character_by_id_hit svc env character_id w v Hl).
    cbn [fst snd character_cache]. intros [= ->]. unfold LRU.touch. simpl.
    now rewrite Z.eqb_refl.
  - pose proof (get_character_by_id_miss svc env character_id w Hl) as Hm.
    cbv zeta in Hm. rewrite Hm. clear Hm. cbn [fst snd character_cache].
    destruct (MarvelAPIService.except_RequestException _) as [v|e].
    + intros [= ->]. unfold LRU.store. simpl. now rewrite Z.eqb_refl.
    + destruct (is_HTTPException e); discriminate.
Qed.

(** The record of [character_id] stays cached over a sequence of calls as
    long as fewer than 50 entries can have become more recent. *)
Lemma cached_over_calls character_id c calls :
  forall w i,
    LRU.lookup Z.eqb character_id (character_cache w) = Some c ->
    cache_position Z.eqb character_id (character_cache w) = Some i ->
    (i + lookups calls < 50)%nat ->
    LRU.lookup Z.eqb character_id (character_cache (serve_catalog_all svc calls w)) = Some c.
Proof.
  unfold serve_catalog_all, lookups.
  induction calls as [|call calls IH]; intros w i Hl Hp Hi; simpl; [exact Hl|].
  destruct call as [env search limit off | env other]; simpl in Hi |- *.
  - rewrite get_characters_snd.
    destruct (get_characters_world svc env search limit off w) as (_ & Hsame & _).
    apply (IH _ i); [now rewrite Hsame | now rewrite Hsame | exact Hi].
  - rewrite get_character_snd.
    destruct (get_character_by_id_world svc env other w) as (Hcache & _ & _).
    destruct (call_keeps_recent Z.eqb Z.eqb_eq 50
                (MarvelAPIService.get_character_by_id_wrapped svc env)
                character_id other (character_cache w) (sent w) c i Hl Hp ltac:(lia))
      as (Hl' & j & Hj & Hle).
    apply (IH _ j); [now rewrite Hcache | now rewrite Hcache | lia].
Qed.

End SurvivalFacts.

(** X11: a character that was looked up with success is served from the
    cache afterwards, with the same record and without a request, whatever
    the upstream does by then, also after any calls in between of which
    fewer than 50 are lookups by id. *)
Theorem fetched_character_is_served_from_the_cache `{Platform}
    (svc : MarvelAPIService.t) (env env' : Env) (character_id : Z) (w : World)
    (c : Character.t) (calls : list catalog_call) :
  fst (get_character svc env character_id w) = Ok c ->
  (lookups calls < 50)%nat ->
  let later := serve_catalog_all svc calls (snd (get_character svc env character_id w)) in
  fst (get_character svc env' character_id later) = Ok c /\
  sent (snd (get_character svc env' character_id later)) = sent later.
Proof.
  intros Hret Hcalls. cbv zeta.
  destruct (returned_lookup_is_most_recent svc env character_id w c Hret) as [Hl Hp].
  pose proof (cached_over_calls svc character_id c calls _ O Hl Hp ltac:(lia)) as Hlater.
  set (later := serve_catalog_all svc calls _) in *.
  rewrite get_character_fst, get_character_snd.
  rewrite (get_character_by_id_hit svc env' character_id later c Hlater). now split.
Qed.

Lemma fetched_character_is_served_from_the_cache_witness :
  let env := Sample.answering 0 (Sample.envelope 200 [Sample.record 7 "Seven"]) in
  let calls := [ LookupCharacter (Sample.down 1) 8; ListCharacters env None 20 0 ] in
  let later :=
    serve_catalog_all (H := strict_platform) Sample.service calls
      (snd (get_character (H := strict_platform) Sample.service env 7 initial_world)) in
  http_status (fst (get_character (H := strict_platform) Sample.service (Sample.down 2) 7 later))
  = 200 /\
  sent (snd (get_character (H := strict_platform) Sample.service (Sample.down 2) 7 later))
  = sent later.
Proof.
  cbv zeta.
  destruct (fetched_character_is_served_from_the_cache (H := strict_platform) Sample.service
              (Sample.answering 0 (Sample.envelope 200 [Sample.record 7 "Seven"]))
              (Sample.down 2) 7 initial_world
              (Character.mk 7 "Seven" "No description available"
                 (CharacterThumbnail.mk "http://i.example/p" "jpg")
                 "http://gateway.example/c" [] 0 0 0 0)
              [ LookupCharacter (Sample.down 1) 8;
                ListCharacters
                  (Sample.answering 0 (Sample.envelope 200 [Sample.record 7 "Seven"]))
                  None 20 0 ])
    as [Hret Hsent].
  - vm_compute. reflexivity.
  - vm_compute. lia.
  - split; [now rewrite Hret | exact Hsent].
Defined.

(** X12: a lookup that failed is not remembered: both caches are as before,
    one request went out, and the next lookup of the same id asks the
    upstream again. *)
Theorem failed_lookup_is_not_cached `{Platform}
    (svc : MarvelAPIService.t) (env env' : Env) (character_id : Z) (w : World) (e : exn) :
  fst (get_character svc env character_id w) = Raise e ->
  let w1 := snd (get_character svc env character_id w) in
  character_cache w1 = character_cache w /\
  characters_cache w1 = characters_cache w /\
  sent w1 = sent w ++ [MarvelAPIService.character_request svc env character_id] /\
  sent (snd (get_character svc env' character_id w1))
  = sent w1 ++ [MarvelAPIService.character_request svc env' character_id].
Proof.
  cbv zeta. rewrite get_character_fst, !get_character_snd.
  destruct (LRU.lookup Z.eqb character_id (character_cache w)) as [v|] eqn:Hl.
  - rewrite (get_character_by_id_hit svc env character_id w v Hl). discriminate.
  - pose proof (get_character_by_id_miss svc env character_id w Hl) as Hm.
    cbv zeta in Hm. rewrite Hm. clear Hm. cbn [fst snd].
    destruct (MarvelAPIService.except_RequestException _) as [v|e0]; [discriminate|].
    intros _. cbn [character_cache characters_cache sent].
    repeat split.
    match goal with
    | |- sent (snd (MarvelAPIService.get_character_by_id _ _ _ ?w1)) = _ =>
        pose proof (get_character_by_id_miss svc env' character_id w1 Hl) as Hm
    end.
    cbv zeta in Hm. rewrite Hm. reflexivity.
Qed.

Lemma failed_lookup_is_not_cached_witness :
  let w1 := snd (get_character (H := strict_platform) Sample.service (Sample.down 0) 7
                   initial_world) in
  character_cache w1 = [] /\
  List.length
    (sent (snd (get_character (H := strict_platform) Sample.service (Sample.down 1) 7 w1)))
  = 2%nat.
Proof.
  cbv zeta.
  destruct (failed_lookup_is_not_cached (H := strict_platform) Sample.service
              (Sample.down 0) (Sample.down 1) 7 initial_world
              (HTTPException 503 (MarvelAPIUnavailable (RequestException "ConnectionError")))
              eq_refl)
    as (Hcache & _ & Hsent & Hnext).
  split; [exact Hcache|]. rewrite Hnext, Hsent. reflexivity.
Defined.

(** ** Lists of favorites *)

Lemma firstn_In {A : Type} (n : nat) (l : list A) (x : A) : In x (firstn n l) -> In x l.
Proof.
  intros Hin. rewrite <- (firstn_skipn n l). apply in_or_app. now left.
Qed.

Lemma matches_user u doc :
  matches (ByUser u) doc = true <-> FavoriteCharacter.user_id doc = u.
Proof. unfold matches. apply String.eqb_eq. Qed.

(** X13: with a driver whose calls succeed, [get_favorites] answers 200
    with the first 1000 documents of the user, in the store's order: every
    document returned is stored and is the user's, never more than 1000 are
    returned, and a user with 1000 documents or fewer gets them all. *)
Theorem get_favorites_lists_the_first_1000
    (uuid : string) (now : datetime) (user_id : string) (favorites : Collection.t) :
  exists favs,
    get_favorites (reliable uuid now) user_id favorites = Ok favs /\
    is_prefix favs (documents_of user_id favorites) /\
    (List.length favs <= 1000)%nat /\
    Forall (fun doc => In doc favorites /\ FavoriteCharacter.user_id doc = user_id) favs /\
    ((List.length (documents_of user_id favorites) <= 1000)%nat ->
     favs = documents_of user_id favorites).
Proof.
  unfold get_favorites, reliable, Collection.find_to_list. cbn [find_fault].
  fold (documents_of user_id favorites).
  exists (firstn 1000 (documents_of user_id favorites)). split; [reflexivity|].
  split; [exists (skipn 1000 (documents_of user_id favorites)); now rewrite firstn_skipn|].
  split; [apply firstn_le_length|]. split.
  - apply Forall_forall. intros doc Hin. apply firstn_In in Hin.
    unfold documents_of in Hin. apply filter_In in Hin as [Hin Hm].
    split; [exact Hin | now apply matches_user].
  - intros Hlen. now apply firstn_all2.
Qed.

Lemma get_favorites_lists_the_first_1000_witness :
  let stored := FavoriteCharacter.new "id-1" 1 Sample.spider_man in
  get_favorites (reliable "" 2) "user-1" [stored] = Ok [stored] /\
  get_favorites (reliable "" 2) "user-2" [stored] = Ok [].
Proof.
  cbv zeta. split.
  - destruct (get_favorites_lists_the_first_1000 "" 2 "user-1"
                [FavoriteCharacter.new "id-1" 1 Sample.spider_man])
      as (favs & -> & _ & _ & _ & Hall).
    rewrite Hall; [reflexivity | simpl; lia].
  - destruct (get_favorites_lists_the_first_1000 "" 2 "user-2"
                [FavoriteCharacter.new "id-1" 1 Sample.spider_man])
      as (favs & -> & _ & _ & _ & Hall).
    rewrite Hall; [reflexivity | simpl; lia].
Defined.

Lemma documents_of_app u (l1 l2 : Collection.t) :
  documents_of u (l1 ++ l2) = documents_of u l1 ++ documents_of u l2.
Proof. unfold documents_of. apply filter_app. Qed.

(** X14: with a driver whose calls succeed, the document stored by an add
    is the last of the user's documents, and the list that follows shows it
    exactly when the user had fewer than 1000 documents before: past that,
    the add answers 200 and the list does not show the new favorite. *)
Theorem added_favorite_is_listed_below_the_cap
    (uuid uuid' : string) (now now' : datetime) (favorite : FavoriteCreate.t)
    (favorites : Collection.t) :
  let user_id := FavoriteCreate.user_id favorite in
  let stored := FavoriteCharacter.stored (FavoriteCharacter.new uuid now favorite) in
  let added := add_favorite (reliable uuid now) favorite favorites in
  existsb (matches (ByUserAndCharacter user_id (FavoriteCreate.character_id favorite)))
          favorites = false ->
  http_status (fst added) = 200 /\
  documents_of user_id (snd added) = documents_of user_id favorites ++ [stored] /\
  exists favs,
    get_favorites (reliable uuid' now') user_id (snd added) = Ok favs /\
    (In stored favs <-> (List.length (documents_of user_id favorites) < 1000)%nat).
Proof.
  cbv zeta. intros Hnone. rewrite add_favorite_reliable, Hnone. cbn [fst snd http_status].
  set (stored := FavoriteCharacter.stored (FavoriteCharacter.new uuid now favorite)).
  set (u := FavoriteCreate.user_id favorite).
  assert (Hdocs : documents_of u (favorites ++ [stored]) = documents_of u favorites ++ [stored]).
  { rewrite documents_of_app. f_equal. unfold documents_of. simpl.
    unfold u. now rewrite String.eqb_refl. }
  split; [reflexivity|]. split; [exact Hdocs|].
  unfold get_favorites, reliable, Collection.find_to_list. cbn [find_fault].
  fold (documents_of u (favorites ++ [stored])). rewrite Hdocs.
  eexists. split; [reflexivity|].
  assert (Hnotin : ~ In stored (documents_of u favorites)).
  { intros Hin. unfold documents_of in Hin. apply filter_In in Hin as [Hin _].
    apply (existsb_false_not_in _ _ _ Hnone). apply in_map_iff. now exists stored. }
  split.
  - intros Hin.
    destruct (Nat.lt_ge_cases (List.length (documents_of u favorites)) 1000) as [Hlt|Hge];
      [exact Hlt|]. exfalso. apply Hnotin.
    rewrite firstn_app in Hin.
    replace (1000 - List.length (documents_of u favorites))%nat with O in Hin by lia.
    rewrite firstn_0, app_nil_r in Hin. now apply firstn_In in Hin.
  - intros Hlt. rewrite firstn_all2 by (rewrite length_app; simpl; lia).
    apply in_or_app. right. now left.
Qed.

Lemma crowded_has_1000 : List.length (documents_of "user-1" Fixture.crowded) = 1000%nat.
Proof. vm_compute. reflexivity. Qed.

Lemma added_favorite_is_listed_below_the_cap_witness :
  let stored := FavoriteCharacter.stored (FavoriteCharacter.new "id-1" 1 Sample.spider_man) in
  let below := [FavoriteCharacter.stored (FavoriteCharacter.new "id-0" 0 Sample.hulk)] in
  (exists favs,
     get_favorites (reliable "" 2) "user-1"
       (snd (add_favorite (reliable "id-1" 1) Sample.spider_man below)) = Ok favs /\
     In stored favs) /\
  (http_status (fst (add_favorite (reliable "id-1" 1) Sample.spider_man Fixture.crowded))
   = 200 /\
   exists favs,
     get_favorites (reliable "" 2) "user-1"
       (snd (add_favorite (reliable "id-1" 1) Sample.spider_man Fixture.crowded)) = Ok favs /\
     ~ In stored favs).
Proof.
  cbv zeta. split.
  - destruct (added_favorite_is_listed_below_the_cap "id-1" "" 1 2 Sample.spider_man
                [FavoriteCharacter.stored (FavoriteCharacter.new "id-0" 0 Sample.hulk)]
                eq_refl) as (_ & _ & favs & Hget & Hiff).
    exists favs. split; [exact Hget|]. apply Hiff. simpl. lia.
  - assert (Hnone : existsb (matches (ByUserAndCharacter "user-1" 1009610)) Fixture.crowded
                    = false) by (vm_compute; reflexivity).
    destruct (added_favorite_is_listed_below_the_cap "id-1" "" 1 2 Sample.spider_man
                Fixture.crowded Hnone) as (Hstatus & Hdocs & favs & Hget & Hiff).
    split; [exact Hstatus|]. exists favs. split; [exact Hget|].
    intros Hin. apply Hiff in Hin.
    cbn [FavoriteCreate.user_id Sample.spider_man] in Hin.
    rewrite crowded_has_1000 in Hin. lia.
Defined.

Lemma documents_of_remove_first_other u u' c (favorites : Collection.t) :
  u' <> u ->
  documents_of u' (Collection.remove_first (ByUserAndCharacter u c) favorites)
  = documents_of u' favorites.
Proof.
  intros Hne. unfold documents_of.
  induction favorites as [|doc favorites IH]; simpl; [reflexivity|].
  destruct (String.eqb_spec (FavoriteCharacter.user_id doc) u) as [Hu|Hu]; simpl.
  - destruct (FavoriteCharacter.character_id doc =? c); simpl.
    + destruct (String.eqb_spec (FavoriteCharacter.user_id doc) u'); [congruence|reflexivity].
    + now rewrite IH.
  - now rewrite IH.
Qed.

(** X15: a write for one user does not touch the list of another: whatever
    the driver does, after an add or a remove for [user_id] the documents
    of any other user, and so the list [get_favorites] gives for that user,
    are what they were. *)
Theorem writes_leave_other_users_alone
    (drv drv' : Driver) (favorite : FavoriteCreate.t) (user_id other : string)
    (character_id : Z) (favorites : Collection.t) :
  (other <> FavoriteCreate.user_id favorite ->
   documents_of other (snd (add_favorite drv favorite favorites))
   = documents_of other favorites /\
   get_favorites drv' other (snd (add_favorite drv favorite favorites))
   = get_favorites drv' other favorites) /\
  (other <> user_id ->
   documents_of other (snd (remove_favorite drv user_id character_id favorites))
   = documents_of other favorites /\
   get_favorites drv' other (snd (remove_favorite drv user_id character_id favorites))
   = get_favorites drv' other favorites).
Proof.
  assert (Hlist : forall c c' : Collection.t,
            documents_of other c = documents_of other c' ->
            get_favorites drv' other c = get_favorites drv' other c').
  { intros c c' Hd. unfold get_favorites, Collection.find_to_list.
    fold (documents_of other c) (documents_of other c'). now rewrite Hd. }
  split; intros Hne.
  - assert (Hdocs : documents_of other (snd (add_favorite drv favorite favorites))
                    = documents_of other favorites).
    { unfold add_favorite, Collection.find_one, Collection.insert_one.
      destruct (find_one_fault drv); cbn [snd]; try reflexivity.
      destruct (List.find _ favorites); cbn [snd]; [reflexivity|].
      assert (Happ : documents_of other
                       (favorites ++
                        [FavoriteCharacter.stored
                           (FavoriteCharacter.new (uuid4 drv) (utcnow drv) favorite)])
                     = documents_of other favorites).
      { rewrite documents_of_app. unfold documents_of at 2. simpl.
        destruct (String.eqb_spec (FavoriteCreate.user_id favorite) other);
          [congruence | apply app_nil_r]. }
      destruct (insert_one_fault drv); cbn [snd]; [exact Happ | reflexivity | exact Happ]. }
    split; [exact Hdocs | now apply Hlist].
  - assert (Hdocs : documents_of other
                      (snd (remove_favorite drv user_id character_id favorites))
                    = documents_of other favorites).
    { unfold remove_favorite, Collection.delete_one.
      destruct (delete_one_fault drv); cbn [snd]; try reflexivity;
        try (now apply documents_of_remove_first_other).
      destruct (Collection.deleted_count _ favorites =? 0); cbn [snd];
        now apply documents_of_remove_first_other. }
    split; [exact Hdocs | now apply Hlist].
Qed.

Lemma writes_leave_other_users_alone_witness :
  let stored := FavoriteCharacter.new "id-0" 0 (FavoriteCreate.mk "user-2" 7 "Seven") in
  get_favorites (reliable "" 3) "user-2"
    (snd (add_favorite (reliable "id-1" 1) Sample.spider_man [stored]))
  = get_favorites (reliable "" 3) "user-2" [stored] /\
  get_favorites (reliable "" 3) "user-2"
    (snd (remove_favorite (reliable "" 2) "user-1" 7 [stored]))
  = get_favorites (reliable "" 3) "user-2" [stored].
Proof.
  cbv zeta. split.
  - apply (proj1 (writes_leave_other_users_alone (reliable "id-1" 1) (reliable "" 3)
                    Sample.spider_man "user-1" "user-2" 7 _)). discriminate.
  - apply (proj2 (writes_leave_other_users_alone (reliable "" 2) (reliable "" 3)
                    Sample.spider_man "user-1" "user-2" 7 _)). discriminate.
Defined.

(** ** Writes to the favorites *)

Lemma no_match_after_remove_first u c (favorites : Collection.t) :
  unique_pairs favorites ->
  existsb (matches (ByUserAndCharacter u c))
          (Collection.remove_first (ByUserAndCharacter u c) favorites) = false.
Proof.
  intros Hu.
  destruct (existsb (matches (ByUserAndCharacter u c)) favorites) eqn:Hex.
  - destruct (remove_first_split _ _ Hex) as (before & doc & after & -> & Hb & Hd & ->).
    rewrite existsb_app, Hb. simpl.
    destruct (existsb _ after) eqn:Hafter; [|reflexivity]. exfalso.
    apply existsb_exists in Hafter as (doc' & Hin & Hd').
    apply matches_pair in Hd, Hd'.
    unfold unique_pairs in Hu. rewrite map_app in Hu. simpl in Hu.
    apply NoDup_remove_2 in Hu. apply Hu. apply in_or_app. right.
    rewrite Hd, <- Hd'. now apply in_map.
  - now rewrite remove_first_no_match.
Qed.

(** X16: with a driver whose calls succeed and a collection that holds each
    pair at most once, a pair that was just removed is gone: removing it
    again answers 404, and adding it again answers 200. *)
Theorem removed_pair_is_gone
    (uuid1 uuid2 uuid3 : string) (now1 now2 now3 : datetime)
    (user_id : string) (character_id : Z) (character_name : string)
    (favorites : Collection.t) :
  unique_pairs favorites ->
  let after := snd (remove_favorite (reliable uuid1 now1) user_id character_id favorites) in
  http_status (fst (remove_favorite (reliable uuid2 now2) user_id character_id after)) = 404 /\
  http_status
    (fst (add_favorite (reliable uuid3 now3)
            (FavoriteCreate.mk user_id character_id character_name) after)) = 200.
Proof.
  intros Hu. cbv zeta.
  assert (Hgone : existsb (matches (ByUserAndCharacter user_id character_id))
                    (snd (remove_favorite (reliable uuid1 now1) user_id character_id favorites))
                  = false).
  { rewrite remove_favorite_reliable.
    destruct (existsb _ favorites) eqn:Hex; cbn [snd];
      [now apply no_match_after_remove_first | exact Hex]. }
  rewrite remove_favorite_reliable, add_favorite_reliable. cbn [FavoriteCreate.user_id
    FavoriteCreate.character_id]. now rewrite Hgone.
Qed.

Lemma removed_pair_is_gone_witness :
  let stored := FavoriteCharacter.new "id-1" 1 Sample.spider_man in
  let after := snd (remove_favorite (reliable "" 2) "user-1" 1009610 [stored]) in
  http_status (fst (remove_favorite (reliable "" 3) "user-1" 1009610 after)) = 404 /\
  http_status (fst (add_favorite (reliable "id-2" 4)
                      (FavoriteCreate.mk "user-1" 1009610 "Spider-Man") after)) = 200.
Proof.
  cbv zeta.
  apply (removed_pair_is_gone "" "" "id-2" 2 3 4 "user-1" 1009610 "Spider-Man"
           [FavoriteCharacter.new "id-1" 1 Sample.spider_man]).
  unfold unique_pairs. simpl. constructor; [intros [] | constructor].
Defined.

Lemma remove_first_incl q (c : Collection.t) :
  incl (Collection.remove_first q c) c /\
  (List.length c <= S (List.length (Collection.remove_first q c)))%nat.
Proof.
  induction c as [|doc c [IHi IHl]]; simpl; [split; [apply incl_refl | lia]|].
  destruct (matches q doc); simpl.
  - split; [apply incl_tl, incl_refl | lia].
  - split; [|lia]. intros x [<-|Hx]; [now left | right; now apply IHi].
Qed.

(** Where a document of the collection comes from: it was there at the
    start, or one of the adds of the sequence stored it, with the fields of
    that add's request. *)
Lemma serve_provenance (r : write_request) (favorites : Collection.t) (doc : FavoriteCharacter.t) :
  In doc (serve favorites r) ->
  In doc favorites \/
  exists drv favorite,
    r = Add drv favorite /\
    doc = FavoriteCharacter.stored (FavoriteCharacter.new (uuid4 drv) (utcnow drv) favorite).
Proof.
  destruct r as [drv favorite | drv user_id character_id]; simpl.
  - unfold add_favorite, Collection.find_one, Collection.insert_one.
    destruct (find_one_fault drv); cbn [snd]; try (now left).
    destruct (List.find _ favorites); cbn [snd]; [now left|].
    destruct (insert_one_fault drv); cbn [snd]; try (now left);
      (intros Hin; apply in_app_or in Hin as [Hin|[<-|[]]]; [now left | right; eauto]).
  - intros Hin. left. revert Hin.
    pose proof (remove_first_incl (ByUserAndCharacter user_id character_id) favorites)
      as [Hincl _].
    unfold remove_favorite, Collection.delete_one.
    destruct (delete_one_fault drv); cbn [snd]; auto.
    destruct (Collection.deleted_count _ favorites =? 0); cbn [snd]; auto.
Qed.

(** The documents that stay keep their order. *)
Lemma remove_first_keeps_order q (c : Collection.t) :
  Collection.remove_first q c = c \/
  exists before doc after,
    c = before ++ doc :: after /\ matches q doc = true /\
    Collection.remove_first q c = before ++ after.
Proof.
  destruct (existsb (matches q) c) eqn:Hex.
  - right. destruct (remove_first_split _ _ Hex) as (before & doc & after & Hc & _ & Hd & Hr).
    now exists before, doc, after.
  - left. now apply remove_first_no_match.
Qed.

(** X17: stored documents are never changed in place and none comes from
    nowhere.  Whatever the requests and whatever the driver does in each of
    them, every document of the collection after a sequence of adds and
    removes was in the collection before it, unchanged, or is the document
    one add of the sequence stored, with the user_id, the character_id and
    the character_name of that add's request; and one remove takes out one
    document matching its pair, or none, and keeps the others in their
    order. *)
Theorem documents_are_kept_or_come_from_an_add
    (requests : list write_request) (favorites : Collection.t) :
  Forall (fun doc =>
            In doc favorites \/
            exists drv favorite,
              In (Add drv favorite) requests /\
              doc = FavoriteCharacter.stored
                      (FavoriteCharacter.new (uuid4 drv) (utcnow drv) favorite) /\
              FavoriteCharacter.user_id doc = FavoriteCreate.user_id favorite /\
              FavoriteCharacter.character_id doc = FavoriteCreate.character_id favorite /\
              FavoriteCharacter.character_name doc = FavoriteCreate.character_name favorite)
         (serve_all requests favorites) /\
  (forall drv user_id character_id,
     let after := snd (remove_favorite drv user_id character_id favorites) in
     after = favorites \/
     exists before doc rest,
       favorites = before ++ doc :: rest /\
       pair_of doc = (user_id, character_id) /\
       after = before ++ rest).
Proof.
  split.
  - apply Forall_forall. unfold serve_all. revert favorites.
    induction requests as [|r requests IH]; intros favorites doc Hin; simpl in Hin;
      [now left|].
    destruct (IH _ _ Hin) as [Hold | (drv & favorite & Hreq & Hdoc)].
    + destruct (serve_provenance r favorites doc Hold) as [Hstart | (drv & favorite & -> & ->)];
        [now left|].
      right. exists drv, favorite. split; [now left|]. now repeat split.
    + right. exists drv, favorite. split; [now right | exact Hdoc].
  - intros drv user_id character_id. cbv zeta.
    destruct (remove_first_keeps_order (ByUserAndCharacter user_id character_id) favorites)
      as [Hsame | (before & doc & rest & Hf & Hd & Hr)];
      unfold remove_favorite, Collection.delete_one;
      destruct (delete_one_fault drv); cbn [snd]; try (now left);
      try (destruct (Collection.deleted_count _ favorites =? 0); cbn [snd]).
    all: try (left; exact Hsame).
    all: right; exists before, doc, rest; apply matches_pair in Hd; now repeat split.
Qed.

(** X18: the favorites handlers answer nothing but the statuses of their
    own: 200, 400 or 500 for an add, 200, 404 or 500 for a remove, 200 or
    500 for a list, the 500 of a remove and of a list exactly when the call
    of the driver failed; and an add that answers 400 or a remove that
    answers 404 wrote nothing. *)
Theorem favorites_statuses
    (drv : Driver) (favorite : FavoriteCreate.t) (user_id : string) (character_id : Z)
    (favorites : Collection.t) :
  let added := add_favorite drv favorite favorites in
  let removed := remove_favorite drv user_id character_id favorites in
  let listed := get_favorites drv user_id favorites in
  (http_status (fst added) = 200 \/ http_status (fst added) = 400 \/
   http_status (fst added) = 500) /\
  (http_status (fst removed) = 200 \/ http_status (fst removed) = 404 \/
   http_status (fst removed) = 500) /\
  (http_status listed = 200 \/ http_status listed = 500) /\
  (http_status (fst removed) = 500 <-> delete_one_fault drv <> NoFault) /\
  (http_status listed = 500 <-> find_fault drv <> NoFault) /\
  (http_status (fst added) = 400 -> snd added = favorites) /\
  (http_status (fst removed) = 404 -> snd removed = favorites).
Proof.
  cbv zeta.
  unfold add_favorite, remove_favorite, get_favorites, Collection.find_one,
    Collection.insert_one, Collection.delete_one, Collection.find_to_list,
    Collection.deleted_count.
  repeat split.
  - destruct (find_one_fault drv); cbn; auto.
    destruct (List.find _ favorites); cbn; auto.
    destruct (insert_one_fault drv); cbn; auto.
  - destruct (delete_one_fault drv); cbn; auto.
    destruct (existsb _ favorites); cbn; auto.
  - destruct (find_fault drv); cbn; auto.
  - destruct (delete_one_fault drv); cbn; try (intros; discriminate).
    destruct (existsb _ favorites); cbn; discriminate.
  - destruct (delete_one_fault drv); cbn; try (intros; reflexivity). congruence.
  - destruct (find_fault drv); cbn; try (intros; discriminate).
  - destruct (find_fault drv); cbn; try (intros; reflexivity). congruence.
  - destruct (find_one_fault drv); cbn; try discriminate.
    destruct (List.find _ favorites); cbn; [reflexivity|].
    destruct (insert_one_fault drv); cbn; discriminate.
  - destruct (delete_one_fault drv); cbn; try discriminate.
    destruct (existsb _ favorites) eqn:Hex; cbn; [discriminate|].
    intros _. now apply remove_first_no_match.
Qed.

Lemma favorites_statuses_witness :
  let stored := FavoriteCharacter.new "id-1" 1 Sample.spider_man in
  snd (add_favorite (reliable "id-2" 2) Sample.spidey [stored]) = [stored] /\
  snd (remove_favorite (reliable "" 3) "user-1" 7 [stored]) = [stored].
Proof.
  cbv zeta.
  pose (T := favorites_statuses (reliable "id-2" 2) Sample.spidey "user-1" 7
               [FavoriteCharacter.new "id-1" 1 Sample.spider_man]).
  split.
  - apply (proj1 (proj2 (proj2 (proj2 (proj2 (proj2 T)))))). reflexivity.
  - apply (proj2 (proj2 (proj2 (proj2 (proj2 (proj2 T)))))). reflexivity.
Defined.

(** ** The test client *)

Module TesterFacts.
Import MarvelAPITester.

(** One run counts one test, at most one pass, and keeps the rest. *)
Lemma run_test_counters srv self method endpoint expected data params :
  let after := snd (run_test srv self method endpoint expected data params) in
  tests_run after = S (tests_run self) /\
  (tests_passed self <= tests_passed after <= S (tests_passed self))%nat /\
  base_url after = base_url self /\
  test_user_id after = test_user_id self.
Proof.
  cbv zeta. unfold run_test.
  destruct (String.eqb method "GET"), (String.eqb method "POST"),
    (String.eqb method "DELETE"); cbn [snd tests_run tests_passed base_url test_user_id];
    try (repeat split; lia);
    match goal with
    | |- context [srv ?n ?r] => destruct (srv n r) as [| |status body]
    end; cbn [snd tests_run tests_passed base_url test_user_id]; try (repeat split; lia);
    destruct (status =? expected), body;
    cbn [snd tests_run tests_passed base_url test_user_id]; repeat split; lia.
Qed.

Lemma advanced_run_test srv self method endpoint expected data params :
  advanced 1 self (snd (run_test srv self method endpoint expected data params)).
Proof.
  pose proof (run_test_counters srv self method endpoint expected data params) as Hc.
  cbv zeta in Hc. unfold advanced. destruct Hc as (Hr & Hp & Hb & Hu).
  repeat split; try assumption; lia.
Qed.

Lemma advanced_trans j k a b c : advanced j a b -> advanced k b c -> advanced (j + k) a c.
Proof.
  unfold advanced. intros (Hr & Hp & Hq & Hb & Hu) (Hr' & Hp' & Hq' & Hb' & Hu').
  repeat split; try congruence; lia.
Qed.

(** The workflow runs between one and six tests. *)
Lemma advanced_workflow srv self :
  exists k, (1 <= k <= 6)%nat /\ advanced k self (snd (test_favorites_workflow srv self)).
Proof.
  unfold test_favorites_workflow.
  set (favorites := ("favorites/" ++ test_user_id self)%string).
  pose proof (advanced_run_test srv self "GET" favorites 200 None []) as H1.
  destruct (run_test srv self "GET" favorites 200 None []) as [[s1 d1] t1]. cbn [snd] in H1.
  destruct s1; cbn [negb]; [|exists 1%nat; split; [lia | exact H1]].
  pose proof (advanced_run_test srv t1 "POST" "favorites" 200 (Some (favorite_data t1)) [])
    as H2.
  destruct (run_test srv t1 "POST" "favorites" 200 _ []) as [[s2 d2] t2]. cbn [snd] in H2.
  pose proof (advanced_trans _ _ _ _ _ H1 H2) as H12.
  destruct s2; cbn [negb]; [|exists 2%nat; split; [lia | exact H12]].
  pose proof (advanced_run_test srv t2 "GET" favorites 200 None []) as H3.
  destruct (run_test srv t2 "GET" favorites 200 None []) as [[s3 d3] t3]. cbn [snd] in H3.
  pose proof (advanced_trans _ _ _ _ _ H12 H3) as H13.
  destruct s3; cbn [negb]; [|exists 3%nat; split; [lia | exact H13]].
  pose proof (advanced_run_test srv t3 "POST" "favorites" 400 (Some (favorite_data t3)) [])
    as H4.
  destruct (run_test srv t3 "POST" "favorites" 400 _ []) as [[s4 d4] t4]. cbn [snd] in H4.
  pose proof (advanced_trans _ _ _ _ _ H13 H4) as H14.
  pose proof (advanced_run_test srv t4 "DELETE" (favorites ++ "/1009610")%string 200 None [])
    as H5.
  destruct (run_test srv t4 "DELETE" _ 200 None []) as [[s5 d5] t5]. cbn [snd] in H5.
  pose proof (advanced_trans _ _ _ _ _ H14 H5) as H15.
  destruct s5; cbn [negb]; [|exists 5%nat; split; [lia | exact H15]].
  pose proof (advanced_run_test srv t5 "GET" favorites 200 None []) as H6.
  destruct (run_test srv t5 "GET" favorites 200 None []) as [[s6 d6] t6]. cbn [snd] in H6.
  pose proof (advanced_trans _ _ _ _ _ H15 H6) as H16.
  destruct s6; cbn [negb]; exists 6%nat; (split; [lia | exact H16]).
Qed.

Lemma main_unfolds srv hhmmss :
  main srv hhmmss =
  let tester := snd (test_invalid_search_params srv (before_last srv hhmmss)) in
  (if Nat.eqb (tests_passed tester) (tests_run tester) then 0 else 1, tester).
Proof. reflexivity. Qed.

(** Names the counters after the innermost run of the goal. *)
Ltac next_run Hstep after :=
  match goal with
  | |- context [snd (run_test ?srv ?self ?m ?e ?x ?d ?p)] =>
      is_var self;
      pose proof (advanced_run_test srv self m e x d p) as Hstep;
      set (after := snd (run_test srv self m e x d p)) in *
  end.

Lemma advanced_before_last srv hhmmss :
  exists k, (8 <= k <= 13)%nat /\ advanced k (new hhmmss) (before_last srv hhmmss).
Proof.
  unfold before_last, tests. cbn [removelast fold_left].
  unfold test_root_endpoint, test_get_characters_default, test_search_characters_spider,
    test_search_characters_iron, test_get_character_by_id, test_get_invalid_character,
    test_pagination.
  set (t0 := new hhmmss).
  next_run H1 t1. next_run H2 t2. next_run H3 t3. next_run H4 t4. next_run H5 t5.
  next_run H6 t6.
  destruct (advanced_workflow srv t6) as (kw & Hkw & H7).
  set (t7 := snd (test_favorites_workflow srv t6)) in *.
  next_run H8 t8.
  exists (1 + 1 + 1 + 1 + 1 + 1 + kw + 1)%nat. split; [lia|].
  repeat (eapply advanced_trans; [|eassumption]). assumption.
Qed.

End TesterFacts.

(** X19: whatever the server answers, [main] runs between 9 and 14 tests,
    counts no more passes than tests, and exits with 0 exactly when every
    test run was counted as passed, with 1 otherwise. *)
Theorem main_counts_and_exit_code (srv : MarvelAPITester.server) (hhmmss : string) :
  let code := fst (MarvelAPITester.main srv hhmmss) in
  let tester := snd (MarvelAPITester.main srv hhmmss) in
  (9 <= MarvelAPITester.tests_run tester <= 14)%nat /\
  (MarvelAPITester.tests_passed tester <= MarvelAPITester.tests_run tester)%nat /\
  (code = 0 <-> MarvelAPITester.tests_passed tester = MarvelAPITester.tests_run tester) /\
  (code = 0 \/ code = 1).
Proof.
  cbv zeta. rewrite TesterFacts.main_unfolds. cbv zeta. cbn [fst snd].
  destruct (TesterFacts.advanced_before_last srv hhmmss) as (k & Hk & Hbefore).
  pose proof (TesterFacts.advanced_run_test srv (MarvelAPITester.before_last srv hhmmss)
                "GET" "characters" 200 None [("limit", PInt 200)]) as Hlast.
  pose proof (TesterFacts.advanced_trans _ _ _ _ _ Hbefore Hlast) as Hall.
  unfold MarvelAPITester.test_invalid_search_params.
  set (tester := snd (MarvelAPITester.run_test _ _ _ _ _ _ _)) in *.
  destruct Hall as (Hr & Hp & Hq & _). simpl in Hr, Hp, Hq.
  split; [lia|]. split; [lia|].
  destruct (Nat.eqb_spec (MarvelAPITester.tests_passed tester)
                         (MarvelAPITester.tests_run tester)); split;
    try tauto; try (now left); try (now right).
  split; [discriminate | contradiction].
Qed.

(** Closes the cases of one run, by the answer of the server. *)
Ltac run_cases :=
  repeat split; intros;
  repeat match goal with
         | H : exists _, _ |- _ => destruct H
         | H : _ /\ _ |- _ => destruct H
         end;
  try discriminate; try congruence; try (exfalso; lia);
  try (eexists; split; [reflexivity | discriminate]);
  try (eexists; reflexivity).

(** X20: what a GET run counts and what it tells.  The pass counter goes up
    exactly when a response arrives with the expected status; the flag is
    true exactly when, besides, the body is empty or JSON.  On a body that is
    neither, a response with the expected status is counted as passed and
    reported as failed. *)
Theorem run_test_counter_and_flag (srv : MarvelAPITester.server) (self : MarvelAPITester.t)
    (endpoint : string) (expected_status : Z) (params : Dict.t) :
  let url := (MarvelAPITester.base_url self ++ "/" ++ endpoint)%string in
  let answer := srv (MarvelAPITester.tests_run self) (MarvelAPITester.Get url params) in
  let out := MarvelAPITester.run_test srv self "GET" endpoint expected_status None params in
  (MarvelAPITester.tests_passed (snd out) = S (MarvelAPITester.tests_passed self) <->
   exists body, answer = MarvelAPITester.Answer expected_status body) /\
  (fst (fst out) = true <->
   exists body, answer = MarvelAPITester.Answer expected_status body /\
                body <> MarvelAPITester.NotJson) /\
  (answer = MarvelAPITester.Answer expected_status MarvelAPITester.NotJson ->
   fst (fst out) = false /\
   MarvelAPITester.tests_passed (snd out) = S (MarvelAPITester.tests_passed self)).
Proof.
  cbv zeta. unfold MarvelAPITester.run_test. cbn [String.eqb Ascii.eqb Bool.eqb].
  destruct (srv _ _) as [| |status body].
  - cbn. run_cases.
  - cbn. run_cases.
  - destruct (Z.eqb_spec status expected_status) as [->|Hne]; destruct body; cbn; run_cases.
Qed.

Lemma run_test_counter_and_flag_witness :
  let srv : MarvelAPITester.server :=
    fun _ _ => MarvelAPITester.Answer 200 MarvelAPITester.NotJson in
  let out :=
    MarvelAPITester.run_test srv (MarvelAPITester.new "120000") "GET" "" 200 None [] in
  fst (fst out) = false /\ MarvelAPITester.tests_passed (snd out) = 1%nat.
Proof.
  cbv zeta.
  apply (proj2 (proj2 (run_test_counter_and_flag
                         (fun _ _ => MarvelAPITester.Answer 200 MarvelAPITester.NotJson)
                         (MarvelAPITester.new "120000") "" 200 []))).
  reflexivity.
Defined.

Section WorkflowFacts.
Import MarvelAPITester.
Variable srv : server.

(** A run whose response has the expected status and a body that parses. *)
Lemma run_test_passes self method endpoint expected data params r body :
  (if String.eqb method "GET" then Some (Get (base_url self ++ "/" ++ endpoint) params)
   else if String.eqb method "POST" then Some (Post (base_url self ++ "/" ++ endpoint) data)
   else if String.eqb method "DELETE" then Some (Delete (base_url self ++ "/" ++ endpoint))
   else None) = Some r ->
  srv (tests_run self) r = Answer expected body ->
  body <> NotJson ->
  exists response_data,
    run_test srv self method endpoint expected data params
    = ((true, response_data),
       mk (base_url self) (S (tests_run self)) (S (tests_passed self)) (test_user_id self)).
Proof.
  intros Hcall Hanswer Hbody. unfold run_test. rewrite Hcall, Hanswer, Z.eqb_refl.
  destruct body; [eexists; reflexivity | eexists; reflexivity | contradiction].
Qed.

(** A GET run whose response has another status than the expected one. *)
Lemma run_get_mismatch self endpoint expected params status body :
  srv (tests_run self) (Get (base_url self ++ "/" ++ endpoint) params) = Answer status body ->
  status <> expected ->
  tests_passed (snd (run_test srv self "GET" endpoint expected None params))
  = tests_passed self.
Proof.
  intros Hanswer Hne. unfold run_test. cbn [String.eqb Ascii.eqb Bool.eqb].
  rewrite Hanswer. destruct (Z.eqb_spec status expected); [contradiction|].
  now destruct body.
Qed.

End WorkflowFacts.

(** X21: the verdict of the favorites workflow rests on the statuses of five
    of its six steps alone.  When the first add, the three lists and the
    remove are answered with status 200 and a body that parses, the
    workflow returns True after six tests, whatever the answer to the
    duplicate add and whatever the three lists hold: the counts it prints
    are never compared. *)
Theorem workflow_verdict_rests_on_five_statuses (srv : MarvelAPITester.server)
    (self : MarvelAPITester.t) (b1 b2 b3 b5 b6 : MarvelAPITester.content) :
  let n := MarvelAPITester.tests_run self in
  let base := MarvelAPITester.base_url self in
  let favorites := ("favorites/" ++ MarvelAPITester.test_user_id self)%string in
  let list := MarvelAPITester.Get (base ++ "/" ++ favorites) [] in
  let add :=
    MarvelAPITester.Post (base ++ "/" ++ "favorites")
      (Some (JDict [ ("user_id", JStr (MarvelAPITester.test_user_id self));
                     ("character_id", JInt 1009610);
                     ("character_name", JStr "Spider-Man") ])) in
  let remove := MarvelAPITester.Delete (base ++ "/" ++ (favorites ++ "/1009610")) in
  srv n list = MarvelAPITester.Answer 200 b1 -> b1 <> MarvelAPITester.NotJson ->
  srv (1 + n)%nat add = MarvelAPITester.Answer 200 b2 -> b2 <> MarvelAPITester.NotJson ->
  srv (2 + n)%nat list = MarvelAPITester.Answer 200 b3 -> b3 <> MarvelAPITester.NotJson ->
  srv (4 + n)%nat remove = MarvelAPITester.Answer 200 b5 -> b5 <> MarvelAPITester.NotJson ->
  srv (5 + n)%nat list = MarvelAPITester.Answer 200 b6 -> b6 <> MarvelAPITester.NotJson ->
  fst (MarvelAPITester.test_favorites_workflow srv self) = true /\
  MarvelAPITester.tests_run (snd (MarvelAPITester.test_favorites_workflow srv self))
  = (6 + n)%nat.
Proof.
  destruct self as [base n p user]. cbv zeta.
  cbn [MarvelAPITester.tests_run MarvelAPITester.base_url MarvelAPITester.test_user_id
       Nat.add].
  intros H1 N1 H2 N2 H3 N3 H5 N5 H6 N6.
  unfold MarvelAPITester.test_favorites_workflow.
  cbn [MarvelAPITester.test_user_id].
  destruct (run_test_passes srv (MarvelAPITester.mk base n p user) "GET"
              ("favorites/" ++ user) 200 None [] _ b1 eq_refl H1 N1) as [d1 ->].
  cbn [negb MarvelAPITester.tests_run MarvelAPITester.base_url
       MarvelAPITester.tests_passed MarvelAPITester.test_user_id].
  destruct (run_test_passes srv (MarvelAPITester.mk base (S n) (S p) user) "POST"
              "favorites" 200
              (Some (MarvelAPITester.favorite_data
                       (MarvelAPITester.mk base (S n) (S p) user))) [] _ b2 eq_refl H2 N2)
    as [d2 ->].
  cbn [negb MarvelAPITester.tests_run MarvelAPITester.base_url
       MarvelAPITester.tests_passed MarvelAPITester.test_user_id].
  destruct (run_test_passes srv (MarvelAPITester.mk base (S (S n)) (S (S p)) user) "GET"
              ("favorites/" ++ user) 200 None [] _ b3 eq_refl H3 N3) as [d3 ->].
  cbn [negb MarvelAPITester.tests_run MarvelAPITester.base_url
       MarvelAPITester.tests_passed MarvelAPITester.test_user_id].
  match goal with
  | |- context [MarvelAPITester.run_test srv ?t "POST" ?e 400 ?d ?ps] =>
      pose proof (TesterFacts.run_test_counters srv t "POST" e 400 d ps) as H4;
      destruct (MarvelAPITester.run_test srv t "POST" e 400 d ps) as [[s4 d4] t4]
  end.
  cbv zeta in H4.
  cbn [snd MarvelAPITester.tests_run MarvelAPITester.base_url
       MarvelAPITester.tests_passed MarvelAPITester.test_user_id] in H4.
  destruct t4 as [base4 n4 p4 user4].
  cbn [MarvelAPITester.tests_run MarvelAPITester.base_url
       MarvelAPITester.tests_passed MarvelAPITester.test_user_id] in H4.
  destruct H4 as (-> & _ & -> & ->).
  destruct (run_test_passes srv (MarvelAPITester.mk base (S (S (S (S n)))) p4 user) "DELETE"
              (("favorites/" ++ user) ++ "/1009610") 200 None [] _ b5 eq_refl H5 N5)
    as [d5 ->].
  cbn [negb MarvelAPITester.tests_run MarvelAPITester.base_url
       MarvelAPITester.tests_passed MarvelAPITester.test_user_id].
  destruct (run_test_passes srv (MarvelAPITester.mk base (S (S (S (S (S n))))) (S p4) user)
              "GET" ("favorites/" ++ user) 200 None [] _ b6 eq_refl H6 N6) as [d6 ->].
  cbn [negb fst snd MarvelAPITester.tests_run]. now split.
Qed.

Lemma workflow_verdict_rests_on_five_statuses_witness :
  let srv : MarvelAPITester.server :=
    fun n _ => if Nat.eqb n 3 then MarvelAPITester.Answer 200 MarvelAPITester.Empty
               else MarvelAPITester.Answer 200 (MarvelAPITester.Json (JList [])) in
  fst (MarvelAPITester.test_favorites_workflow srv (MarvelAPITester.new "120000")) = true /\
  MarvelAPITester.tests_run
    (snd (MarvelAPITester.test_favorites_workflow srv (MarvelAPITester.new "120000")))
  = 6%nat.
Proof.
  cbv zeta.
  eapply (workflow_verdict_rests_on_five_statuses _ (MarvelAPITester.new "120000"));
    solve [reflexivity | discriminate].
Defined.

(** X22: the suite cannot pass against the listing route.  Its last test
    asks for limit 200 and expects 200, while the route answers that request
    as its declared constraints have it; so whenever the server answers the
    request with the status of the route, [main] exits with 1. *)
Theorem suite_fails_against_the_listing_route `{Platform}
    (srv : MarvelAPITester.server) (hhmmss : string) :
  (forall n,
     exists svc env w body,
       srv n (MarvelAPITester.Get
                (MarvelAPITester.base_url (MarvelAPITester.new hhmmss) ++ "/" ++ "characters")
                [("limit", PInt 200)])
       = MarvelAPITester.Answer
           (http_status (fst (get_characters_route svc env None (Some 200) None w))) body) ->
  fst (MarvelAPITester.main srv hhmmss) = 1.
Proof.
  intros Hroute. rewrite TesterFacts.main_unfolds. cbv zeta. cbn [fst].
  destruct (TesterFacts.advanced_before_last srv hhmmss) as (k & Hk & Hbefore).
  set (before := MarvelAPITester.before_last srv hhmmss) in *.
  destruct Hbefore as (Hrun & Hle & Hdiff & Hbase & _).
  destruct (Hroute (MarvelAPITester.tests_run before)) as (svc & env & w & body & Hanswer).
  rewrite <- Hbase in Hanswer.
  pose proof (run_get_mismatch srv before "characters" 200 [("limit", PInt 200)] _ body
                Hanswer) as Hsame.
  pose proof (TesterFacts.run_test_counters srv before "GET" "characters" 200 None
                [("limit", PInt 200)]) as Hcount.
  cbv zeta in Hcount. destruct Hcount as (Hrun' & _).
  unfold MarvelAPITester.test_invalid_search_params.
  rewrite Hsame, Hrun'.
  - simpl in Hrun, Hle, Hdiff.
    destruct (Nat.eqb_spec (MarvelAPITester.tests_passed before)
                           (S (MarvelAPITester.tests_run before))); [lia | reflexivity].
  - unfold get_characters_route. cbn. discriminate.
Qed.

Lemma suite_fails_against_the_listing_route_witness :
  let srv : MarvelAPITester.server :=
    fun _ r =>
      match r with
      | MarvelAPITester.Get _ [("limit", PInt 200)] =>
          MarvelAPITester.Answer
            (http_status (fst (get_characters_route (H := strict_platform) Sample.service
                                 (Sample.down 0) None (Some 200) None initial_world)))
            (MarvelAPITester.Json (JDict []))
      | _ => MarvelAPITester.Answer 200 (MarvelAPITester.Json (JList []))
      end in
  fst (MarvelAPITester.main srv "120000") = 1.
Proof.
  cbv zeta.
  apply (suite_fails_against_the_listing_route (H := strict_platform)).
  intros n. exists Sample.service, (Sample.down 0), initial_world, (MarvelAPITester.Json (JDict [])).
  reflexivity.
Defined.

(** ** Eviction *)

Lemma store_full_evicts_last {K V : Type} (maxsize : nat) (k : K) (v : V) (c : @LRU.t K V) :
  List.length c = maxsize -> (0 < maxsize)%nat ->
  LRU.store maxsize k v c = (k, v) :: removelast c.
Proof.
  intros Hlen Hpos. unfold LRU.store. destruct maxsize as [|m]; [lia|].
  rewrite firstn_cons. f_equal. rewrite removelast_firstn_len, Hlen. reflexivity.
Qed.

(** X23: eviction is of the least recently used entry.  When the lookup
    cache holds its 50 entries and a lookup of an id that is not cached
    returns, the new record goes to the front and the last entry, and no
    other, is dropped; a lookup that is served from the cache drops
    nothing and moves its entry to the front. *)
Theorem full_cache_evicts_the_least_recent `{Platform}
    (svc : MarvelAPIService.t) (env : Env) (character_id : Z) (w : World) (c : Character.t) :
  fst (get_character svc env character_id w) = Ok c ->
  let cache := character_cache w in
  let cache' := character_cache (snd (get_character svc env character_id w)) in
  (LRU.lookup Z.eqb character_id cache = None -> List.length cache = 50%nat ->
   cache' = (character_id, c) :: removelast cache) /\
  (LRU.lookup Z.eqb character_id cache = None -> (List.length cache < 50)%nat ->
   cache' = (character_id, c) :: cache) /\
  (LRU.lookup Z.eqb character_id cache <> None ->
   cache' = (character_id, c) :: LRU.remove Z.eqb character_id cache /\
   List.length cache' = List.length cache).
Proof.
  cbv zeta. rewrite get_character_fst, get_character_snd.
  destruct (LRU.lookup Z.eqb character_id (character_cache w)) as [v|] eqn:Hl.
  - rewrite (get_character_by_id_hit svc env character_id w v Hl).
    cbn [fst snd character_cache]. intros [= ->].
    split; [discriminate|]. split; [discriminate|]. intros _.
    split; [reflexivity|]. now apply (touch_length Z.eqb).
  - pose proof (get_character_by_id_miss svc env character_id w Hl) as Hm.
    cbv zeta in Hm. rewrite Hm. clear Hm. cbn [fst snd character_cache].
    destruct (MarvelAPIService.except_RequestException _) as [v|e].
    + intros [= ->]. split; [|split].
      * intros _ Hfull. apply store_full_evicts_last; [exact Hfull | lia].
      * intros _ Hroom. unfold LRU.store. apply firstn_all2. simpl. lia.
      * congruence.
    + destruct (is_HTTPException e); discriminate.
Qed.

Lemma full_cache_evicts_the_least_recent_witness :
  let env := Sample.answering 0 (Sample.envelope 200 [Sample.record 7 "Seven"]) in
  let cache := character_cache Fixture.full_world in
  let cache' :=
    character_cache
      (snd (get_character (H := strict_platform) Sample.service env 7 Fixture.full_world)) in
  List.length cache = 50%nat /\
  cache' = (7, Fixture.seven) :: removelast cache /\
  LRU.lookup Z.eqb 149 cache = Some Fixture.seven /\
  LRU.lookup Z.eqb 149 cache' = None /\
  LRU.lookup Z.eqb 148 cache' = Some Fixture.seven.
Proof.
  cbv zeta.
  pose proof (proj1 (full_cache_evicts_the_least_recent (H := strict_platform)
                       Sample.service
                       (Sample.answering 0 (Sample.envelope 200 [Sample.record 7 "Seven"]))
                       7 Fixture.full_world Fixture.seven eq_refl)
                eq_refl eq_refl) as Hevict.
  cbv zeta in Hevict.
  split; [reflexivity|]. split; [exact Hevict|]. split; [reflexivity|].
  rewrite Hevict. split; reflexivity.
Defined.
